(** * Nuwa digital twin: geometry normalizer, retry executor,
      carbon baseline and deforestation analyzer

    A shallow embedding of the Python sources
    - [scripts/local-analysis/analyze_farm.py]
    - [python-scripts/ndvi_calculator.py]
    - [python-scripts/carbon_baseline.py]
    - [python-scripts/deforestation_analysis.py]

    Conventions of the embedding.
    - A Python [float] is idealised as a real number ([R]); [x ** y] on a
      positive base is [Rpower x y]; comparisons are decided with
      [Rlt_dec]/[Rle_dec] and give a [bool].
    - A function that can raise returns [result A]: [Ok a] or [Raise e].
    - Values loaded from JSON are [json]; a [dict] is an association list
      whose first binding of a key is the one Python sees.
    - Calls to the Earth Engine service are fields of a provider record;
      each returns a [result], so that a failing fetch is a [Raise].
    - Diagnostics printed on stderr are not part of the embedding.
    - Where a comparison of floats decides a reported flag at its
      threshold, the computation is given a second time in IEEE 754
      binary64 ([Binary64]), the arithmetic that Python performs. *)

From Stdlib Require Import Reals Lra Lia ZArith List String Ascii QArith Bool.
From Stdlib Require Import DecimalString.
From Stdlib Require Floats.PrimFloat.
Import ListNotations.

Local Open Scope string_scope.

(* ================================================================== *)
(** ** Exceptions and the error monad *)

(** The exception classes that the modelled code raises or catches.
    [EEException] is [ee.EEException]; every constructor is a subclass of
    Python's [Exception]. *)
Inductive exn : Type :=
| EEException (msg : string)
| ValueError (msg : string)
| KeyError (key : string)
| TypeError (msg : string)
| AttributeError (msg : string)
| ZeroDivisionError (msg : string)
| RuntimeError (msg : string)
| OtherException (cls msg : string).

Inductive result (A : Type) : Type :=
| Ok (a : A)
| Raise (e : exn).

Arguments Ok {A} a.
Arguments Raise {A} e.

Definition bind {A B : Type} (c : result A) (k : A -> result B) : result B :=
  match c with
  | Ok a => k a
  | Raise e => Raise e
  end.

Notation "x <- c ;; k" := (bind c (fun x => k))
  (at level 61, c at next level, right associativity).

(** [try: body except Exception as e: handler e]. *)
Definition try_except {A : Type} (body : result A) (handler : exn -> result A)
  : result A :=
  match body with
  | Ok a => Ok a
  | Raise e => handler e
  end.

Definition is_ok {A : Type} (c : result A) : bool :=
  match c with Ok _ => true | Raise _ => false end.

(* ================================================================== *)
(** ** JSON values *)

#[warnings="-register-all"]
Inductive json : Type :=
| JNull
| JBool (b : bool)
| JNum (q : Q)
| JStr (s : string)
| JList (l : list json)
| JDict (d : list (string * json)).

(** Structural induction that reaches the elements of a list. *)
Section JsonInduction.

Variable P : json -> Prop.
Hypothesis P_null : P JNull.
Hypothesis P_bool : forall b, P (JBool b).
Hypothesis P_num : forall q, P (JNum q).
Hypothesis P_str : forall s, P (JStr s).
Hypothesis P_list : forall l, Forall P l -> P (JList l).
Hypothesis P_dict : forall d, P (JDict d).

Fixpoint json_list_ind (j : json) : P j :=
  match j with
  | JNull => P_null
  | JBool b => P_bool b
  | JNum q => P_num q
  | JStr s => P_str s
  | JList l =>
      P_list l
        ((fix elements (l : list json) : Forall P l :=
            match l with
            | [] => Forall_nil P
            | x :: l' => Forall_cons x (json_list_ind x) (elements l')
            end) l)
  | JDict d => P_dict d
  end.

End JsonInduction.

Fixpoint dict_get (d : list (string * json)) (k : string) : option json :=
  match d with
  | [] => None
  | (k', v) :: d' => if String.eqb k' k then Some v else dict_get d' k
  end.

(** [d.get(k)]: [None] when the key is absent. *)
Definition py_get (d : list (string * json)) (k : string) : json :=
  match dict_get d k with
  | Some v => v
  | None => JNull
  end.

(** Truth value of a JSON-loaded object ([bool(x)]). *)
Definition truthy (j : json) : bool :=
  match j with
  | JNull => false
  | JBool b => b
  | JNum q => negb (Qeq_bool q 0)
  | JStr s => negb (String.eqb s "")
  | JList l => match l with [] => false | _ :: _ => true end
  | JDict d => match d with [] => false | _ :: _ => true end
  end.

(** [isinstance(x, (int, float))]; [bool] is a subclass of [int]. *)
Definition is_number (j : json) : bool :=
  match j with
  | JNum _ | JBool _ => true
  | _ => false
  end.

(** [x is None]. *)
Definition is_none (j : json) : bool :=
  match j with
  | JNull => true
  | _ => false
  end.

Definition is_list (j : json) : bool :=
  match j with
  | JList _ => true
  | _ => false
  end.

(** [x == s] for a string literal [s]. *)
Definition py_eq_str (j : json) (s : string) : bool :=
  match j with
  | JStr s' => String.eqb s' s
  | _ => false
  end.

(** [x[0]]. A dictionary loaded from JSON has string keys only, so the
    integer key 0 is never found. *)
Definition getitem0 (j : json) : result json :=
  match j with
  | JList (x :: _) => Ok x
  | JList [] => Raise (OtherException "IndexError" "list index out of range")
  | JStr (String c _) => Ok (JStr (String c EmptyString))
  | JStr EmptyString =>
      Raise (OtherException "IndexError" "string index out of range")
  | JDict _ => Raise (KeyError "0")
  | _ => Raise (TypeError "object is not subscriptable")
  end.

(** [x[k]] for a string key [k]. *)
Definition getitem (j : json) (k : string) : result json :=
  match j with
  | JDict d =>
      match dict_get d k with
      | Some v => Ok v
      | None => Raise (KeyError k)
      end
  | JList _ => Raise (TypeError "list indices must be integers or slices")
  | JStr _ => Raise (TypeError "string indices must be integers")
  | _ => Raise (TypeError "object is not subscriptable")
  end.

(* ================================================================== *)
(** ** Geometry normalizer ([analyze_farm.py]) *)

Module Geometry.

(** [isinstance(coords, list) and coords and isinstance(coords[0], (int, float))]
    for a list [l]. *)
Definition is_number_head (l : list json) : bool :=
  match l with
  | x :: _ => is_number x
  | [] => false
  end.

Fixpoint _strip_z_coordinates (coords : json) : json :=
  match coords with
  | JList l =>
      if is_number_head l then JList (firstn 2 l)
      else JList (map _strip_z_coordinates l)
  | _ => coords
  end.

(** A coordinate array is planar when every vertex it reaches (a list
    that starts with a number) has at most two components. *)
Fixpoint is_2d (coords : json) : bool :=
  match coords with
  | JList l =>
      if is_number_head l then (List.length l <=? 2)%nat
      else forallb is_2d l
  | _ => true
  end.

(** The coordinate array of a polygon: rings of vertices of numbers. *)
Definition vertex_json (v : list Q) : json := JList (map JNum v).
Definition ring_json (r : list (list Q)) : json := JList (map vertex_json r).
Definition polygon_json (rings : list (list (list Q))) : json :=
  JList (map ring_json rings).

Definition geometry_object (geom_type coords : json) : json :=
  JDict [("type", geom_type); ("coordinates", coords)].

Definition _normalize_geometry (geometry : json) : result json :=
  match geometry with
  | JDict d =>
      let geom_type := py_get d "type" in
      let coords := py_get d "coordinates" in
      if negb (truthy geom_type) || is_none coords
      then Raise (ValueError "Geometria invalida: falta 'type' o 'coordinates'")
      else
        let coords_2d := _strip_z_coordinates coords in
        if py_eq_str geom_type "MultiPolygon" then
          if negb (truthy coords_2d)
          then Raise (ValueError "MultiPolygon invalido: sin poligonos")
          else
            first <- getitem0 coords_2d ;;
            if negb (is_list first)
            then Raise (ValueError "MultiPolygon invalido: sin poligonos")
            else Ok (geometry_object (JStr "Polygon") first)
        else Ok (geometry_object geom_type coords_2d)
  | _ => Raise (ValueError "Geometria invalida: se esperaba un objeto GeoJSON")
  end.

End Geometry.

(* ================================================================== *)
(** ** Resilient remote query executor ([ndvi_calculator.py]) *)

Module Retry.

(** [str.lower] on the ASCII letters; error messages are byte strings. *)
Definition lower_ascii (c : ascii) : ascii :=
  let n := nat_of_ascii c in
  if (65 <=? n)%nat && (n <=? 90)%nat then ascii_of_nat (n + 32) else c.

Fixpoint lower (s : string) : string :=
  match s with
  | EmptyString => EmptyString
  | String c s' => String (lower_ascii c) (lower s')
  end.

(** [needle in haystack]. *)
Fixpoint contains (needle haystack : string) : bool :=
  String.prefix needle haystack
  || match haystack with
     | EmptyString => false
     | String _ rest => contains needle rest
     end.

(** The test of the [except ee.EEException] clause on [str(e).lower()]. *)
Definition retryable_message (msg : string) : bool :=
  let error_msg := lower msg in
  contains "timeout" error_msg
  || contains "rate limit" error_msg
  || contains "quota" error_msg.

Definition str_of_int (z : Z) : string :=
  NilZero.string_of_int (Z.to_int z).

(** [time.sleep(t)]: a negative length raises [ValueError]. *)
Definition sleep_ok (t : R) : bool :=
  if Rle_dec 0 t then true else false.

(** What one execution of the executor did: the outcome of every
    invocation of the operation in order, the lengths of the sleeps in
    order, what the executor returned or raised, and the state the
    operation left behind. *)
Record run (A W : Type) : Type := mk_run {
  outcome : result A;
  calls : list (result A);
  sleeps : list R;
  world : W
}.

Arguments mk_run {A W} _ _ _ _.
Arguments outcome {A W} _.
Arguments calls {A W} _.
Arguments sleeps {A W} _.
Arguments world {A W} _.

Definition after_call {A W : Type} (c : result A) (r : run A W) : run A W :=
  mk_run (outcome r) (c :: calls r) (sleeps r) (world r).

Definition after_sleep {A W : Type} (t : R) (r : run A W) : run A W :=
  mk_run (outcome r) (calls r) (t :: sleeps r) (world r).

Section Executor.

Context {A W : Type}.

(** The zero-argument operation: each invocation reads and updates the
    state [W] of the outside world. *)
Variable operation : W -> result A * W.
Variable max_retries : Z.
Variable delay : R.
Variable operation_name : string.

(** The [for attempt in range(max_retries)] loop from iteration [attempt]
    on, with [remaining] iterations left, followed by the statements after
    the loop. *)
Fixpoint retry_loop (remaining attempt : nat) (last_error : option exn) (w : W)
  : run A W :=
  match remaining with
  | O =>
      match last_error with
      | Some e => mk_run (Raise e) [] [] w
      | None =>
          mk_run (Raise (RuntimeError
                    (operation_name ++ " failed after "
                     ++ str_of_int max_retries ++ " attempts")))
                 [] [] w
      end
  | S remaining' =>
      let (r, w') := operation w in
      after_call r
        match r with
        | Ok v => mk_run (Ok v) [] [] w'
        | Raise (EEException msg) =>
            if retryable_message msg then
              if (Z.of_nat attempt <? max_retries - 1)%Z then
                let wait_time := (delay * 2 ^ attempt)%R in
                if sleep_ok wait_time then
                  after_sleep wait_time
                    (retry_loop remaining' (S attempt)
                       (Some (EEException msg)) w')
                else
                  mk_run (Raise (ValueError
                            "sleep length must be non-negative")) [] [] w'
              else mk_run (Raise (EEException msg)) [] [] w'
            else mk_run (Raise (EEException msg)) [] [] w'
        | Raise e => mk_run (Raise e) [] [] w'
        end
  end.

Definition retry_ee_operation (w : W) : run A W :=
  retry_loop (Z.to_nat max_retries) 0 None w.

End Executor.

(** An invocation that failed with a provider error whose message makes
    the executor retry. *)
Definition retryable_failure {A : Type} (c : result A) : bool :=
  match c with
  | Raise (EEException msg) => retryable_message msg
  | _ => false
  end.

(** What holds of a run of the loop that still has [n >= 1] iterations to
    go, the next one being iteration [a]: between one and [n] invocations;
    one sleep per retry; every invocation but the last failed with a
    retryable provider error and was followed by a sleep of
    [delay * 2 ^ attempt]; the run ends with the outcome of the last
    invocation, and a retryable failure is the last one only when the
    iterations are used up. *)
Definition loop_contract {A W : Type} (delay : R) (n a : nat) (r : run A W)
  : Prop :=
  (1 <= List.length (calls r) <= n)%nat
  /\ List.length (sleeps r) = (List.length (calls r) - 1)%nat
  /\ (forall k c,
        nth_error (calls r) k = Some c ->
        (S k < List.length (calls r))%nat ->
        retryable_failure c = true
        /\ nth_error (sleeps r) k = Some (delay * 2 ^ (a + k))%R)
  /\ (forall c,
        nth_error (calls r) (List.length (calls r) - 1) = Some c ->
        (retryable_failure c = false -> outcome r = c)
        /\ (retryable_failure c = true ->
            List.length (calls r) = n -> outcome r = c)
        /\ (retryable_failure c = true -> (0 <= delay)%R ->
            List.length (calls r) = n)).

End Retry.

(* ================================================================== *)
(** ** Numbers *)

Local Open Scope R_scope.

Definition Rltb (x y : R) : bool := if Rlt_dec x y then true else false.
Definition Rleb (x y : R) : bool := if Rle_dec x y then true else false.

(** Nearest integer, ties to the even one. *)
Definition round_half_even (x : R) : Z :=
  let f := Zfloor x in
  let d := x - IZR f in
  if Rlt_dec d (1 / 2) then f
  else if Rlt_dec (1 / 2) d then (f + 1)%Z
  else if Z.even f then f else (f + 1)%Z.

(** [round(x, ndigits)]. *)
Definition py_round (x : R) (ndigits : nat) : R :=
  IZR (round_half_even (x * 10 ^ ndigits)) / 10 ^ ndigits.

(** [x / y] on floats. *)
Definition py_div (x y : R) : result R :=
  if Req_dec_T y 0 then Raise (ZeroDivisionError "float division by zero")
  else Ok (x / y).

(** The entry of a key in a dictionary returned by the provider: the key
    may be missing, may hold [None], or holds a number. *)
Inductive stat : Type :=
| Absent
| Null
| Num (x : R).

(* ================================================================== *)
(** ** The Earth Engine provider *)

(** One field per remote fetch of the modelled code. The argument [json]
    is the geometry built by [ee.Geometry.Polygon]; the calls are
    idempotent and free of side effects for the caller, so each is a
    function of its request. The clock is part of the environment. *)
Record provider : Type := {
  (** [ee.Geometry.Polygon(coords)]: the client library rejects a
      malformed coordinate array *)
  geometry_polygon : json -> result json;
  (** [aoi.area().getInfo()] *)
  area_m2_info : json -> result R;
  (** size of the Sentinel-2 collection of the last year *)
  s2_collection_size : json -> result Z;
  (** the ['NDVI'] entry of the mean reduction of the median NDVI image *)
  ndvi_mean_info : json -> result stat;
  (** the ['treecover2000'] entry of [area_stats.getInfo()] *)
  forest_cover_info : json -> result stat;
  (** the ['lossyear'] entry of [loss_stats.getInfo()] for a period *)
  forest_loss_info : json -> Z -> Z -> result stat;
  (** thumbnail of the loss mask of a period *)
  change_thumb_url : json -> Z -> Z -> result string;
  (** size of the June-August Sentinel-2 collection of a year *)
  dry_season_size : json -> Z -> result Z;
  (** thumbnail of the June-August composite of a year *)
  dry_season_thumb : json -> Z -> result string;
  (** [analyze_farm.py]: the thresholded cover area in square metres *)
  forest_area_m2_info : json -> result stat;
  (** [analyze_farm.py]: the thresholded loss area of a period *)
  forest_loss_m2_info : json -> Z -> Z -> result stat;
  (** [analyze_farm.py]: thumbnail of the loss mask of a period *)
  farm_change_thumb_url : json -> Z -> Z -> result string;
  (** [datetime.now().isoformat()] and [datetime.now().year] *)
  now_iso : string;
  now_year : Z;
  (** the year of [datetime.now() - timedelta(days=5*365)] *)
  five_years_ago_year : Z
}.

(** The coordinate array of a polygon given as a geometry or a Feature:
    [polygon['geometry']['coordinates']] or [polygon['coordinates']]. *)
Definition polygon_coords (polygon : json) : result json :=
  match polygon with
  | JDict d =>
      if py_eq_str (py_get d "type") "Feature" then
        geometry <- getitem polygon "geometry" ;;
        getitem geometry "coordinates"
      else getitem polygon "coordinates"
  | _ => Raise (AttributeError "object has no attribute 'get'")
  end.

(** [ee.Geometry.Polygon(coords)] on the coordinate array of the polygon. *)
Definition polygon_geometry (ee : provider) (polygon : json) : result json :=
  coords <- polygon_coords polygon ;;
  geometry_polygon ee coords.

(** A format specification such as [.4f] applied to a dictionary entry. *)
Definition format_float (s : stat) (default : R) : result R :=
  match s with
  | Absent => Ok default
  | Num x => Ok x
  | Null => Raise (TypeError "unsupported format string passed to NoneType.__format__")
  end.

(* ================================================================== *)
(** ** Tree inventories *)

(** A measurement of the inventory, a JSON object read with [tree.get]:
    each key may be missing. *)
Record tree : Type := {
  species : option string;
  dbh_cm : option R;
  avgDbh : option R;
  height_m : option R;
  avgHeight : option R;
  count : option Z
}.

Definition get_or {A : Type} (o : option A) (default : A) : A :=
  match o with
  | Some a => a
  | None => default
  end.

(** Wood density database (g/cm3). *)
Definition WOOD_DENSITY : list (string * R) :=
  [ ("Pinus caribaea", 0.51);
    ("Pinus patula", 0.45);
    ("Eucalyptus", 0.65);
    ("Eucalyptus grandis", 0.55);
    ("Acacia", 0.58);
    ("Acacia mangium", 0.52);
    ("Coffea arabica", 0.55);
    ("Coffea", 0.55);
    ("Inga", 0.52);
    ("Cordia alliodora", 0.44);
    ("Cedrela odorata", 0.42);
    ("Swietenia macrophylla", 0.54);
    ("Tectona grandis", 0.55);
    ("default", 0.60) ].

Fixpoint density_get (table : list (string * R)) (k : string) : option R :=
  match table with
  | [] => None
  | (k', v) :: table' => if String.eqb k' k then Some v else density_get table' k
  end.

(** [WOOD_DENSITY.get(species, WOOD_DENSITY['default'])]. *)
Definition wood_density (species : string) : R :=
  get_or (density_get WOOD_DENSITY species)
         (get_or (density_get WOOD_DENSITY "default") 0).

(** The inventory test of the method dispatch:
    [tree_inventory and len(tree_inventory) > 0]. *)
Definition has_inventory (tree_inventory : option (list tree)) : bool :=
  match tree_inventory with
  | Some (_ :: _) => true
  | _ => false
  end.

(** One iteration of the loop over the inventory, on the accumulators
    [(total_agb_kg, trees_analyzed)]. *)
Definition field_step (acc : R * Z) (t : tree) : R * Z :=
  let (total_agb_kg, trees_analyzed) := acc in
  let species := get_or (species t) "default" in
  let dbh_cm := get_or (dbh_cm t) (get_or (avgDbh t) 0) in
  let height_m := get_or (height_m t) (get_or (avgHeight t) 0) in
  let count := get_or (count t) 1%Z in
  if Rleb dbh_cm 0 || Rleb height_m 0 then acc
  else
    let rho := wood_density species in
    let agb_kg := 0.0673 * Rpower (rho * dbh_cm ^ 2 * height_m) 0.976 in
    (total_agb_kg + agb_kg * IZR count, (trees_analyzed + count)%Z).

(** The estimation result, as both scripts build it. *)
Record EstimationResult : Type := {
  baselineCarbonTCO2e : R;
  agbTonnesPerHa : R;
  totalAgbTonnes : R;
  totalCarbonTonnes : R;
  areaHa : R;
  methodology : string;
  confidence : string;
  treesAnalyzed : Z;
  calculationDate : string;
  equation : string;
  verraMethodology : string;
  abovegroundBiomass : R;
  belowgroundBiomass : R
}.

(** The unit conversion and the result dictionary shared by the two
    implementations of [calculate_carbon_baseline]. *)
Definition build_result (ee : provider) (total_agb agb_per_ha area_ha : R)
    (method confidence : string) (trees_analyzed : Z) : EstimationResult :=
  let total_carbon := total_agb * 0.47 in
  let total_carbon_with_bgb := total_carbon * 1.2 in
  let total_co2e := total_carbon_with_bgb * (44 / 12) in
  {| baselineCarbonTCO2e := py_round total_co2e 2;
     agbTonnesPerHa := py_round agb_per_ha 2;
     totalAgbTonnes := py_round total_agb 2;
     totalCarbonTonnes := py_round total_carbon_with_bgb 2;
     areaHa := py_round area_ha 4;
     methodology := method;
     confidence := confidence;
     treesAnalyzed := trees_analyzed;
     calculationDate := now_iso ee;
     equation := "Chave et al. 2014 (pantropical)";
     verraMethodology := "VM0042";
     abovegroundBiomass := py_round total_carbon 2;
     belowgroundBiomass := py_round (total_carbon * 0.2) 2 |}.

(** The closed-form correlation between the mean NDVI and the biomass per
    hectare. *)
Definition agb_per_ha_of_ndvi (ndvi_mean : R) : R :=
  if Rltb 0.3 ndvi_mean
  then Rmax 20 (Rmin 200 (150 * ndvi_mean ^ 2))
  else Rmax 5 (50 * ndvi_mean).

(* ================================================================== *)
(** ** Carbon baseline ([carbon_baseline.py]) *)

Module CarbonBaseline.

(** The dictionary returned by [calculate_agb_from_field_data]. *)
Module Field.
Record t : Type := {
  total_agb_kg : R;
  total_agb_tonnes : R;
  trees_analyzed : Z
}.
End Field.

(** The dictionary returned by [calculate_agb_from_satellite]. *)
Module Sat.
Record t : Type := {
  total_agb_tonnes : R;
  agb_per_ha : R;
  area_ha : R;
  ndvi_mean : R;
  method : string
}.
End Sat.

Definition calculate_agb_from_field_data (tree_inventory : list tree)
  : Field.t :=
  let (total_agb_kg, trees_analyzed) :=
    fold_left field_step tree_inventory (0, 0%Z) in
  {| Field.total_agb_kg := total_agb_kg;
     Field.total_agb_tonnes := total_agb_kg / 1000;
     Field.trees_analyzed := trees_analyzed |}.

Definition calculate_agb_from_satellite (ee : provider) (polygon : json)
  : result Sat.t :=
  aoi <- polygon_geometry ee polygon ;;
  area_m2 <- area_m2_info ee aoi ;;
  let area_ha := area_m2 / 10000 in
  collection_size <- s2_collection_size ee aoi ;;
  if (collection_size =? 0)%Z then
    Ok {| Sat.total_agb_tonnes := area_ha * 50;
          Sat.agb_per_ha := 50;
          Sat.area_ha := area_ha;
          Sat.ndvi_mean := 0.5;
          Sat.method := "default_estimation" |}
  else
    ndvi_stats <- ndvi_mean_info ee aoi ;;
    ndvi_mean <- format_float ndvi_stats 0.5 ;;
    let agb_per_ha := agb_per_ha_of_ndvi ndvi_mean in
    let total_agb := agb_per_ha * area_ha in
    Ok {| Sat.total_agb_tonnes := total_agb;
          Sat.agb_per_ha := agb_per_ha;
          Sat.area_ha := area_ha;
          Sat.ndvi_mean := ndvi_mean;
          Sat.method := "ndvi_correlation" |}.

(** The weight of the field estimate in the hybrid branch:
    [min(0.7, 0.3 + (trees_analyzed / 100))]. *)
Definition hybrid_field_weight (trees_analyzed : Z) : R :=
  Rmin 0.7 (0.3 + IZR trees_analyzed / 100).

Definition calculate_carbon_baseline (ee : provider) (polygon : json)
    (project_id : string) (tree_inventory : option (list tree))
    (method : string) : result EstimationResult :=
  aoi <- polygon_geometry ee polygon ;;
  area_m2 <- area_m2_info ee aoi ;;
  let area_ha := area_m2 / 10000 in
  if String.eqb method "field" && has_inventory tree_inventory then
    let field_result :=
      calculate_agb_from_field_data (get_or tree_inventory []) in
    let total_agb := Field.total_agb_tonnes field_result in
    agb_per_ha <- (if Rltb 0 area_ha then py_div total_agb area_ha
                   else Ok 0) ;;
    let trees_analyzed := Field.trees_analyzed field_result in
    let confidence :=
      if (10 <=? trees_analyzed)%Z then "high" else "medium" in
    Ok (build_result ee total_agb agb_per_ha area_ha method confidence
          trees_analyzed)
  else if String.eqb method "hybrid" && has_inventory tree_inventory then
    let field_result :=
      calculate_agb_from_field_data (get_or tree_inventory []) in
    sat_result <- calculate_agb_from_satellite ee polygon ;;
    let field_agb := Field.total_agb_tonnes field_result in
    let sat_agb := Sat.total_agb_tonnes sat_result in
    let field_weight :=
      hybrid_field_weight (Field.trees_analyzed field_result) in
    let sat_weight := 1 - field_weight in
    let total_agb := field_agb * field_weight + sat_agb * sat_weight in
    agb_per_ha <- (if Rltb 0 area_ha then py_div total_agb area_ha
                   else Ok 0) ;;
    let trees_analyzed := Field.trees_analyzed field_result in
    Ok (build_result ee total_agb agb_per_ha area_ha method "high"
          trees_analyzed)
  else
    sat_result <- calculate_agb_from_satellite ee polygon ;;
    let total_agb := Sat.total_agb_tonnes sat_result in
    let agb_per_ha := Sat.agb_per_ha sat_result in
    Ok (build_result ee total_agb agb_per_ha area_ha method "medium" 0%Z).

End CarbonBaseline.

(* ================================================================== *)
(** ** Deforestation analyzer *)

(** [int(s)] on an ASCII string: optional surrounding white space, an
    optional sign, then decimal digits with single underscores between
    digits. *)
Module PyInt.

Definition is_space (c : ascii) : bool :=
  let n := nat_of_ascii c in
  ((9 <=? n)%nat && (n <=? 13)%nat) || (n =? 32)%nat.

Definition is_digit (c : ascii) : bool :=
  let n := nat_of_ascii c in
  (48 <=? n)%nat && (n <=? 57)%nat.

Definition digit_value (c : ascii) : Z :=
  Z.of_nat (nat_of_ascii c - 48).

Fixpoint lstrip (s : string) : string :=
  match s with
  | String c s' => if is_space c then lstrip s' else s
  | EmptyString => s
  end.

Fixpoint rstrip (s : string) : string :=
  match s with
  | EmptyString => EmptyString
  | String c s' =>
      match rstrip s' with
      | EmptyString => if is_space c then EmptyString else String c EmptyString
      | rest => String c rest
      end
  end.

Fixpoint digits (s : string) (acc : Z) (after_digit : bool) : option Z :=
  match s with
  | EmptyString => if after_digit then Some acc else None
  | String c s' =>
      if is_digit c then digits s' (10 * acc + digit_value c)%Z true
      else if Ascii.eqb c "_"%char then
        if after_digit then digits s' acc false else None
      else None
  end.

Definition int (s : string) : result Z :=
  let body := rstrip (lstrip s) in
  let parsed :=
    match body with
    | String "+"%char rest => digits rest 0%Z false
    | String "-"%char rest => option_map Z.opp (digits rest 0%Z false)
    | _ => digits body 0%Z false
    end in
  match parsed with
  | Some z => Ok z
  | None => Raise (ValueError "invalid literal for int() with base 10")
  end.

(** [s.split('-')[0]]. *)
Fixpoint before_dash (s : string) : string :=
  match s with
  | EmptyString => EmptyString
  | String c s' =>
      if Ascii.eqb c "-"%char then EmptyString else String c (before_dash s')
  end.

End PyInt.

(** [range(a, b + 1)]. *)
Definition year_range (start_year end_year : Z) : list Z :=
  map (fun i => (start_year + Z.of_nat i)%Z)
      (seq 0 (Z.to_nat (end_year + 1 - start_year))).

(** A number read from a dictionary entry with [d.get(key, 0)] and then
    used in arithmetic: [None] cannot be multiplied. *)
Definition number_or_zero (s : stat) : result R :=
  match s with
  | Absent => Ok 0
  | Num x => Ok x
  | Null => Raise (TypeError "unsupported operand type(s) for *: 'NoneType' and 'float'")
  end.

(** [d.get(key, 0) or 0]. *)
Definition falsy_to_zero (s : stat) : R :=
  match s with
  | Num x => x
  | _ => 0
  end.

(** The percentage of the initial forest that was lost:
    [(lost / total * 100) if total > 0 else 0]. *)
Definition deforestation_percent_of (area_lost_ha total_forest_ha : R)
  : result R :=
  if Rltb 0 total_forest_ha then
    q <- py_div area_lost_ha total_forest_ha ;; Ok (q * 100)
  else Ok 0.

(** The loop that collects one thumbnail per year; a year whose queries
    fail, or that has no image, is left out. *)
Definition historical_images_loop (size : Z -> result Z)
    (thumb : Z -> result string) (guarded : bool) (years : list Z)
  : result (list (Z * string)) :=
  fold_left
    (fun acc year =>
       images <- acc ;;
       let body :=
         collection_size <- size year ;;
         if (0 <? collection_size)%Z then
           thumbnail <- thumb year ;;
           Ok (images ++ [(year, thumbnail)])%list
         else Ok images in
       if guarded then try_except body (fun _ => Ok images) else body)
    years (Ok []).

Module Deforestation.

Record DeforestationResult : Type := {
  deforestationPercent : R;
  areaLostHa : R;
  initialForestHa : R;
  compliant : bool;
  historicalImages : list (Z * string);
  analyzedPeriod : string * string;
  analysisDate : string;
  methodology : string;
  changeDetectionUrl : option string;
  warning : option string
}.

Definition analyze_deforestation (ee : provider) (polygon : json)
    (start_date end_date project_id : string) : result DeforestationResult :=
  ee_polygon <- polygon_geometry ee polygon ;;
  start_year <- PyInt.int (PyInt.before_dash start_date) ;;
  end_year <- PyInt.int (PyInt.before_dash end_date) ;;
  try_except
    (area_info <- forest_cover_info ee ee_polygon ;;
     loss_info <- forest_loss_info ee ee_polygon start_year end_year ;;
     let pixel_area_ha := 0.09 in
     total_forest_pixels <- number_or_zero area_info ;;
     lost_pixels <- number_or_zero loss_info ;;
     let total_forest_ha := total_forest_pixels * pixel_area_ha / 100 in
     let area_lost_ha := lost_pixels * pixel_area_ha / 100 in
     deforestation_percent <-
       deforestation_percent_of area_lost_ha total_forest_ha ;;
     let compliant := Rltb deforestation_percent 5 in
     let change_detection_url :=
       match change_thumb_url ee ee_polygon start_year end_year with
       | Ok url => Some url
       | Raise _ => None
       end in
     historical_images <-
       historical_images_loop (dry_season_size ee ee_polygon)
         (dry_season_thumb ee ee_polygon) true (year_range start_year end_year) ;;
     Ok {| deforestationPercent := py_round deforestation_percent 2;
           areaLostHa := py_round area_lost_ha 2;
           initialForestHa := py_round total_forest_ha 2;
           compliant := compliant;
           historicalImages := historical_images;
           analyzedPeriod := (start_date, end_date);
           analysisDate := now_iso ee;
           methodology := "Hansen GFC + Sentinel-2 validation";
           changeDetectionUrl :=
             match change_detection_url with
             | Some url => if String.eqb url "" then None else Some url
             | None => None
             end;
           warning := None |})
    (fun e =>
       Ok {| deforestationPercent := 0;
             areaLostHa := 0;
             initialForestHa := 0;
             compliant := true;
             historicalImages := [];
             analyzedPeriod := (start_date, end_date);
             analysisDate := now_iso ee;
             methodology := "Hansen GFC + Sentinel-2 validation";
             changeDetectionUrl := None;
             warning :=
               Some "Deforestation calculation failed, using default values" |}).

End Deforestation.

(* ================================================================== *)
(** ** Deforestation and carbon baseline of the local analysis
       ([analyze_farm.py]) *)

Module AnalyzeFarm.

Record DeforestationResult : Type := {
  deforestationPercent : R;
  areaLostHa : R;
  initialForestHa : R;
  compliant : bool;
  historicalImages : list (Z * string);
  changeDetectionUrl : string;
  analysisDate : string;
  methodology : string;
  periodAnalyzed : string
}.

Definition analyze_deforestation (ee : provider) (polygon : json)
    (farm_id : string) : result DeforestationResult :=
  aoi <- polygon_geometry ee polygon ;;
  let start_year := five_years_ago_year ee in
  let end_year := now_year ee in
  initial_forest_result <- forest_area_m2_info ee aoi ;;
  let initial_forest_area := falsy_to_zero initial_forest_result in
  forest_loss_result <- forest_loss_m2_info ee aoi start_year end_year ;;
  let forest_loss := falsy_to_zero forest_loss_result in
  let initial_forest_ha := initial_forest_area / 10000 in
  let loss_ha := forest_loss / 10000 in
  deforestation_percent <-
    deforestation_percent_of loss_ha initial_forest_ha ;;
  let compliant := Rltb deforestation_percent 5.0 in
  change_url <- farm_change_thumb_url ee aoi start_year end_year ;;
  historical_images <-
    historical_images_loop (dry_season_size ee aoi)
      (dry_season_thumb ee aoi) false (year_range start_year end_year) ;;
  Ok {| deforestationPercent := py_round deforestation_percent 2;
        areaLostHa := py_round loss_ha 2;
        initialForestHa := py_round initial_forest_ha 2;
        compliant := compliant;
        historicalImages := historical_images;
        changeDetectionUrl := change_url;
        analysisDate := now_iso ee;
        methodology := "Hansen GFC + Sentinel-2 validation";
        periodAnalyzed :=
          Retry.str_of_int start_year ++ " - " ++ Retry.str_of_int end_year |}.

Definition calculate_carbon_baseline (ee : provider) (polygon : json)
    (farm_id : string) (tree_inventory : option (list tree))
  : result EstimationResult :=
  aoi <- polygon_geometry ee polygon ;;
  area_m2 <- area_m2_info ee aoi ;;
  let area_ha := area_m2 / 10000 in
  if has_inventory tree_inventory then
    let method := "field" in
    let (total_agb_kg, trees_analyzed) :=
      fold_left field_step (get_or tree_inventory []) (0, 0%Z) in
    let total_agb := total_agb_kg / 1000 in
    agb_per_ha <- (if Rltb 0 area_ha then py_div total_agb area_ha
                   else Ok 0) ;;
    let confidence :=
      if (10 <=? trees_analyzed)%Z then "high" else "medium" in
    Ok (build_result ee total_agb agb_per_ha area_ha method confidence
          trees_analyzed)
  else
    let method := "satellite" in
    let trees_analyzed := 0%Z in
    collection_size <- s2_collection_size ee aoi ;;
    if (collection_size =? 0)%Z then
      let agb_per_ha := 50 in
      let total_agb := agb_per_ha * area_ha in
      Ok (build_result ee total_agb agb_per_ha area_ha method "low"
            trees_analyzed)
    else
      ndvi_stats <- ndvi_mean_info ee aoi ;;
      ndvi_mean <- format_float ndvi_stats 0.5 ;;
      let agb_per_ha := agb_per_ha_of_ndvi ndvi_mean in
      let total_agb := agb_per_ha * area_ha in
      Ok (build_result ee total_agb agb_per_ha area_ha method "medium"
            trees_analyzed).

End AnalyzeFarm.

(* ================================================================== *)
(** ** The percentage and the compliance flag in binary64 *)

Module Binary64.

Import PrimFloat.

(** [deforestation_analysis.py]: from the two pixel sums to
    [deforestation_percent], in the order of the source's operations. *)
#[warnings="-inexact-float"]
Definition deforestation_percent
    (total_forest_pixels lost_pixels : PrimFloat.float) : PrimFloat.float :=
  let pixel_area_ha := 0.09%float in
  let total_forest_ha :=
    (total_forest_pixels * pixel_area_ha / 100)%float in
  let area_lost_ha := (lost_pixels * pixel_area_ha / 100)%float in
  if (0 <? total_forest_ha)%float
  then (area_lost_ha / total_forest_ha * 100)%float
  else 0%float.

(** [compliant = deforestation_percent < 5]. *)
Definition compliant (total_forest_pixels lost_pixels : PrimFloat.float)
  : bool :=
  (deforestation_percent total_forest_pixels lost_pixels <? 5)%float.

(** [analyze_farm.py]: from the two areas in square metres. *)
Definition farm_deforestation_percent
    (initial_forest_area forest_loss : PrimFloat.float) : PrimFloat.float :=
  let initial_forest_ha := (initial_forest_area / 10000)%float in
  let loss_ha := (forest_loss / 10000)%float in
  if (0 <? initial_forest_ha)%float
  then (loss_ha / initial_forest_ha * 100)%float
  else 0%float.

Definition farm_compliant (initial_forest_area forest_loss : PrimFloat.float)
  : bool :=
  (farm_deforestation_percent initial_forest_area forest_loss <? 5.0)%float.

End Binary64.

(* ================================================================== *)
(** ** The field method in the words of the specification *)

(** The values that the loop reads from a measurement. *)
Definition tree_species (t : tree) : string := get_or (species t) "default".
Definition tree_dbh (t : tree) : R := get_or (dbh_cm t) (get_or (avgDbh t) 0).
Definition tree_height (t : tree) : R :=
  get_or (height_m t) (get_or (avgHeight t) 0).
Definition tree_count (t : tree) : Z := get_or (count t) 1%Z.

(** A measurement takes part in the aggregation when its diameter and its
    height are positive. *)
Definition is_measured (t : tree) : bool :=
  Rltb 0 (tree_dbh t) && Rltb 0 (tree_height t).

(** [count x 0.0673 x (rho x DBH^2 x H)^0.976], in kilograms. *)
Definition spec_tree_agb_kg (t : tree) : R :=
  IZR (tree_count t) * 0.0673
  * Rpower (wood_density (tree_species t) * tree_dbh t ^ 2 * tree_height t)
      0.976.

Definition spec_total_agb_kg (tree_inventory : list tree) : R :=
  fold_right Rplus 0 (map spec_tree_agb_kg (filter is_measured tree_inventory)).

Definition spec_trees_analyzed (tree_inventory : list tree) : Z :=
  fold_right Z.add 0%Z (map tree_count (filter is_measured tree_inventory)).

(* ================================================================== *)
(** ** Auxiliary notions for the statements *)

(** The method dispatch of [carbon_baseline.py] reaches its [else] branch:
    neither ['field'] nor ['hybrid'] was asked for together with a
    non-empty inventory. *)
Definition satellite_branch (method : string)
    (tree_inventory : option (list tree)) : bool :=
  negb ((String.eqb method "field" || String.eqb method "hybrid")
        && has_inventory tree_inventory).

(** A result with its [methodology] entry replaced. *)
Definition with_methodology (m : string) (r : EstimationResult)
  : EstimationResult :=
  {| baselineCarbonTCO2e := baselineCarbonTCO2e r;
     agbTonnesPerHa := agbTonnesPerHa r;
     totalAgbTonnes := totalAgbTonnes r;
     totalCarbonTonnes := totalCarbonTonnes r;
     areaHa := areaHa r;
     methodology := m;
     confidence := confidence r;
     treesAnalyzed := treesAnalyzed r;
     calculationDate := calculationDate r;
     equation := equation r;
     verraMethodology := verraMethodology r;
     abovegroundBiomass := abovegroundBiomass r;
     belowgroundBiomass := belowgroundBiomass r |}.

(** A provider that answers every request: a parcel of [area] square
    metres, [images] Sentinel-2 images, an NDVI entry [ndvi], and the given
    cover and loss sums. *)
Definition constant_provider (area : R) (images : Z) (ndvi cover loss : stat)
  : provider :=
  {| geometry_polygon := fun coords => Ok coords;
     area_m2_info := fun _ => Ok area;
     s2_collection_size := fun _ => Ok images;
     ndvi_mean_info := fun _ => Ok ndvi;
     forest_cover_info := fun _ => Ok cover;
     forest_loss_info := fun _ _ _ => Ok loss;
     change_thumb_url := fun _ _ _ => Ok "https://example.org/change.png";
     dry_season_size := fun _ _ => Ok 0%Z;
     dry_season_thumb := fun _ _ => Ok "https://example.org/year.png";
     forest_area_m2_info := fun _ => Ok cover;
     forest_loss_m2_info := fun _ _ _ => Ok loss;
     farm_change_thumb_url := fun _ _ _ => Ok "https://example.org/change.png";
     now_iso := "2025-01-01T00:00:00";
     now_year := 2025%Z;
     five_years_ago_year := 2020%Z |}.

(** A provider whose cover query fails with a non-retryable error. *)
Definition failing_provider (e : exn) : provider :=
  {| geometry_polygon := fun coords => Ok coords;
     area_m2_info := fun _ => Ok 10000;
     s2_collection_size := fun _ => Ok 0%Z;
     ndvi_mean_info := fun _ => Ok Absent;
     forest_cover_info := fun _ => Raise e;
     forest_loss_info := fun _ _ _ => Raise e;
     change_thumb_url := fun _ _ _ => Raise e;
     dry_season_size := fun _ _ => Raise e;
     dry_season_thumb := fun _ _ => Raise e;
     forest_area_m2_info := fun _ => Raise e;
     forest_loss_m2_info := fun _ _ _ => Raise e;
     farm_change_thumb_url := fun _ _ _ => Raise e;
     now_iso := "2025-01-01T00:00:00";
     now_year := 2025%Z;
     five_years_ago_year := 2020%Z |}.

(** A square parcel given as a plain geometry. *)
Definition square_polygon : json :=
  JDict [("type", JStr "Polygon");
         ("coordinates",
          Geometry.polygon_json
            [[[0#1; 0#1]; [0#1; 1#1]; [1#1; 1#1]; [1#1; 0#1]; [0#1; 0#1]]])].

(** A measurement without a diameter, and a complete one. *)
Definition unmeasured_tree : tree :=
  {| species := Some "Eucalyptus"; dbh_cm := None; avgDbh := None;
     height_m := Some 20; avgHeight := None; count := Some 5%Z |}.

Definition eucalyptus_tree : tree :=
  {| species := Some "Eucalyptus"; dbh_cm := Some 30; avgDbh := None;
     height_m := Some 20; avgHeight := None; count := Some 5%Z |}.

(* ================================================================== *)
(** ** Farm records ([analyze_farm.py]: [load_farm_json]) *)

Module FarmFile.

(** [a or b]. *)
Definition py_or (a b : json) : json := if truthy a then a else b.

(** [x.get(k)] on an object loaded from JSON: only a dictionary has the
    method. *)
Definition get_attr (x : json) (k : string) : result json :=
  match x with
  | JDict d => Ok (py_get d k)
  | _ => Raise (AttributeError "object has no attribute 'get'")
  end.

(** [d.get(k, default)]. *)
Definition py_get_default (d : list (string * json)) (k : string)
    (default : json) : json :=
  match dict_get d k with
  | Some v => v
  | None => default
  end.

(** [k in d]. *)
Definition dict_mem (d : list (string * json)) (k : string) : bool :=
  match dict_get d k with
  | Some _ => true
  | None => false
  end.

(** [d[k] = v]: the value of an existing key is replaced in place, a new
    key is added at the end. *)
Fixpoint dict_set (d : list (string * json)) (k : string) (v : json)
  : list (string * json) :=
  match d with
  | [] => [(k, v)]
  | (k', v') :: d' =>
      if String.eqb k' k then (k, v) :: d' else (k', v') :: dict_set d' k v
  end.

(** [{**a, **b}] on two dictionaries. *)
Definition dict_update (a b : list (string * json)) : list (string * json) :=
  fold_left (fun acc kv => dict_set acc (fst kv) (snd kv)) b a.

(** [{**a, **b}]: both operands must be mappings. *)
Definition py_merge (a b : json) : result json :=
  match a, b with
  | JDict da, JDict db => Ok (JDict (dict_update da db))
  | _, _ => Raise (TypeError "object is not a mapping")
  end.

(** The loop of [_first_present]. *)
Fixpoint _first_present (props : json) (keys : list string) : result json :=
  match keys with
  | [] => Ok JNull
  | key :: keys' =>
      value <- get_attr props key ;;
      if truthy value then Ok value else _first_present props keys'
  end.

Definition _extract_from_properties (props : json) : result (json * json) :=
  let props := py_or props (JDict []) in
  name <- _first_present props ["name"; "Name"; "Description"] ;;
  owner <- _first_present props ["owner"; "Owner"] ;;
  Ok (name, owner).

(** [s.replace(' ', '-')]. *)
Fixpoint replace_spaces (s : string) : string :=
  match s with
  | EmptyString => EmptyString
  | String c s' =>
      String (if Ascii.eqb c " "%char then "-"%char else c) (replace_spaces s')
  end.

Section Loader.

(** [str.lower]. Python lower-cases by the Unicode tables, which are not
    part of the embedding: the method is taken from the environment. On
    ASCII text it is [Retry.lower]. *)
Variable str_lower : string -> string.

(** [f"farm-{filename_stem.replace(' ', '-').lower()}"]. *)
Definition generated_farm_id (filename_stem : string) : string :=
  "farm-" ++ str_lower (replace_spaces filename_stem).

(** The geometry, name, owner and metadata that the three input formats
    yield. *)
Definition read_format (data : json)
  : result (json * json * json * json) :=
  match data with
  | JDict d =>
      if py_eq_str (py_get d "type") "FeatureCollection" then
        let features := py_or (py_get d "features") (JList []) in
        if negb (truthy features)
        then Raise (ValueError "FeatureCollection vacia: no hay features")
        else
          feature <- getitem0 features ;;
          geometry <- get_attr feature "geometry" ;;
          if negb (truthy geometry)
          then Raise (ValueError
                        "FeatureCollection invalida: feature sin geometria")
          else
            polygon <- Geometry._normalize_geometry geometry ;;
            properties <- get_attr feature "properties" ;;
            let props := py_or properties (JDict []) in
            extracted <- _extract_from_properties props ;;
            metadata <- py_merge props (py_get_default d "metadata" (JDict [])) ;;
            Ok (polygon, fst extracted, snd extracted, metadata)
      else if py_eq_str (py_get d "type") "Feature" then
        let geometry := py_get d "geometry" in
        if negb (truthy geometry)
        then Raise (ValueError "Feature invalido: falta geometria")
        else
          polygon <- Geometry._normalize_geometry geometry ;;
          let props := py_or (py_get d "properties") (JDict []) in
          extracted <- _extract_from_properties props ;;
          metadata <- py_merge props (py_get_default d "metadata" (JDict [])) ;;
          Ok (polygon, fst extracted, snd extracted, metadata)
      else if dict_mem d "polygon" then
        raw_polygon <- getitem data "polygon" ;;
        polygon <-
          match raw_polygon with
          | JDict rp =>
              if py_eq_str (py_get rp "type") "Feature" then
                let geometry := py_get rp "geometry" in
                if negb (truthy geometry)
                then Raise (ValueError
                              "Feature en 'polygon' invalido: falta geometria")
                else Geometry._normalize_geometry geometry
              else Geometry._normalize_geometry raw_polygon
          | _ => Geometry._normalize_geometry raw_polygon
          end ;;
        let name := py_or (py_get d "name") (py_get d "Name") in
        let owner := py_or (py_get d "owner") (py_get d "Owner") in
        let metadata := py_get_default d "metadata" (JDict []) in
        Ok (polygon, name, owner, metadata)
      else
        Raise (ValueError
                 "Formato de finca no soportado. Se esperaba FeatureCollection, Feature o JSON con campo 'polygon'.")
  | _ =>
      Raise (ValueError
               "Formato de finca no soportado. Se esperaba FeatureCollection, Feature o JSON con campo 'polygon'.")
  end.

(** The keys that are carried over when present. *)
Fixpoint preserve_keys (d : list (string * json)) (keys : list string)
    (normalized : list (string * json)) : list (string * json) :=
  match keys with
  | [] => normalized
  | key :: keys' =>
      preserve_keys d keys'
        match dict_get d key with
        | Some v => dict_set normalized key v
        | None => normalized
        end
  end.

(** [load_farm_json] once the file has been read: [data] is the value
    that [json.load] returned and [filename_stem] is [Path(json_path).stem]. *)
Definition load_farm_json (data : json) (filename_stem : string)
  : result json :=
  parts <- read_format data ;;
  let '(polygon, name, owner, metadata) := parts in
  match data with
  | JDict d =>
      if negb (truthy polygon)
      then Raise (ValueError "No se pudo extraer poligono de la finca")
      else
        let name :=
          if negb (truthy name)
          then py_or (py_get d "name")
                 (py_or (py_get d "Name") (JStr filename_stem))
          else name in
        let owner :=
          if negb (truthy owner)
          then py_or (py_get d "owner") (py_get d "Owner")
          else owner in
        let farm_id :=
          py_or (py_get d "farmId")
            (py_or (py_get d "projectId")
               (JStr (generated_farm_id filename_stem))) in
        let metadata :=
          match metadata with
          | JDict _ => metadata
          | _ => JDict [("value", metadata)]
          end in
        Ok (JDict (preserve_keys d ["location"; "treeInventory"]
                     [("polygon", polygon); ("name", name);
                      ("farmId", farm_id); ("owner", owner);
                      ("metadata", metadata)]))
  | _ => Raise (AttributeError "object has no attribute 'get'")
  end.

End Loader.

End FarmFile.

(* ================================================================== *)
(** ** Batch processing ([batch_process.py]) *)

Module Batch.

(** One line of the run summary: the [result] dictionary of
    [process_farm]. [None] is [JNull] or [None]; [outputFile] is set only
    on success. *)
Record row : Type := {
  filename : string;
  success : bool;
  error : option string;
  name : json;
  farmId : json;
  areaHa : option R;
  ndvi : json;
  eudrCompliant : json;
  deforestationPercent : json;
  carbonTCO2e : json;
  outputFile : option string
}.

(** A farm file of the input directory: its name, its stem, and what
    reading and parsing it gives ([FileNotFoundError], a decoding error,
    or the parsed value). *)
Record farm_file : Type := {
  file_name : string;
  file_stem : string;
  file_data : result json
}.

Definition empty_row (file : farm_file) : row :=
  {| filename := file_name file; success := false; error := None;
     name := JNull; farmId := JNull; areaHa := None; ndvi := JNull;
     eudrCompliant := JNull; deforestationPercent := JNull;
     carbonTCO2e := JNull; outputFile := None |}.

(** What [process_farm] leaves at its output path. The file is opened
    with mode ['w'], which creates or empties it, before [json.dump]
    writes into it: a dump that fails leaves the file behind, empty or
    with a part of the document. *)
Inductive output_file : Type :=
| NotOpened
| Incomplete (path : string)
| Document (path : string) (doc : json).

Definition with_error (r : row) (message : string) : row :=
  {| filename := filename r; success := success r; error := Some message;
     name := name r; farmId := farmId r; areaHa := areaHa r; ndvi := ndvi r;
     eudrCompliant := eudrCompliant r;
     deforestationPercent := deforestationPercent r;
     carbonTCO2e := carbonTCO2e r; outputFile := outputFile r |}.

Section ProcessFarm.

(** The analyses imported from [analyze_farm.py] and the services that
    [process_farm] uses are parameters: each analysis returns a dictionary
    or raises; [open_output] is [open(output_path, 'w', encoding='utf-8')]
    and [json_dump] is [json.dump] into the opened file;
    [output_path_of] is [str(Path(output_dir) / output_filename)];
    [str_exn] is [str(e)]. *)
Variable ee : provider.
Variable calculate_ndvi :
  json -> string -> string -> result (list (string * json)).
Variable analyze_deforestation : json -> json -> result (list (string * json)).
Variable calculate_carbon_baseline :
  json -> json -> json -> result (list (string * json)).
Variable open_output : string -> result unit.
Variable json_dump : string -> json -> result unit.
Variable output_path_of : string -> string -> string.
Variable str_exn : exn -> string.
(** [str.lower], which [load_farm_json] uses *)
Variable str_lower : string -> string.

(** [load_farm_json(str(json_path))]. *)
Definition load_farm_file (file : farm_file) : result json :=
  data <- file_data file ;;
  FarmFile.load_farm_json str_lower data (file_stem file).

(** The geometry whose area is reported:
    [ee.Geometry.Polygon(coords[0] if isinstance(coords[0][0], list) else coords)]
    and its area in square metres. *)
Definition summary_area (polygon : json) : result R :=
  coords <- polygon_coords polygon ;;
  first <- getitem0 coords ;;
  first_of_first <- getitem0 first ;;
  aoi <- geometry_polygon ee (if is_list first_of_first then first else coords) ;;
  area_m2_info ee aoi.

(** A guarded analysis: the entry of [analysis_results], and the
    dictionary when the analysis returned one without an ['error'] key. *)
Definition guarded (analysis : result (list (string * json)))
  : json * option (list (string * json)) :=
  match analysis with
  | Ok d =>
      (JDict d, if FarmFile.dict_mem d "error" then None else Some d)
  | Raise e => (JDict [("error", JStr (str_exn e))], None)
  end.

Definition summary_value (d : option (list (string * json))) (k : string)
  : json :=
  match d with
  | Some d => py_get d k
  | None => JNull
  end.

(** [process_farm]: the line of the summary, and what is left at the
    output path. *)
Definition process_farm (file : farm_file)
    (output_dir start_date end_date : string)
  : row * output_file :=
  let result := empty_row file in
  match load_farm_file file with
  | Raise e => (with_error result (str_exn e), NotOpened)
  | Ok (JDict farm_data) =>
      match getitem (JDict farm_data) "polygon" with
      | Raise e => (with_error result (str_exn e), NotOpened)
      | Ok polygon =>
          let name := FarmFile.py_get_default farm_data "name" (JStr "N/A") in
          let farm_id :=
            FarmFile.py_get_default farm_data "farmId" (JStr "N/A") in
          match summary_area polygon with
          | Raise e =>
              ({| filename := file_name file; success := false;
                  error := Some (str_exn e); name := name; farmId := farm_id;
                  areaHa := None; ndvi := JNull; eudrCompliant := JNull;
                  deforestationPercent := JNull; carbonTCO2e := JNull;
                  outputFile := None |}, NotOpened)
          | Ok area_m2 =>
              let area_ha := (area_m2 / 10000)%R in
              let ndvi_result :=
                guarded (calculate_ndvi polygon start_date end_date) in
              let deforest_result :=
                guarded
                  (analyze_deforestation polygon
                     (FarmFile.py_get_default farm_data "farmId"
                        (JStr "unknown"))) in
              let carbon_result :=
                guarded
                  (calculate_carbon_baseline polygon
                     (FarmFile.py_get_default farm_data "farmId"
                        (JStr "unknown"))
                     (py_get farm_data "treeInventory")) in
              let output :=
                JDict
                  [("farmInfo",
                    JDict
                      [("name",
                        FarmFile.py_get_default farm_data "name" (JStr "N/A"));
                       ("farmId",
                        FarmFile.py_get_default farm_data "farmId"
                          (JStr "N/A"));
                       ("owner",
                        FarmFile.py_get_default farm_data "owner" (JStr "N/A"));
                       ("location",
                        FarmFile.py_get_default farm_data "location"
                          (JDict []))]);
                   ("polygon", polygon);
                   ("metadata",
                    FarmFile.py_get_default farm_data "metadata" (JDict []));
                   ("analysis",
                    JDict [("ndvi", fst ndvi_result);
                           ("deforestation", fst deforest_result);
                           ("carbon", fst carbon_result)]);
                   ("generatedAt", JStr (now_iso ee))] in
              let output_path :=
                output_path_of output_dir (file_stem file ++ "_analysis.json") in
              let filled (ok : bool) (err : option string)
                         (out : option string) :=
                {| filename := file_name file; success := ok; error := err;
                   name := name; farmId := farm_id;
                   areaHa := Some (py_round area_ha 2);
                   ndvi := summary_value (snd ndvi_result) "mean";
                   eudrCompliant :=
                     summary_value (snd deforest_result) "compliant";
                   deforestationPercent :=
                     summary_value (snd deforest_result)
                       "deforestationPercent";
                   carbonTCO2e :=
                     summary_value (snd carbon_result) "baselineCarbonTCO2e";
                   outputFile := out |} in
              match open_output output_path with
              | Raise e => (filled false (Some (str_exn e)) None, NotOpened)
              | Ok _ =>
                  match json_dump output_path output with
                  | Ok _ =>
                      (filled true None (Some output_path),
                       Document output_path output)
                  | Raise e =>
                      (filled false (Some (str_exn e)) None,
                       Incomplete output_path)
                  end
              end
          end
      end
  | Ok farm_data =>
      (* not a dictionary: [farm_data['polygon']] raises *)
      match getitem farm_data "polygon" with
      | Raise e => (with_error result (str_exn e), NotOpened)
      | Ok _ =>
          (with_error result
             (str_exn (AttributeError "object has no attribute 'get'")),
           NotOpened)
      end
  end.

(** The row that [main] records when [process_farm] itself raises. *)
Definition error_result (file : farm_file) (e : exn) : row :=
  with_error (empty_row file) (str_exn e).

(** The loop of [main] over the farm files, for any processing step
    that returns a row or raises. *)
Fixpoint main_loop (process : farm_file -> result row)
    (continue_on_error : bool) (farm_files : list farm_file) : list row :=
  match farm_files with
  | [] => []
  | farm_file :: rest =>
      match process farm_file with
      | Ok result =>
          result
          :: (if success result then main_loop process continue_on_error rest
              else if continue_on_error
                   then main_loop process continue_on_error rest
                   else [])
      | Raise e =>
          error_result farm_file e
          :: (if continue_on_error
              then main_loop process continue_on_error rest
              else [])
      end
  end.

End ProcessFarm.

(** [0 + x] and [total + x] in [sum]: numbers add ([True] is 1), any
    other value raises [TypeError]. *)
Definition as_number (v : json) : result Q :=
  match v with
  | JNum q => Ok q
  | JBool b => Ok (if b then 1%Q else 0%Q)
  | _ => Raise (TypeError "unsupported operand type(s) for +")
  end.

Fixpoint py_sum (total : Q) (values : list json) : result Q :=
  match values with
  | [] => Ok total
  | v :: values' => x <- as_number v ;; py_sum (total + x)%Q values'
  end.

(** [if r['areaHa']] on [None] or a float. *)
Definition area_truthy (area : option R) : bool :=
  match area with
  | Some x => if Req_dec_T x 0 then false else true
  | None => false
  end.

Definition area_value (area : option R) : R :=
  match area with
  | Some x => x
  | None => 0
  end.

Module Summary.

(** The dictionary that [export_json] writes. *)
Record t : Type := {
  processedAt : string;
  totalFarms : nat;
  successfulAnalyses : nat;
  failedAnalyses : nat;
  totalArea : R;
  totalCarbon : Q;
  eudrCompliant : nat;
  results : list row
}.

End Summary.

Definition summary_of (now : string) (results : list row)
  : result Summary.t :=
  let total_area :=
    fold_left Rplus
      (map (fun r => area_value (areaHa r))
         (filter (fun r => area_truthy (areaHa r)) results)) 0 in
  total_carbon <-
    py_sum 0%Q
      (map carbonTCO2e (filter (fun r => truthy (carbonTCO2e r)) results)) ;;
  Ok {| Summary.processedAt := now;
        Summary.totalFarms := List.length results;
        Summary.successfulAnalyses :=
          List.length (filter (fun r => success r) results);
        Summary.failedAnalyses :=
          List.length (filter (fun r => negb (success r)) results);
        Summary.totalArea := total_area;
        Summary.totalCarbon := total_carbon;
        Summary.eudrCompliant :=
          List.length (filter (fun r => truthy (eudrCompliant r)) results);
        Summary.results := results |}.

(** [export_json]: the summary is built, then written. *)
Definition export_json (now : string)
    (write_summary : string -> Summary.t -> result unit)
    (results : list row) (output_path : string) : result unit :=
  summary <- summary_of now results ;;
  write_summary output_path summary.

End Batch.

(* ================================================================== *)
(** ** NDVI statistics ([ndvi_calculator.py]: [calculate_ndvi]) *)

Module NdviCalculator.

(** What [stats.getInfo()] answers: the entries of the combined
    reduction, each of them [None] or a number. *)
Definition stats : Type := list (string * option R).

Fixpoint stats_lookup (d : stats) (k : string) : option (option R) :=
  match d with
  | [] => None
  | (k', v) :: d' => if String.eqb k' k then Some v else stats_lookup d' k
  end.

(** [ndvi_stats.get(k, 0)]. *)
Definition stats_get (d : stats) (k : string) : option R :=
  match stats_lookup d k with
  | Some v => v
  | None => Some 0
  end.

(** [not ndvi_stats]. *)
Definition stats_falsy (d : option stats) : bool :=
  match d with
  | None | Some [] => true
  | Some (_ :: _) => false
  end.

Record NdviResult : Type := {
  mean : R;
  median : R;
  std : R;
  min : R;
  max : R;
  calculatedAt : string;
  imageUrl : option string;
  cloudCoverage : option R
}.

(** [sys.exit(code)] raises [SystemExit], which no [except Exception]
    clause catches: the function either exits the process or returns. *)
Inductive ending : Type :=
| Exit (code : Z)
| Return (result : NdviResult).

(** What one execution did: how it ended, how many remote fetches were
    invoked, the sleeps in order, and the state left behind. *)
Record execution (W : Type) : Type := mk_execution {
  ended : ending;
  remote_calls : nat;
  slept : list R;
  left_world : W
}.

Arguments mk_execution {W} _ _ _ _.
Arguments ended {W} _.
Arguments remote_calls {W} _.
Arguments slept {W} _.
Arguments left_world {W} _.

(** [len(coords) == 0]. *)
Definition len_is_zero (coords : json) : result bool :=
  match coords with
  | JList l => Ok (match l with [] => true | _ :: _ => false end)
  | JStr s => Ok (String.eqb s "")
  | JDict d => Ok (match d with [] => true | _ :: _ => false end)
  | _ => Raise (TypeError "object has no len()")
  end.

Section CalculateNdvi.

Context {W : Type}.

(** The client library and the clock come from the provider; the four
    remote fetches on the filtered collection read and update the state
    [W] of the outside world. *)
Variable ee : provider.
(** [collection.size().getInfo()] *)
Variable size_info : json -> string -> string -> W -> result Z * W.
(** [collection.aggregate_mean('CLOUDY_PIXEL_PERCENTAGE').getInfo()] *)
Variable cloud_info : json -> string -> string -> W -> result (option R) * W.
(** [stats.getInfo()] *)
Variable stats_info :
  json -> string -> string -> W -> result (option stats) * W.
(** [median_image.getThumbURL(...)] *)
Variable thumb_info : json -> string -> string -> W -> result string * W.

(** The first [try] block: the coordinates and the geometry. *)
Definition ee_polygon_of (polygon : json) : result json :=
  coords <- polygon_coords polygon ;;
  if negb (truthy coords)
  then Raise (ValueError "Polygon coordinates are empty")
  else
    empty <- len_is_zero coords ;;
    if empty then Raise (ValueError "Polygon coordinates are empty")
    else geometry_polygon ee coords.

(** [calculate_cloud_coverage]. *)
Definition calculate_cloud_coverage (ee_polygon : json)
    (start_date end_date : string) (w : W) : result R * W :=
  let (cloud_stats, w') := cloud_info ee_polygon start_date end_date w in
  (match cloud_stats with
   | Ok (Some x) => Ok x
   | Ok None => Ok 0
   | Raise e => Raise e
   end, w').

Definition check_collection_size (ee_polygon : json)
    (start_date end_date : string) (w : W) : Retry.run Z W :=
  Retry.retry_ee_operation (size_info ee_polygon start_date end_date)
    3 2 "Checking image collection size" w.

Definition cloud_coverage_run (ee_polygon : json)
    (start_date end_date : string) (w : W) : Retry.run R W :=
  Retry.retry_ee_operation
    (calculate_cloud_coverage ee_polygon start_date end_date)
    3 1 "Calculating cloud coverage" w.

Definition get_stats (ee_polygon : json)
    (start_date end_date : string) (w : W) : Retry.run (option stats) W :=
  Retry.retry_ee_operation (stats_info ee_polygon start_date end_date)
    3 2 "Calculating NDVI statistics" w.

Definition get_thumbnail (ee_polygon : json)
    (start_date end_date : string) (w : W) : Retry.run string W :=
  Retry.retry_ee_operation (thumb_info ee_polygon start_date end_date)
    2 1 "Generating thumbnail" w.

(** The account of a run of the executor, added to what came before. *)
Definition count {A : Type} (r : Retry.run A W) (calls : nat) : nat :=
  (calls + List.length (Retry.calls r))%nat.

Definition calculate_ndvi (polygon : json) (start_date end_date : string)
    (w : W) : execution W :=
  match ee_polygon_of polygon with
  | Raise _ => mk_execution (Exit 1) 0 [] w
  | Ok ee_polygon =>
      let size_run := check_collection_size ee_polygon start_date end_date w in
      let calls1 := count size_run 0 in
      let slept1 := Retry.sleeps size_run in
      match Retry.outcome size_run with
      | Raise _ => mk_execution (Exit 1) calls1 slept1 (Retry.world size_run)
      | Ok collection_size =>
          if (collection_size =? 0)%Z
          then mk_execution (Exit 1) calls1 slept1 (Retry.world size_run)
          else
            let cloud_run :=
              cloud_coverage_run ee_polygon start_date end_date
                (Retry.world size_run) in
            let calls2 := count cloud_run calls1 in
            let slept2 := (slept1 ++ Retry.sleeps cloud_run)%list in
            let avg_cloud_coverage :=
              match Retry.outcome cloud_run with
              | Ok x => Some x
              | Raise _ => None
              end in
            let stats_run :=
              get_stats ee_polygon start_date end_date
                (Retry.world cloud_run) in
            let calls3 := count stats_run calls2 in
            let slept3 := (slept2 ++ Retry.sleeps stats_run)%list in
            match Retry.outcome stats_run with
            | Raise _ =>
                mk_execution (Exit 1) calls3 slept3 (Retry.world stats_run)
            | Ok ndvi_stats =>
                match ndvi_stats with
                | None | Some [] =>
                    mk_execution (Exit 1) calls3 slept3
                      (Retry.world stats_run)
                | Some (entry :: entries) =>
                    let d := entry :: entries in
                    match stats_get d "NDVI_mean",
                          stats_get d "NDVI_median" with
                    | Some mean, Some median =>
                        let thumb_run :=
                          get_thumbnail ee_polygon start_date end_date
                            (Retry.world stats_run) in
                        let calls4 := count thumb_run calls3 in
                        let slept4 :=
                          (slept3 ++ Retry.sleeps thumb_run)%list in
                        let image_url :=
                          match Retry.outcome thumb_run with
                          | Ok url => Some url
                          | Raise _ => None
                          end in
                        match stats_get d "NDVI_stdDev",
                              stats_get d "NDVI_min",
                              stats_get d "NDVI_max" with
                        | Some std, Some min_val, Some max_val =>
                            mk_execution
                              (Return
                                 {| mean := py_round mean 4;
                                    median := py_round median 4;
                                    std := py_round std 4;
                                    min := py_round min_val 4;
                                    max := py_round max_val 4;
                                    calculatedAt := now_iso ee;
                                    imageUrl :=
                                      match image_url with
                                      | Some url =>
                                          if String.eqb url "" then None
                                          else Some url
                                      | None => None
                                      end;
                                    cloudCoverage :=
                                      match avg_cloud_coverage with
                                      | Some x => Some (py_round x 2)
                                      | None => None
                                      end |})
                              calls4 slept4 (Retry.world thumb_run)
                        | _, _, _ =>
                            (* [float(None)] raises [TypeError] *)
                            mk_execution (Exit 1) calls4 slept4
                              (Retry.world thumb_run)
                        end
                    | _, _ =>
                        (* [ValueError]: invalid mean or median *)
                        mk_execution (Exit 1) calls3 slept3
                          (Retry.world stats_run)
                    end
                end
            end
      end
  end.

End CalculateNdvi.

End NdviCalculator.

(* ================================================================== *)
(** ** Auxiliary notions for the further properties *)

(** A measurement with its [count] entry set. *)
Definition with_count (t : tree) (c : Z) : tree :=
  {| species := species t; dbh_cm := dbh_cm t; avgDbh := avgDbh t;
     height_m := height_m t; avgHeight := avgHeight t; count := Some c |}.

(** The historical image of one year: present when the collection of the
    year could be counted, is not empty, and its thumbnail was obtained. *)
Definition year_entry (size : Z -> result Z) (thumb : Z -> result string)
    (year : Z) : list (Z * string) :=
  match size year with
  | Ok collection_size =>
      if (0 <? collection_size)%Z then
        match thumb year with
        | Ok thumbnail => [(year, thumbnail)]
        | Raise _ => []
        end
      else []
  | Raise _ => []
  end.

(** A provider that answers every request and whose dry-season collection
    has the given size or failure for each year. *)
Definition seasonal_provider (sizes : Z -> result Z) (cover loss : stat)
  : provider :=
  {| geometry_polygon := fun coords => Ok coords;
     area_m2_info := fun _ => Ok 10000;
     s2_collection_size := fun _ => Ok 0%Z;
     ndvi_mean_info := fun _ => Ok Absent;
     forest_cover_info := fun _ => Ok cover;
     forest_loss_info := fun _ _ _ => Ok loss;
     change_thumb_url := fun _ _ _ => Ok "https://example.org/change.png";
     dry_season_size := fun _ year => sizes year;
     dry_season_thumb := fun _ _ => Ok "https://example.org/year.png";
     forest_area_m2_info := fun _ => Ok cover;
     forest_loss_m2_info := fun _ _ _ => Ok loss;
     farm_change_thumb_url := fun _ _ _ => Ok "https://example.org/change.png";
     now_iso := "2025-01-01T00:00:00";
     now_year := 2025%Z;
     five_years_ago_year := 2020%Z |}.

(** Images in every year but 2021, whose query fails, and 2022, which has
    none. *)
Definition sample_sizes (year : Z) : result Z :=
  if (year =? 2021)%Z then Raise (EEException "Computation timed out")
  else if (year =? 2022)%Z then Ok 0%Z
  else Ok 3%Z.

(** A farm file that holds the square parcel, one that cannot be parsed,
    and analyses that answer with fixed figures or fail. *)
Definition square_farm_file : Batch.farm_file :=
  {| Batch.file_name := "square.json";
     Batch.file_stem := "square";
     Batch.file_data :=
       Ok (JDict [("polygon", square_polygon); ("farmId", JStr "farm-1")]) |}.

Definition unreadable_farm_file : Batch.farm_file :=
  {| Batch.file_name := "broken.json";
     Batch.file_stem := "broken";
     Batch.file_data :=
       Raise (OtherException "JSONDecodeError" "Expecting value") |}.

Definition failing_ndvi (polygon : json) (start_date end_date : string)
  : result (list (string * json)) :=
  Raise (EEException "Computation timed out").

Definition sample_deforestation (polygon farm_id : json)
  : result (list (string * json)) :=
  Ok [("compliant", JBool true); ("deforestationPercent", JNum (1#2))].

Definition sample_carbon (polygon farm_id tree_inventory : json)
  : result (list (string * json)) :=
  Ok [("baselineCarbonTCO2e", JNum (120#1))].

Definition sample_path (output_dir output_filename : string) : string :=
  (output_dir ++ "/" ++ output_filename)%string.

Definition exn_message (e : exn) : string :=
  match e with
  | EEException msg | ValueError msg | TypeError msg | AttributeError msg
  | ZeroDivisionError msg | RuntimeError msg | OtherException _ msg => msg
  | KeyError key => key
  end.

(** The square parcel with a hole. *)
Definition square_with_hole : list (list (list Q)) :=
  [[[0#1; 0#1]; [0#1; 4#1]; [4#1; 4#1]; [4#1; 0#1]; [0#1; 0#1]];
   [[1#1; 1#1]; [1#1; 2#1]; [2#1; 2#1]; [2#1; 1#1]; [1#1; 1#1]]].

(** [process_farm] with the fixed analyses, a parcel of one hectare, a
    write that succeeds and the ASCII lower-casing. *)
Definition sample_process_farm (file : Batch.farm_file)
  : Batch.row * Batch.output_file :=
  Batch.process_farm (constant_provider 10000 3 Absent Absent Absent)
    failing_ndvi sample_deforestation sample_carbon (fun _ => Ok tt)
    (fun _ _ => Ok tt) sample_path exn_message Retry.lower file "out"
    "2024-01-01" "2024-12-31".

(** A row whose carbon figure is a text. *)
Definition text_carbon_row : Batch.row :=
  {| Batch.filename := "square.json"; Batch.success := true;
     Batch.error := None; Batch.name := JStr "square";
     Batch.farmId := JStr "farm-1"; Batch.areaHa := Some 1;
     Batch.ndvi := JNull; Batch.eudrCompliant := JBool true;
     Batch.deforestationPercent := JNum (1#2);
     Batch.carbonTCO2e := JStr "n/a";
     Batch.outputFile := Some "out/square_analysis.json" |}.

(** Remote fetches for the NDVI statistics: five images, statistics
    without a minimum entry, and a cloud coverage and a thumbnail that
    fail. The state counts the fetches. *)
Definition sample_size_info (aoi : json) (start_date end_date : string)
    (w : nat) : result Z * nat :=
  (Ok 5%Z, S w).

Definition failing_cloud_info (aoi : json) (start_date end_date : string)
    (w : nat) : result (option R) * nat :=
  (Raise (EEException "Request Timeout"), S w).

Definition sample_stats : NdviCalculator.stats :=
  [("NDVI_mean", Some (1 / 2)); ("NDVI_median", Some (1 / 2));
   ("NDVI_stdDev", Some (1 / 10)); ("NDVI_max", Some (9 / 10))].

Definition sample_stats_info (aoi : json) (start_date end_date : string)
    (w : nat) : result (option NdviCalculator.stats) * nat :=
  (Ok (Some sample_stats), S w).

Definition failing_thumb_info (aoi : json) (start_date end_date : string)
    (w : nat) : result string * nat :=
  (Raise (EEException "Image too large"), S w).

(** Text made of ASCII characters only. *)
Fixpoint is_ascii (s : string) : bool :=
  match s with
  | EmptyString => true
  | String c s' => (nat_of_ascii c <? 128)%nat && is_ascii s'
  end.

(* ================================================================== *)
(** * Properties *)

(** ** Numbers *)

Lemma Rltb_true_iff (x y : R) : Rltb x y = true <-> x < y.
Proof.
  unfold Rltb. destruct (Rlt_dec x y); split; intro H; try easy.
Qed.

Lemma Rltb_false_iff (x y : R) : Rltb x y = false <-> y <= x.
Proof.
  unfold Rltb. destruct (Rlt_dec x y); split; intro H; try easy; lra.
Qed.

Lemma Rleb_true_iff (x y : R) : Rleb x y = true <-> x <= y.
Proof.
  unfold Rleb. destruct (Rle_dec x y); split; intro H; try easy.
Qed.

Lemma Rleb_false_iff (x y : R) : Rleb x y = false <-> y < x.
Proof.
  unfold Rleb. destruct (Rle_dec x y); split; intro H; try easy; lra.
Qed.

Lemma round_half_even_IZR (z : Z) : round_half_even (IZR z) = z.
Proof.
  unfold round_half_even. rewrite ZfloorZ.
  destruct (Rlt_dec (IZR z - IZR z) (1 / 2)) as [_ | H]; [reflexivity | lra].
Qed.

(** Rounding leaves an integer alone, at any number of decimals. *)
Lemma py_round_IZR (z : Z) (n : nat) : py_round (IZR z) n = IZR z.
Proof.
  unfold py_round.
  assert (H10 : 10 ^ n = IZR (10 ^ Z.of_nat n)) by (rewrite <- pow_IZR; reflexivity).
  assert (Hpos : 0 < 10 ^ n) by (apply pow_lt; lra).
  rewrite H10 at 1. rewrite <- mult_IZR, round_half_even_IZR.
  rewrite mult_IZR, <- H10. field. lra.
Qed.

(* ================================================================== *)
(** ** Geometry normalizer *)

Section GeometryFacts.

Import Geometry.

Lemma strip_keeps_number_test (j : json) :
  is_number (_strip_z_coordinates j) = is_number j.
Proof.
  destruct j as [ | b | q | s | l | d]; try reflexivity.
  simpl. destruct (is_number_head l); reflexivity.
Qed.

Lemma strip_keeps_list_test (j : json) :
  is_list (_strip_z_coordinates j) = is_list j.
Proof.
  destruct j as [ | b | q | s | l | d]; try reflexivity.
  simpl. destruct (is_number_head l); reflexivity.
Qed.

Lemma number_head_map_strip (l : list json) :
  is_number_head (map _strip_z_coordinates l) = is_number_head l.
Proof.
  destruct l as [ | x l']; [reflexivity | apply strip_keeps_number_test].
Qed.

Lemma number_head_firstn2 (l : list json) :
  is_number_head (firstn 2 l) = is_number_head l.
Proof.
  destruct l as [ | x l']; reflexivity.
Qed.

(** The output of the stripping is planar. *)
Lemma strip_is_2d (c : json) : is_2d (_strip_z_coordinates c) = true.
Proof.
  induction c as [ | b | q | s | l IH | d] using json_list_ind;
    try reflexivity.
  cbn [_strip_z_coordinates]. destruct (is_number_head l) eqn:Hhead.
  - cbn [is_2d]. rewrite number_head_firstn2, Hhead.
    apply Nat.leb_le. rewrite length_firstn. lia.
  - cbn [is_2d]. rewrite number_head_map_strip, Hhead.
    clear Hhead. induction IH as [ | x l' Hx _ IHl]; simpl.
    + reflexivity.
    + rewrite Hx, IHl. reflexivity.
Qed.

Lemma strip_vertex (v : list Q) :
  _strip_z_coordinates (vertex_json v) = vertex_json (firstn 2 v).
Proof.
  unfold vertex_json. destruct v as [ | x [ | y v']]; reflexivity.
Qed.

Lemma strip_ring (r : list (list Q)) :
  _strip_z_coordinates (ring_json r) = ring_json (map (firstn 2) r).
Proof.
  unfold ring_json. simpl.
  replace (is_number_head (map vertex_json r)) with false
    by (destruct r; reflexivity).
  f_equal. rewrite !map_map. apply map_ext. intro v. apply strip_vertex.
Qed.

Lemma strip_polygon (rings : list (list (list Q))) :
  _strip_z_coordinates (polygon_json rings)
  = polygon_json (map (map (firstn 2)) rings).
Proof.
  unfold polygon_json. simpl.
  replace (is_number_head (map ring_json rings)) with false
    by (destruct rings; reflexivity).
  f_equal. rewrite !map_map. apply map_ext. intro r. apply strip_ring.
Qed.

Lemma py_eq_str_false (t : json) (s : string) :
  t <> JStr s -> py_eq_str t s = false.
Proof.
  destruct t as [ | b | q | s' | l | d]; try reflexivity.
  intro H. simpl. apply String.eqb_neq. congruence.
Qed.

End GeometryFacts.

(** What the normalizer does with the type and the coordinates. For a
    mapping whose ['type'] is truthy and whose ['coordinates'] is not
    [None]: a type other than "MultiPolygon"
    is passed through unchanged with the stripped coordinates (so a
    "Polygon" stays a "Polygon"); a "MultiPolygon" whose first constituent
    is a list becomes a "Polygon" holding the stripped first constituent
    only; the stripped coordinates are planar, and on an array of rings of
    numeric vertices every vertex keeps exactly its first two components. *)
Theorem normalize_geometry_type_and_coordinates :
  forall d : list (string * json),
    truthy (py_get d "type") = true ->
    py_get d "coordinates" <> JNull ->
    (py_get d "type" <> JStr "MultiPolygon" ->
     Geometry._normalize_geometry (JDict d)
     = Ok (Geometry.geometry_object (py_get d "type")
             (Geometry._strip_z_coordinates (py_get d "coordinates"))))
    /\ (py_get d "type" = JStr "MultiPolygon" ->
        forall first rest,
          py_get d "coordinates" = JList (JList first :: rest) ->
          Geometry._normalize_geometry (JDict d)
          = Ok (Geometry.geometry_object (JStr "Polygon")
                  (Geometry._strip_z_coordinates (JList first))))
    /\ Geometry.is_2d (Geometry._strip_z_coordinates (py_get d "coordinates"))
       = true
    /\ (forall rings,
          py_get d "coordinates" = Geometry.polygon_json rings ->
          Geometry._strip_z_coordinates (py_get d "coordinates")
          = Geometry.polygon_json (map (map (firstn 2)) rings)).
Proof.
  intros d Htype Hcoords.
  assert (Hguard : negb (truthy (py_get d "type"))
                   || is_none (py_get d "coordinates") = false).
  { rewrite Htype. destruct (py_get d "coordinates"); try reflexivity.
    now elim Hcoords. }
  repeat split.
  - intro Hother. unfold Geometry._normalize_geometry.
    rewrite Hguard, (py_eq_str_false _ _ Hother). reflexivity.
  - intros Hmulti first rest Hc. unfold Geometry._normalize_geometry.
    rewrite Hguard, Hmulti, Hc.
    change (Geometry._strip_z_coordinates (JList (JList first :: rest)))
      with (JList (Geometry._strip_z_coordinates (JList first)
                   :: map Geometry._strip_z_coordinates rest)).
    cbn [py_eq_str truthy negb getitem0 bind]. rewrite String.eqb_refl.
    rewrite strip_keeps_list_test. reflexivity.
  - apply strip_is_2d.
  - intros rings Hc. rewrite Hc. apply strip_polygon.
Qed.

(** Two polygons of one ring each in a MultiPolygon: the first one comes
    back, without its elevations; the second one is dropped. *)
Lemma normalize_geometry_type_and_coordinates_witness :
  Geometry._normalize_geometry
    (JDict [("type", JStr "MultiPolygon");
            ("coordinates",
             JList
               [Geometry.polygon_json
                  [[[1#1; 2#1; 9#1]; [3#1; 4#1; 9#1]; [5#1; 6#1; 9#1];
                    [1#1; 2#1; 9#1]]];
                Geometry.polygon_json
                  [[[7#1; 7#1]; [8#1; 8#1]; [9#1; 9#1]; [7#1; 7#1]]]])])
  = Ok (Geometry.geometry_object (JStr "Polygon")
          (Geometry.polygon_json
             [[[1#1; 2#1]; [3#1; 4#1]; [5#1; 6#1]; [1#1; 2#1]]])).
Proof.
  pose proof (normalize_geometry_type_and_coordinates
                [("type", JStr "MultiPolygon");
                 ("coordinates",
                  JList
                    [Geometry.polygon_json
                       [[[1#1; 2#1; 9#1]; [3#1; 4#1; 9#1]; [5#1; 6#1; 9#1];
                         [1#1; 2#1; 9#1]]];
                     Geometry.polygon_json
                       [[[7#1; 7#1]; [8#1; 8#1]; [9#1; 9#1]; [7#1; 7#1]]]])]
                eq_refl) as H.
  destruct H as [_ [Hmulti _]]; [discriminate | ].
  rewrite (Hmulti eq_refl _ _ eq_refl). reflexivity.
Defined.

(** C6. The docstring of [_normalize_geometry] gives the output format
    as a geometry of type "Polygon", and the callers build
    [ee.Geometry.Polygon] from its coordinates; but the type is not
    checked: a Point with an elevation is accepted and comes back as a
    geometry of type "Point". *)
Lemma normalize_geometry_point_stays_point :
  Geometry._normalize_geometry
    (JDict [("type", JStr "Point");
            ("coordinates", JList [JNum (1#1); JNum (2#1); JNum (3#1)])])
  = Ok (JDict [("type", JStr "Point");
               ("coordinates", JList [JNum (1#1); JNum (2#1)])])
  /\ JStr "Point" <> JStr "Polygon".
Proof.
  split; [reflexivity | discriminate].
Qed.

(* ================================================================== *)
(** ** Resilient remote query executor *)

Section RetryFacts.

Import Retry.

Context {A W : Type}.
Variable operation : W -> result A * W.
Variable max_retries : Z.
Variable delay : R.
Variable operation_name : string.

(** A run that stops after one invocation. *)
Lemma single_call_contract (n a : nat) (c out : result A) (w : W) :
  (1 <= n)%nat ->
  (retryable_failure c = false -> out = c) ->
  (retryable_failure c = true -> n = 1%nat -> out = c) ->
  (retryable_failure c = true -> 0 <= delay -> n = 1%nat) ->
  loop_contract delay n a (after_call c (mk_run out [] [] w)).
Proof.
  intros Hn Hstop Hlast Hfull. unfold loop_contract. cbn.
  split; [lia | ]. split; [reflexivity | ].
  split; [intros k c' _ Hk; lia | ].
  intros c' Hc. injection Hc as <-.
  split; [exact Hstop | ]. split.
  - intros Hr Hlen. apply Hlast; [exact Hr | lia].
  - intros Hr Hd. symmetry. apply Hfull; assumption.
Qed.

Lemma sleep_ok_nonneg (a : nat) : 0 <= delay -> sleep_ok (delay * 2 ^ a) = true.
Proof.
  intro Hd. unfold sleep_ok.
  destruct (Rle_dec 0 (delay * 2 ^ a)) as [_ | Hneg]; [reflexivity | ].
  exfalso. apply Hneg. apply Rmult_le_pos; [exact Hd | ].
  apply pow_le. lra.
Qed.

Lemma retry_loop_contract :
  forall (n a : nat) (last_error : option exn) (w : W),
    (1 <= n)%nat ->
    Z.of_nat (a + n) = max_retries ->
    loop_contract delay n a
      (retry_loop operation max_retries delay operation_name n a last_error w).
Proof.
  induction n as [ | n IH]; intros a last_error w Hn Hmax; [lia | ].
  cbn [retry_loop]. destruct (operation w) as [c w'].
  destruct c as [v | e].
  { apply single_call_contract; auto; discriminate. }
  destruct e as [msg | | | | | | | ];
    try (apply single_call_contract; auto; discriminate).
  destruct (retryable_message msg) eqn:Hmsg;
    [ | apply single_call_contract; auto; cbn; congruence].
  destruct (Z.of_nat a <? max_retries - 1)%Z eqn:Hmore.
  2:{ apply Z.ltb_ge in Hmore.
      apply single_call_contract; auto; intros; lia. }
  apply Z.ltb_lt in Hmore.
  destruct (sleep_ok (delay * 2 ^ a)) eqn:Hsleep.
  2:{ apply single_call_contract; auto.
      - cbn. congruence.
      - intros _ H1. lia.
      - intros _ Hd. rewrite (sleep_ok_nonneg a Hd) in Hsleep. discriminate. }
  assert (Hn' : (1 <= n)%nat) by lia.
  assert (Hmax' : Z.of_nat (S a + n) = max_retries) by lia.
  specialize (IH (S a) (Some (EEException msg)) w' Hn' Hmax').
  set (rest := retry_loop operation max_retries delay operation_name n (S a)
                 (Some (EEException msg)) w') in *.
  destruct IH as (Hlen & Hsleeps & Hretry & Hend).
  assert (Hshift : (S (List.length (calls rest)) - 1
                   = S (List.length (calls rest) - 1))%nat) by lia.
  unfold loop_contract. cbn [after_call after_sleep calls sleeps outcome].
  cbn [List.length]. split; [lia | ]. split; [lia | ]. split.
  - intros k c Hc Hk. destruct k as [ | k]; cbn [nth_error] in Hc |- *.
    + injection Hc as <-. split; [exact Hmsg | ].
      rewrite Nat.add_0_r. reflexivity.
    + destruct (Hretry k c Hc) as [Hr Hs]; [lia | ].
      split; [exact Hr | ]. rewrite Hs. do 3 f_equal. lia.
  - intros c Hc. rewrite Hshift in Hc. cbn [nth_error] in Hc.
    destruct (Hend c Hc) as (Hstop & Hlast & Hfull).
    split; [exact Hstop | ]. split.
    + intros Hr Hfull'. apply Hlast; [exact Hr | lia].
    + intros Hr Hd. f_equal. apply Hfull; assumption.
Qed.

End RetryFacts.



(** C9. With [max_retries = 0] the operation is never invoked: the loop
    body is skipped, no error was seen, and the executor raises the
    [RuntimeError] that reports 0 attempts. *)
Theorem retry_ee_operation_zero_retries :
  forall (A W : Type) (operation : W -> result A * W) (delay : R)
         (operation_name : string) (w : W),
    Retry.retry_ee_operation operation 0 delay operation_name w
    = Retry.mk_run
        (Raise (RuntimeError (operation_name ++ " failed after 0 attempts")))
        [] [] w.
Proof.
  intros. reflexivity.
Qed.

(* ================================================================== *)
(** ** Carbon baseline *)

Section CarbonFacts.

Import CarbonBaseline.

Lemma Rleb_negb_Rltb (x y : R) : Rleb x y = negb (Rltb y x).
Proof.
  unfold Rleb, Rltb. destruct (Rle_dec x y), (Rlt_dec y x); try reflexivity; lra.
Qed.

Lemma skip_test_is_measured (t : tree) :
  Rleb (tree_dbh t) 0 || Rleb (tree_height t) 0 = negb (is_measured t).
Proof.
  unfold is_measured. rewrite !Rleb_negb_Rltb, negb_andb. reflexivity.
Qed.

Lemma field_step_eq (total : R) (trees : Z) (t : tree) :
  field_step (total, trees) t
  = if is_measured t
    then (total + spec_tree_agb_kg t, (trees + tree_count t)%Z)
    else (total, trees).
Proof.
  unfold field_step.
  fold (tree_species t) (tree_dbh t) (tree_height t) (tree_count t).
  rewrite skip_test_is_measured. destruct (is_measured t); cbn [negb].
  - f_equal. unfold spec_tree_agb_kg. ring.
  - reflexivity.
Qed.

(** The loop over the inventory adds up the measured trees. *)
Lemma fold_field_step (tree_inventory : list tree) :
  forall (total : R) (trees : Z),
    fold_left field_step tree_inventory (total, trees)
    = (total + spec_total_agb_kg tree_inventory,
       (trees + spec_trees_analyzed tree_inventory)%Z).
Proof.
  induction tree_inventory as [ | t inv IH]; intros total trees.
  - cbn. f_equal; [ring | lia].
  - cbn [fold_left]. rewrite field_step_eq.
    unfold spec_total_agb_kg, spec_trees_analyzed in *. cbn [filter].
    destruct (is_measured t); rewrite IH; cbn [map fold_right].
    + f_equal; [ring | lia].
    + reflexivity.
Qed.

Lemma field_data_eq (tree_inventory : list tree) :
  calculate_agb_from_field_data tree_inventory
  = {| Field.total_agb_kg := spec_total_agb_kg tree_inventory;
       Field.total_agb_tonnes := spec_total_agb_kg tree_inventory / 1000;
       Field.trees_analyzed := spec_trees_analyzed tree_inventory |}.
Proof.
  unfold calculate_agb_from_field_data. rewrite fold_field_step.
  rewrite Rplus_0_l, Z.add_0_l. reflexivity.
Qed.

(** The guarded division never raises. *)
Lemma guarded_division (total area : R) :
  (if Rltb 0 area then py_div total area else Ok 0)
  = Ok (if Rltb 0 area then total / area else 0).
Proof.
  destruct (Rltb 0 area) eqn:Hpos; [ | reflexivity].
  apply Rltb_true_iff in Hpos. unfold py_div.
  destruct (Req_dec_T area 0) as [Hzero | _]; [lra | reflexivity].
Qed.

Lemma has_inventory_cons (tree_inventory : list tree) :
  tree_inventory <> [] -> has_inventory (Some tree_inventory) = true.
Proof.
  destruct tree_inventory; [congruence | reflexivity].
Qed.


(** The field branch of the dispatch. *)
Lemma field_branch (ee : provider) (polygon : json) (project_id : string)
    (tree_inventory : list tree) (aoi : json) (area_m2 : R) :
  tree_inventory <> [] ->
  polygon_geometry ee polygon = Ok aoi ->
  area_m2_info ee aoi = Ok area_m2 ->
  calculate_carbon_baseline ee polygon project_id (Some tree_inventory) "field"
  = Ok (build_result ee (spec_total_agb_kg tree_inventory / 1000)
          (if Rltb 0 (area_m2 / 10000)
           then spec_total_agb_kg tree_inventory / 1000 / (area_m2 / 10000)
           else 0)
          (area_m2 / 10000) "field"
          (if (10 <=? spec_trees_analyzed tree_inventory)%Z
           then "high" else "medium")
          (spec_trees_analyzed tree_inventory)).
Proof.
  intros Hinv Haoi Harea. unfold calculate_carbon_baseline.
  rewrite Haoi. cbn [bind]. rewrite Harea. cbn [bind].
  rewrite (has_inventory_cons _ Hinv). cbn [String.eqb Ascii.eqb Bool.eqb andb].
  cbn [get_or]. rewrite field_data_eq. cbn [Field.total_agb_tonnes Field.trees_analyzed].
  rewrite guarded_division. reflexivity.
Qed.

End CarbonFacts.

Lemma is_measured_iff (t : tree) :
  is_measured t = true <-> 0 < tree_dbh t /\ 0 < tree_height t.
Proof.
  unfold is_measured. rewrite andb_true_iff, !Rltb_true_iff. reflexivity.
Qed.

Lemma is_measured_false_iff (t : tree) :
  is_measured t = false <-> tree_dbh t <= 0 \/ tree_height t <= 0.
Proof.
  unfold is_measured. rewrite andb_false_iff, !Rltb_false_iff. reflexivity.
Qed.



Section SatelliteFacts.

Import CarbonBaseline.

Variable ee : provider.
Variable polygon : json.

(** A successful satellite estimate read the coordinates and the area. *)
Lemma satellite_ok_inv (sat : Sat.t) :
  calculate_agb_from_satellite ee polygon = Ok sat ->
  exists aoi area_m2,
    polygon_geometry ee polygon = Ok aoi
    /\ area_m2_info ee aoi = Ok area_m2
    /\ Sat.area_ha sat = area_m2 / 10000.
Proof.
  unfold calculate_agb_from_satellite.
  destruct (polygon_geometry ee polygon) as [aoi | e]; [ | discriminate].
  cbn [bind].
  destruct (area_m2_info ee aoi) as [area_m2 | e] eqn:Harea;
    [ | discriminate].
  cbn [bind]. intro H. exists aoi, area_m2.
  split; [reflexivity | ]. split; [exact Harea | ].
  destruct (s2_collection_size ee aoi) as [size | e]; [ | discriminate].
  cbn [bind] in H. destruct (size =? 0)%Z.
  - injection H as <-. reflexivity.
  - destruct (ndvi_mean_info ee aoi) as [st | e]; [ | discriminate].
    cbn [bind] in H. destruct (format_float st 0.5) as [ndvi | e];
      [ | discriminate].
    cbn [bind] in H. injection H as <-. reflexivity.
Qed.

(** The satellite estimate when the provider has no image. *)
Lemma satellite_zero_images (aoi : json) (area_m2 : R) :
  polygon_geometry ee polygon = Ok aoi ->
  area_m2_info ee aoi = Ok area_m2 ->
  s2_collection_size ee aoi = Ok 0%Z ->
  calculate_agb_from_satellite ee polygon
  = Ok {| Sat.total_agb_tonnes := area_m2 / 10000 * 50;
          Sat.agb_per_ha := 50;
          Sat.area_ha := area_m2 / 10000;
          Sat.ndvi_mean := 0.5;
          Sat.method := "default_estimation" |}.
Proof.
  intros Haoi Harea Hsize. unfold calculate_agb_from_satellite.
  rewrite Haoi. cbn [bind]. rewrite Harea. cbn [bind].
  rewrite Hsize. reflexivity.
Qed.

(** The [else] branch of the dispatch. *)
Lemma else_branch (project_id : string) (tree_inventory : option (list tree))
    (method : string) :
  satellite_branch method tree_inventory = true ->
  calculate_carbon_baseline ee polygon project_id tree_inventory method
  = (aoi <- polygon_geometry ee polygon ;;
     area_m2 <- area_m2_info ee aoi ;;
     sat_result <- calculate_agb_from_satellite ee polygon ;;
     Ok (build_result ee (Sat.total_agb_tonnes sat_result)
           (Sat.agb_per_ha sat_result) (area_m2 / 10000) method "medium" 0%Z)).
Proof.
  unfold satellite_branch, calculate_carbon_baseline. intro Hbranch.
  destruct (polygon_geometry ee polygon) as [aoi | e]; [ | reflexivity].
  cbn [bind]. destruct (area_m2_info ee aoi) as [area_m2 | e];
    [ | reflexivity].
  cbn [bind].
  destruct (String.eqb method "field"), (String.eqb method "hybrid"),
    (has_inventory tree_inventory); try discriminate; reflexivity.
Qed.

(** Without an inventory the dispatch always reaches the [else] branch. *)
Lemma no_inventory_satellite_branch (tree_inventory : option (list tree))
    (method : string) :
  has_inventory tree_inventory = false ->
  satellite_branch method tree_inventory = true.
Proof.
  intro H. unfold satellite_branch. rewrite H, andb_false_r. reflexivity.
Qed.

(** The outcome for a request without inventory is the one of the
    satellite request, with the requested method written in it. *)
Lemma no_inventory_relabels (project_id : string)
    (tree_inventory : option (list tree)) (method : string) :
  has_inventory tree_inventory = false ->
  calculate_carbon_baseline ee polygon project_id tree_inventory method
  = (r <- calculate_carbon_baseline ee polygon project_id tree_inventory
            "satellite" ;;
     Ok (with_methodology method r)).
Proof.
  intro H.
  rewrite !(else_branch _ _ _ (no_inventory_satellite_branch _ _ H)).
  destruct (polygon_geometry ee polygon) as [aoi | e]; [ | reflexivity].
  cbn [bind]. destruct (area_m2_info ee aoi) as [area_m2 | e];
    [ | reflexivity].
  cbn [bind].
  destruct (calculate_agb_from_satellite ee polygon) as [sat | e];
    reflexivity.
Qed.

End SatelliteFacts.

Lemma py_round_50 (n : nat) : py_round 50 n = 50.
Proof. exact (py_round_IZR 50 n). Qed.

Lemma py_round_0 (n : nat) : py_round 0 n = 0.
Proof. exact (py_round_IZR 0 n). Qed.

(** What the code does when the provider has no image: the satellite
    estimate has [agb_per_ha = 50], a total of [area_ha x 50] and the tag
    [method = "default_estimation"]; the result of
    [calculate_carbon_baseline] for the satellite method reports 50 tonnes
    per hectare with methodology "satellite" and confidence "medium"; the
    local analysis reports 50 tonnes per hectare with methodology
    "satellite" and confidence "low". *)
Theorem zero_images_default_estimate :
  forall (ee : provider) (polygon aoi : json) (area_m2 : R),
    polygon_geometry ee polygon = Ok aoi ->
    area_m2_info ee aoi = Ok area_m2 ->
    s2_collection_size ee aoi = Ok 0%Z ->
    (exists sat,
        CarbonBaseline.calculate_agb_from_satellite ee polygon = Ok sat
        /\ CarbonBaseline.Sat.agb_per_ha sat = 50
        /\ CarbonBaseline.Sat.total_agb_tonnes sat = area_m2 / 10000 * 50
        /\ CarbonBaseline.Sat.method sat = "default_estimation")
    /\ (forall project_id tree_inventory,
          exists r,
            CarbonBaseline.calculate_carbon_baseline ee polygon project_id
              tree_inventory "satellite" = Ok r
            /\ agbTonnesPerHa r = 50
            /\ methodology r = "satellite"
            /\ confidence r = "medium")
    /\ (forall farm_id tree_inventory,
          has_inventory tree_inventory = false ->
          exists r,
            AnalyzeFarm.calculate_carbon_baseline ee polygon farm_id
              tree_inventory = Ok r
            /\ agbTonnesPerHa r = 50
            /\ methodology r = "satellite"
            /\ confidence r = "low").
Proof.
  intros ee polygon aoi area_m2 Haoi Harea Hsize.
  pose proof (satellite_zero_images ee polygon aoi area_m2
                Haoi Harea Hsize) as Hsat.
  split; [ | split].
  - eexists. split; [exact Hsat | ]. repeat split; reflexivity.
  - intros project_id tree_inventory.
    rewrite (else_branch _ _ _ tree_inventory "satellite" eq_refl), Haoi.
    cbn [bind].
    rewrite Harea. cbn [bind]. rewrite Hsat. cbn [bind].
    eexists. split; [reflexivity | ].
    cbn [build_result agbTonnesPerHa totalAgbTonnes methodology confidence
         CarbonBaseline.Sat.agb_per_ha CarbonBaseline.Sat.total_agb_tonnes].
    rewrite py_round_50. repeat split; reflexivity.
  - intros farm_id tree_inventory Hinv.
    unfold AnalyzeFarm.calculate_carbon_baseline.
    rewrite Haoi. cbn [bind]. rewrite Harea. cbn [bind].
    rewrite Hinv, Hsize. cbn [bind Z.eqb].
    eexists. split; [reflexivity | ].
    cbn [build_result agbTonnesPerHa totalAgbTonnes methodology confidence].
    rewrite py_round_50. repeat split; reflexivity.
Qed.

(** One hectare without images, satellite method: 50 tonnes per hectare,
    reported with methodology "satellite". *)
Lemma zero_images_default_estimate_witness :
  exists r,
    CarbonBaseline.calculate_carbon_baseline
      (constant_provider 10000 0 Absent Absent Absent) square_polygon
      "farm-1" None "satellite" = Ok r
    /\ agbTonnesPerHa r = 50
    /\ methodology r = "satellite".
Proof.
  destruct (zero_images_default_estimate
              (constant_provider 10000 0 Absent Absent Absent) square_polygon
              (Geometry.polygon_json
                 [[[0#1; 0#1]; [0#1; 1#1]; [1#1; 1#1]; [1#1; 0#1]; [0#1; 0#1]]])
              10000 eq_refl eq_refl eq_refl) as (_ & Hbaseline & _).
  destruct (Hbaseline "farm-1" None) as (r & Hr & Hagb & Hmethod & _).
  exists r. split; [exact Hr | ]. split; [exact Hagb | exact Hmethod].
Defined.

(** C3. With zero images the satellite helper marks its answer as the
    default ([method = "default_estimation"], 50 tonnes per hectare), but
    [calculate_carbon_baseline] does not read the mark: the [methodology]
    of its result is the requested method, here "satellite", with
    confidence "medium", as for an estimate made from imagery. The local
    analysis marks the same path by confidence "low". *)
Lemma zero_images_methodology_not_default_estimation :
  s2_collection_size (constant_provider 10000 0 Absent Absent Absent)
    (Geometry.polygon_json
       [[[0#1; 0#1]; [0#1; 1#1]; [1#1; 1#1]; [1#1; 0#1]; [0#1; 0#1]]])
  = Ok 0%Z
  /\ (exists sat,
         CarbonBaseline.calculate_agb_from_satellite
           (constant_provider 10000 0 Absent Absent Absent) square_polygon
         = Ok sat
         /\ CarbonBaseline.Sat.agb_per_ha sat = 50
         /\ CarbonBaseline.Sat.method sat = "default_estimation")
  /\ (exists r,
         CarbonBaseline.calculate_carbon_baseline
           (constant_provider 10000 0 Absent Absent Absent) square_polygon
           "farm-1" None "satellite" = Ok r
         /\ agbTonnesPerHa r = 50
         /\ methodology r = "satellite"
         /\ confidence r = "medium"
         /\ methodology r <> "default_estimation")
  /\ (exists r,
         AnalyzeFarm.calculate_carbon_baseline
           (constant_provider 10000 0 Absent Absent Absent) square_polygon
           "farm-1" None = Ok r
         /\ agbTonnesPerHa r = 50
         /\ confidence r = "low").
Proof.
  split; [reflexivity | ]. split; [ | split].
  - eexists. split; [reflexivity | ]. split; reflexivity.
  - eexists. split; [reflexivity | ].
    split; [apply py_round_50 | ]. split; [reflexivity | ].
    split; [reflexivity | discriminate].
  - eexists. split; [reflexivity | ].
    split; [apply py_round_50 | reflexivity].
Qed.

(** C4 (what the code does). A request for any method without inventory,
    absent or empty, has the outcome of the satellite request: no error of
    its own, the same figures, and the requested method written in
    [methodology]; so a fallback from "field" is reported as "field". *)
Theorem missing_inventory_falls_back_to_satellite :
  forall (ee : provider) (polygon : json) (project_id method : string),
    CarbonBaseline.calculate_carbon_baseline ee polygon project_id None method
    = (r <- CarbonBaseline.calculate_carbon_baseline ee polygon project_id
              None "satellite" ;;
       Ok (with_methodology method r))
    /\ CarbonBaseline.calculate_carbon_baseline ee polygon project_id
         (Some []) method
       = (r <- CarbonBaseline.calculate_carbon_baseline ee polygon project_id
                 (Some []) "satellite" ;;
          Ok (with_methodology method r)).
Proof.
  intros ee polygon project_id method.
  split; apply no_inventory_relabels; reflexivity.
Qed.

(** The fallback on one hectare without images, asked with method "field"
    and no inventory: the satellite default of 50 tonnes per hectare,
    reported with the same [methodology] as a field estimate from
    measured trees. *)
Lemma missing_inventory_field_request_example :
  exists fallback measured,
    CarbonBaseline.calculate_carbon_baseline
      (constant_provider 10000 0 Absent Absent Absent) square_polygon
      "farm-1" None "field" = Ok fallback
    /\ CarbonBaseline.calculate_carbon_baseline
         (constant_provider 10000 0 Absent Absent Absent) square_polygon
         "farm-1" (Some [eucalyptus_tree]) "field" = Ok measured
    /\ agbTonnesPerHa fallback = 50
    /\ treesAnalyzed fallback = 0%Z
    /\ methodology fallback = "field"
    /\ methodology measured = "field".
Proof.
  eexists. eexists.
  split; [reflexivity | ]. split.
  - eapply field_branch; [discriminate | reflexivity | reflexivity].
  - split; [exact (py_round_50 2) | ]. repeat split; reflexivity.
Qed.

Lemma hybrid_field_weight_0 : CarbonBaseline.hybrid_field_weight 0 = 0.3.
Proof.
  unfold CarbonBaseline.hybrid_field_weight.
  rewrite Rmin_right by lra. lra.
Qed.

(** An inventory in which no measurement is usable adds up to nothing. *)
Lemma all_skipped_totals (tree_inventory : list tree) :
  (forall t, In t tree_inventory -> tree_dbh t <= 0 \/ tree_height t <= 0) ->
  spec_total_agb_kg tree_inventory = 0
  /\ spec_trees_analyzed tree_inventory = 0%Z.
Proof.
  intro Hskip. unfold spec_total_agb_kg, spec_trees_analyzed.
  replace (filter is_measured tree_inventory) with (@nil tree);
    [split; reflexivity | ].
  symmetry. induction tree_inventory as [ | t inv IH]; [reflexivity | ].
  cbn [filter].
  rewrite (proj2 (is_measured_false_iff t) (Hskip t (or_introl eq_refl))).
  apply IH. intros t' Hin. apply Hskip. right. exact Hin.
Qed.

(** The hybrid branch on an inventory without usable measurement. *)
Lemma hybrid_all_skipped (ee : provider) (polygon : json)
    (project_id : string) (tree_inventory : list tree)
    (sat : CarbonBaseline.Sat.t) :
  tree_inventory <> [] ->
  (forall t, In t tree_inventory -> tree_dbh t <= 0 \/ tree_height t <= 0) ->
  CarbonBaseline.calculate_agb_from_satellite ee polygon = Ok sat ->
  CarbonBaseline.calculate_carbon_baseline ee polygon project_id
    (Some tree_inventory) "hybrid"
  = Ok (build_result ee (0.7 * CarbonBaseline.Sat.total_agb_tonnes sat)
          (if Rltb 0 (CarbonBaseline.Sat.area_ha sat)
           then 0.7 * CarbonBaseline.Sat.total_agb_tonnes sat
                / CarbonBaseline.Sat.area_ha sat
           else 0)
          (CarbonBaseline.Sat.area_ha sat) "hybrid" "high" 0%Z).
Proof.
  intros Hinv Hskip Hsat.
  destruct (satellite_ok_inv ee polygon sat Hsat)
    as (aoi & area_m2 & Haoi & Harea & Harea_ha).
  destruct (all_skipped_totals tree_inventory Hskip) as [Htotal Htrees].
  unfold CarbonBaseline.calculate_carbon_baseline.
  rewrite Haoi. cbn [bind]. rewrite Harea. cbn [bind].
  rewrite (has_inventory_cons _ Hinv).
  cbn [String.eqb Ascii.eqb Bool.eqb andb get_or].
  rewrite field_data_eq, Hsat. cbn [bind].
  cbn [CarbonBaseline.Field.total_agb_tonnes
       CarbonBaseline.Field.trees_analyzed].
  rewrite Htotal, Htrees, hybrid_field_weight_0, <- Harea_ha.
  replace (0 / 1000 * 0.3
           + CarbonBaseline.Sat.total_agb_tonnes sat * (1 - 0.3))
    with (0.7 * CarbonBaseline.Sat.total_agb_tonnes sat) by lra.
  rewrite guarded_division. reflexivity.
Qed.

(** C8 (as the code has it). For a non-empty inventory in which every
    measurement is filtered out, the analyzed-tree count and the field
    estimate are 0, the field weight is [min(0.7, 0.3 + 0/100) = 0.3], and
    the hybrid total is the satellite estimate weighted by 0.7, that is
    [0.7 x] the satellite estimate. *)
Theorem hybrid_without_usable_trees :
  forall (ee : provider) (polygon : json) (project_id : string)
         (tree_inventory : list tree) (sat : CarbonBaseline.Sat.t),
    tree_inventory <> [] ->
    (forall t, In t tree_inventory -> tree_dbh t <= 0 \/ tree_height t <= 0) ->
    CarbonBaseline.calculate_agb_from_satellite ee polygon = Ok sat ->
    let field_result :=
      CarbonBaseline.calculate_agb_from_field_data tree_inventory in
    CarbonBaseline.Field.trees_analyzed field_result = 0%Z
    /\ CarbonBaseline.Field.total_agb_tonnes field_result = 0
    /\ CarbonBaseline.hybrid_field_weight
         (CarbonBaseline.Field.trees_analyzed field_result) = 0.3
    /\ CarbonBaseline.calculate_carbon_baseline ee polygon project_id
         (Some tree_inventory) "hybrid"
       = Ok (build_result ee (0.7 * CarbonBaseline.Sat.total_agb_tonnes sat)
               (if Rltb 0 (CarbonBaseline.Sat.area_ha sat)
                then 0.7 * CarbonBaseline.Sat.total_agb_tonnes sat
                     / CarbonBaseline.Sat.area_ha sat
                else 0)
               (CarbonBaseline.Sat.area_ha sat) "hybrid" "high" 0%Z).
Proof.
  intros ee polygon project_id tree_inventory sat Hinv Hskip Hsat field_result.
  subst field_result. rewrite field_data_eq.
  cbn [CarbonBaseline.Field.total_agb_tonnes
       CarbonBaseline.Field.trees_analyzed].
  destruct (all_skipped_totals tree_inventory Hskip) as [Htotal Htrees].
  rewrite Htotal, Htrees.
  split; [reflexivity | ]. split; [lra | ].
  split; [exact hybrid_field_weight_0 | ].
  apply hybrid_all_skipped; assumption.
Qed.

Lemma unmeasured_tree_skipped :
  forall t, In t [unmeasured_tree] -> tree_dbh t <= 0 \/ tree_height t <= 0.
Proof.
  intros t [<- | []]. left. unfold tree_dbh. cbn. lra.
Qed.

(** One hectare without images and one measurement without diameter: the
    hybrid total is 0.7 x 50 = 35 tonnes. *)
Lemma hybrid_without_usable_trees_witness :
  exists r,
    CarbonBaseline.calculate_carbon_baseline
      (constant_provider 10000 0 Absent Absent Absent) square_polygon
      "farm-1" (Some [unmeasured_tree]) "hybrid" = Ok r
    /\ treesAnalyzed r = 0%Z
    /\ confidence r = "high".
Proof.
  destruct (hybrid_without_usable_trees
              (constant_provider 10000 0 Absent Absent Absent) square_polygon
              "farm-1" [unmeasured_tree] _
              ltac:(discriminate) unmeasured_tree_skipped eq_refl)
    as (_ & _ & _ & Hr).
  eexists. split; [exact Hr | ]. split; reflexivity.
Defined.

(** C8 (as stated) fails: on one hectare without images the satellite
    estimate is 50 tonnes, and the hybrid total for an inventory whose only
    measurement is filtered out is 35 tonnes. *)
Lemma hybrid_total_is_not_satellite_estimate :
  exists hybrid satellite,
    CarbonBaseline.calculate_carbon_baseline
      (constant_provider 10000 0 Absent Absent Absent) square_polygon
      "farm-1" (Some [unmeasured_tree]) "hybrid" = Ok hybrid
    /\ CarbonBaseline.calculate_carbon_baseline
         (constant_provider 10000 0 Absent Absent Absent) square_polygon
         "farm-1" None "satellite" = Ok satellite
    /\ treesAnalyzed hybrid = 0%Z
    /\ totalAgbTonnes hybrid = 35
    /\ totalAgbTonnes satellite = 50
    /\ totalAgbTonnes hybrid <> totalAgbTonnes satellite.
Proof.
  assert (H35 : py_round (0.7 * (10000 / 10000 * 50)) 2 = 35).
  { replace (0.7 * (10000 / 10000 * 50)) with 35 by lra.
    exact (py_round_IZR 35 2). }
  assert (H50 : py_round (10000 / 10000 * 50) 2 = 50).
  { replace (10000 / 10000 * 50) with 50 by lra. exact (py_round_IZR 50 2). }
  eexists. eexists. split.
  - eapply hybrid_all_skipped;
      [discriminate | exact unmeasured_tree_skipped | reflexivity].
  - split; [reflexivity | ]. split; [reflexivity | ].
    cbn [build_result totalAgbTonnes CarbonBaseline.Sat.total_agb_tonnes].
    rewrite H35, H50. repeat split; try reflexivity. lra.
Qed.

(** The hybrid branch of the dispatch. *)
Lemma hybrid_branch (ee : provider) (polygon : json) (project_id : string)
    (tree_inventory : list tree) (aoi : json) (area_m2 : R)
    (sat : CarbonBaseline.Sat.t) :
  tree_inventory <> [] ->
  polygon_geometry ee polygon = Ok aoi ->
  area_m2_info ee aoi = Ok area_m2 ->
  CarbonBaseline.calculate_agb_from_satellite ee polygon = Ok sat ->
  let field_weight :=
    CarbonBaseline.hybrid_field_weight (spec_trees_analyzed tree_inventory) in
  let total_agb :=
    spec_total_agb_kg tree_inventory / 1000 * field_weight
    + CarbonBaseline.Sat.total_agb_tonnes sat * (1 - field_weight) in
  CarbonBaseline.calculate_carbon_baseline ee polygon project_id
    (Some tree_inventory) "hybrid"
  = Ok (build_result ee total_agb
          (if Rltb 0 (area_m2 / 10000) then total_agb / (area_m2 / 10000)
           else 0)
          (area_m2 / 10000) "hybrid" "high"
          (spec_trees_analyzed tree_inventory)).
Proof.
  intros Hinv Haoi Harea Hsat field_weight total_agb.
  unfold CarbonBaseline.calculate_carbon_baseline.
  rewrite Haoi. cbn [bind]. rewrite Harea. cbn [bind].
  rewrite (has_inventory_cons _ Hinv).
  cbn [String.eqb Ascii.eqb Bool.eqb andb get_or].
  rewrite field_data_eq, Hsat. cbn [bind].
  cbn [CarbonBaseline.Field.total_agb_tonnes
       CarbonBaseline.Field.trees_analyzed].
  rewrite guarded_division. reflexivity.
Qed.

(** The field branch of the local analysis. *)
Lemma farm_field_branch (ee : provider) (polygon : json) (farm_id : string)
    (tree_inventory : list tree) (aoi : json) (area_m2 : R) :
  tree_inventory <> [] ->
  polygon_geometry ee polygon = Ok aoi ->
  area_m2_info ee aoi = Ok area_m2 ->
  AnalyzeFarm.calculate_carbon_baseline ee polygon farm_id
    (Some tree_inventory)
  = Ok (build_result ee (spec_total_agb_kg tree_inventory / 1000)
          (if Rltb 0 (area_m2 / 10000)
           then spec_total_agb_kg tree_inventory / 1000 / (area_m2 / 10000)
           else 0)
          (area_m2 / 10000) "field"
          (if (10 <=? spec_trees_analyzed tree_inventory)%Z
           then "high" else "medium")
          (spec_trees_analyzed tree_inventory)).
Proof.
  intros Hinv Haoi Harea. unfold AnalyzeFarm.calculate_carbon_baseline.
  rewrite Haoi. cbn [bind]. rewrite Harea. cbn [bind].
  rewrite (has_inventory_cons _ Hinv). cbn [get_or].
  rewrite fold_field_step, Rplus_0_l, Z.add_0_l, guarded_division.
  reflexivity.
Qed.

Lemma zero_area_per_ha (ee : provider) (total area : R) (method conf : string)
    (trees : Z) :
  area = 0 ->
  agbTonnesPerHa
    (build_result ee total (if Rltb 0 area then total / area else 0) area
       method conf trees) = 0.
Proof.
  intro Hzero. cbn [build_result agbTonnesPerHa].
  replace (Rltb 0 area) with false; [apply py_round_0 | ].
  symmetry. apply Rltb_false_iff. lra.
Qed.

(** C10. In the field and hybrid branches the division by the area is
    guarded: whatever the area, no division error is raised and the branch
    yields a result; when the area in hectares is 0, [agbTonnesPerHa] is 0.
    The same holds for the field branch of the local analysis. (The hybrid
    branch also needs the satellite estimate, which queries the
    provider.) *)
Theorem zero_area_division_guarded :
  forall (ee : provider) (polygon : json) (project_id : string)
         (tree_inventory : list tree) (aoi : json) (area_m2 : R),
    tree_inventory <> [] ->
    polygon_geometry ee polygon = Ok aoi ->
    area_m2_info ee aoi = Ok area_m2 ->
    (exists r,
        CarbonBaseline.calculate_carbon_baseline ee polygon project_id
          (Some tree_inventory) "field" = Ok r
        /\ (area_m2 / 10000 = 0 -> agbTonnesPerHa r = 0))
    /\ (forall sat,
          CarbonBaseline.calculate_agb_from_satellite ee polygon = Ok sat ->
          exists r,
            CarbonBaseline.calculate_carbon_baseline ee polygon project_id
              (Some tree_inventory) "hybrid" = Ok r
            /\ (area_m2 / 10000 = 0 -> agbTonnesPerHa r = 0))
    /\ (exists r,
          AnalyzeFarm.calculate_carbon_baseline ee polygon project_id
            (Some tree_inventory) = Ok r
          /\ (area_m2 / 10000 = 0 -> agbTonnesPerHa r = 0)).
Proof.
  intros ee polygon project_id tree_inventory aoi area_m2
    Hinv Haoi Harea.
  split; [ | split].
  - eexists. split; [apply (field_branch _ _ _ _ _ _ Hinv Haoi Harea) | ].
    apply zero_area_per_ha.
  - intros sat Hsat. eexists.
    split; [apply (hybrid_branch _ _ _ _ _ _ _ Hinv Haoi Harea Hsat) | ].
    apply zero_area_per_ha.
  - eexists.
    split; [apply (farm_field_branch _ _ _ _ _ _ Hinv Haoi Harea) | ].
    apply zero_area_per_ha.
Qed.

(** A degenerate parcel of area 0 with five measured trees. *)
Lemma zero_area_division_guarded_witness :
  exists r,
    CarbonBaseline.calculate_carbon_baseline
      (constant_provider 0 0 Absent Absent Absent) square_polygon
      "farm-1" (Some [eucalyptus_tree]) "field" = Ok r
    /\ agbTonnesPerHa r = 0.
Proof.
  destruct (zero_area_division_guarded
              (constant_provider 0 0 Absent Absent Absent) square_polygon
              "farm-1" [eucalyptus_tree]
              (Geometry.polygon_json
                 [[[0#1; 0#1]; [0#1; 1#1]; [1#1; 1#1]; [1#1; 0#1]; [0#1; 0#1]]])
              0 ltac:(discriminate) eq_refl eq_refl)
    as ((r & Hr & Hzero) & _).
  exists r. split; [exact Hr | ]. apply Hzero. lra.
Defined.

(* ================================================================== *)
(** ** Deforestation analyzer *)

(** The percentage is always defined: the division is guarded. *)
Lemma deforestation_percent_total (area_lost_ha total_forest_ha : R) :
  deforestation_percent_of area_lost_ha total_forest_ha
  = Ok (if Rltb 0 total_forest_ha
        then area_lost_ha / total_forest_ha * 100
        else 0).
Proof.
  unfold deforestation_percent_of.
  destruct (Rltb 0 total_forest_ha) eqn:Hpos; [ | reflexivity].
  apply Rltb_true_iff in Hpos. unfold py_div.
  destruct (Req_dec_T total_forest_ha 0) as [Hzero | _]; [lra | reflexivity].
Qed.

(** With every year guarded, the loop over the years cannot raise. *)
Lemma guarded_loop_ok (size : Z -> result Z) (thumb : Z -> result string)
    (years : list Z) :
  exists images, historical_images_loop size thumb true years = Ok images.
Proof.
  unfold historical_images_loop.
  match goal with |- context [fold_left ?f _ _] => set (step := f) end.
  assert (H : forall init,
             exists images, fold_left step years (Ok init) = Ok images);
    [ | apply H].
  induction years as [ | year years IH]; intro init.
  - exists init. reflexivity.
  - cbn [fold_left]. unfold step at 2. cbn [bind].
    destruct (size year) as [n | e]; cbn [bind try_except]; [ | apply IH].
    destruct (0 <? n)%Z; [ | apply IH].
    destruct (thumb year) as [url | e]; cbn [bind try_except]; apply IH.
Qed.

Lemma percent_cases (lost initial : R) :
  0 <= initial ->
  let p := if Rltb 0 initial then lost / initial * 100 else 0 in
  (0 < initial -> p = lost / initial * 100) /\ (initial = 0 -> p = 0).
Proof.
  intros Hinit p. subst p. split; intro H.
  - rewrite (proj2 (Rltb_true_iff 0 initial) H). reflexivity.
  - replace (Rltb 0 initial) with false; [reflexivity | ].
    symmetry. apply Rltb_false_iff. lra.
Qed.

(** The analyzer of [deforestation_analysis.py] when both pixel sums
    arrive. *)
Lemma analyze_deforestation_ok (ee : provider) (polygon : json)
    (start_date end_date project_id : string) (aoi : json)
    (start_year end_year : Z) (cover loss : R) :
  polygon_geometry ee polygon = Ok aoi ->
  PyInt.int (PyInt.before_dash start_date) = Ok start_year ->
  PyInt.int (PyInt.before_dash end_date) = Ok end_year ->
  forest_cover_info ee aoi = Ok (Num cover) ->
  forest_loss_info ee aoi start_year end_year = Ok (Num loss) ->
  let total_forest_ha := cover * 0.09 / 100 in
  let area_lost_ha := loss * 0.09 / 100 in
  let p := if Rltb 0 total_forest_ha
           then area_lost_ha / total_forest_ha * 100 else 0 in
  exists r,
    Deforestation.analyze_deforestation ee polygon start_date end_date
      project_id = Ok r
    /\ Deforestation.deforestationPercent r = py_round p 2
    /\ Deforestation.areaLostHa r = py_round area_lost_ha 2
    /\ Deforestation.initialForestHa r = py_round total_forest_ha 2
    /\ Deforestation.compliant r = Rltb p 5
    /\ Deforestation.warning r = None.
Proof.
  intros Haoi Hstart Hend Hcover Hloss total_forest_ha area_lost_ha p.
  unfold Deforestation.analyze_deforestation.
  rewrite Haoi. cbn [bind]. rewrite Hstart. cbn [bind].
  rewrite Hend. cbn [bind]. rewrite Hcover. cbn [bind].
  rewrite Hloss. cbn [bind number_or_zero].
  rewrite deforestation_percent_total. cbn [bind].
  destruct (guarded_loop_ok (dry_season_size ee aoi)
              (dry_season_thumb ee aoi) (year_range start_year end_year))
    as [images Himages].
  rewrite Himages. cbn [bind try_except].
  eexists. split; [reflexivity | ]. repeat split; reflexivity.
Qed.


(** C1. Once the polygon and the period have been read, a failure of the
    cover query or of the loss query when fetched is not propagated: the
    analyzer returns a result whose percentage, lost area and initial area
    are 0, that is marked compliant, and that carries the warning. *)
Theorem analyze_deforestation_fails_open :
  forall (ee : provider) (polygon : json)
         (start_date end_date project_id : string) (aoi : json)
         (start_year end_year : Z) (e : exn),
    polygon_geometry ee polygon = Ok aoi ->
    PyInt.int (PyInt.before_dash start_date) = Ok start_year ->
    PyInt.int (PyInt.before_dash end_date) = Ok end_year ->
    forest_cover_info ee aoi = Raise e
    \/ forest_loss_info ee aoi start_year end_year = Raise e ->
    exists r,
      Deforestation.analyze_deforestation ee polygon start_date end_date
        project_id = Ok r
      /\ Deforestation.deforestationPercent r = 0
      /\ Deforestation.areaLostHa r = 0
      /\ Deforestation.initialForestHa r = 0
      /\ Deforestation.compliant r = true
      /\ Deforestation.warning r
         = Some "Deforestation calculation failed, using default values".
Proof.
  intros ee polygon start_date end_date project_id aoi start_year end_year
    e Haoi Hstart Hend Hfail.
  unfold Deforestation.analyze_deforestation.
  rewrite Haoi. cbn [bind]. rewrite Hstart. cbn [bind].
  rewrite Hend. cbn [bind].
  assert (Hbody :
    forall k : stat -> stat -> result Deforestation.DeforestationResult,
      exists e',
        (area_info <- forest_cover_info ee aoi ;;
         loss_info <- forest_loss_info ee aoi start_year end_year ;;
         k area_info loss_info) = Raise e').
  { intro k. destruct Hfail as [Hcover | Hloss].
    - rewrite Hcover. exists e. reflexivity.
    - destruct (forest_cover_info ee aoi) as [area_info | e0].
      + cbn [bind]. rewrite Hloss. exists e. reflexivity.
      + exists e0. reflexivity. }
  match goal with
  | |- context [try_except (bind _ (fun a => bind _ (fun l => @?k a l))) _] =>
      destruct (Hbody k) as [e' He']
  end.
  cbv beta in He'. rewrite He'. cbn [try_except].
  eexists. split; [reflexivity | ]. repeat split; reflexivity.
Qed.

(** The provider times out on the cover query. *)
Lemma analyze_deforestation_fails_open_witness :
  exists r,
    Deforestation.analyze_deforestation
      (failing_provider (EEException "Computation timed out"))
      square_polygon "2020-01-01" "2024-12-31" "farm-1" = Ok r
    /\ Deforestation.compliant r = true
    /\ Deforestation.warning r
       = Some "Deforestation calculation failed, using default values".
Proof.
  destruct (analyze_deforestation_fails_open
              (failing_provider (EEException "Computation timed out"))
              square_polygon "2020-01-01" "2024-12-31" "farm-1"
              (Geometry.polygon_json
                 [[[0#1; 0#1]; [0#1; 1#1]; [1#1; 1#1]; [1#1; 0#1]; [0#1; 0#1]]])
              2020%Z 2024%Z (EEException "Computation timed out")
              eq_refl eq_refl eq_refl (or_introl eq_refl))
    as (r & Hr & _ & _ & _ & Hcompliant & Hwarning).
  exists r. split; [exact Hr | ]. split; [exact Hcompliant | exact Hwarning].
Defined.

(* ================================================================== *)
(** ** Checks on concrete inputs *)

Example retryable_message_timeout :
  Retry.retryable_message "Request Timeout" = true.
Proof. reflexivity. Qed.

Example retryable_message_rate_limit :
  Retry.retryable_message "Too Many Requests: Rate Limit exceeded" = true.
Proof. reflexivity. Qed.

Example retryable_message_quota :
  Retry.retryable_message "Quota exceeded for project" = true.
Proof. reflexivity. Qed.

Example retryable_message_other :
  Retry.retryable_message "User memory limit exceeded" = false.
Proof. reflexivity. Qed.

(** Two timeouts and then an answer, with three attempts and a delay of
    two seconds: three invocations, sleeps of 2 and 4 seconds. *)
Example retry_after_two_timeouts :
  Retry.retry_ee_operation
    (fun w : nat =>
       (if (w <? 2)%nat then Raise (EEException "Request Timeout")
        else Ok 7%Z, S w))
    3 2 "ndvi" 0%nat
  = Retry.mk_run (Ok 7%Z)
      [Raise (EEException "Request Timeout");
       Raise (EEException "Request Timeout"); Ok 7%Z]
      [2 * 2 ^ 0; 2 * 2 ^ 1] 3%nat.
Proof.
  unfold Retry.retry_ee_operation. change (Z.to_nat 3) with 3%nat.
  cbn [Retry.retry_loop Nat.ltb Nat.leb].
  change (Retry.retryable_message "Request Timeout") with true.
  cbn [Z.of_nat Z.ltb Z.sub Z.compare Z.add Z.opp Z.pos_sub Pos.compare
       Pos.compare_cont Pos.of_succ_nat Pos.succ Pos.pred_double].
  rewrite !sleep_ok_nonneg by lra. reflexivity.
Qed.

(** A provider error that is not retryable stops the executor at the first
    invocation. *)
Example no_retry_on_other_error :
  Retry.retry_ee_operation
    (fun w : nat => (@Raise Z (EEException "Invalid geometry"), S w))
    3 2 "ndvi" 0%nat
  = Retry.mk_run (Raise (EEException "Invalid geometry"))
      [Raise (EEException "Invalid geometry")] [] 1%nat.
Proof. reflexivity. Qed.

Example year_of_date : PyInt.int (PyInt.before_dash "2020-01-01") = Ok 2020%Z.
Proof. reflexivity. Qed.

Example year_of_bad_date :
  PyInt.int (PyInt.before_dash "-2020")
  = Raise (ValueError "invalid literal for int() with base 10").
Proof. reflexivity. Qed.

Example year_range_inclusive :
  year_range 2020 2024 = [2020; 2021; 2022; 2023; 2024]%Z.
Proof. reflexivity. Qed.

(** A MultiPolygon without constituent is rejected. *)
Example empty_multipolygon_rejected :
  Geometry._normalize_geometry
    (JDict [("type", JStr "MultiPolygon"); ("coordinates", JList [])])
  = Raise (ValueError "MultiPolygon invalido: sin poligonos").
Proof. reflexivity. Qed.

(* ================================================================== *)
(** * Further properties of the code *)

(** ** Geometry normalizer: idempotence and acceptance *)

Lemma strip_idempotent (c : json) :
  Geometry._strip_z_coordinates (Geometry._strip_z_coordinates c)
  = Geometry._strip_z_coordinates c.
Proof.
  induction c as [ | b | q | s | l IH | d] using json_list_ind;
    try reflexivity.
  cbn [Geometry._strip_z_coordinates].
  destruct (Geometry.is_number_head l) eqn:Hhead.
  - cbn [Geometry._strip_z_coordinates].
    rewrite number_head_firstn2, Hhead. f_equal.
    destruct l as [ | x [ | y l']]; reflexivity.
  - cbn [Geometry._strip_z_coordinates].
    rewrite number_head_map_strip, Hhead. f_equal.
    rewrite map_map. clear Hhead.
    induction IH as [ | x l' Hx _ IHl]; [reflexivity | ].
    cbn [map]. rewrite Hx, IHl. reflexivity.
Qed.

Lemma strip_keeps_none_test (c : json) :
  is_none (Geometry._strip_z_coordinates c) = is_none c.
Proof.
  destruct c as [ | b | q | s | l | d]; try reflexivity.
  cbn. destruct (Geometry.is_number_head l); reflexivity.
Qed.

(** The first element of a stripped array, when it is a list, is itself
    stripped. *)
Lemma stripped_first_is_stripped (c first : json) :
  getitem0 (Geometry._strip_z_coordinates c) = Ok first ->
  is_list first = true ->
  Geometry._strip_z_coordinates first = first.
Proof.
  destruct c as [ | b | q | s | l | d]; try discriminate.
  - destruct s as [ | ch s']; [discriminate | ].
    cbn. intros H. injection H as <-. discriminate.
  - cbn [Geometry._strip_z_coordinates].
    destruct (Geometry.is_number_head l) eqn:Hhead.
    + destruct l as [ | x l']; [discriminate | ].
      cbn in Hhead. destruct l' as [ | y l'']; cbn;
        intros H; injection H as <-; intro Hl;
        destruct x; discriminate.
    + destruct l as [ | x l']; [discriminate | ].
      cbn. intros H _. injection H as <-. apply strip_idempotent.
Qed.

(** X1. Normalizing the output of the normalizer changes nothing. *)
Theorem normalize_geometry_idempotent :
  forall geometry out : json,
    Geometry._normalize_geometry geometry = Ok out ->
    Geometry._normalize_geometry out = Ok out.
Proof.
  intros geometry out. destruct geometry as [ | b | q | s | l | d];
    try discriminate.
  unfold Geometry._normalize_geometry at 1.
  destruct (negb (truthy (py_get d "type")) || is_none (py_get d "coordinates"))
    eqn:Hguard; [discriminate | ].
  apply orb_false_iff in Hguard. destruct Hguard as [Htype Hnone].
  apply negb_false_iff in Htype.
  destruct (py_eq_str (py_get d "type") "MultiPolygon") eqn:Hmulti.
  - destruct (negb (truthy (Geometry._strip_z_coordinates
                              (py_get d "coordinates")))); [discriminate | ].
    destruct (getitem0 (Geometry._strip_z_coordinates (py_get d "coordinates")))
      as [first | e] eqn:Hfirst; [ | discriminate].
    cbn [bind]. destruct (is_list first) eqn:Hlist; [ | discriminate].
    cbn [negb]. intro H. injection H as <-.
    unfold Geometry._normalize_geometry, Geometry.geometry_object.
    cbn [py_get dict_get String.eqb Ascii.eqb Bool.eqb truthy negb orb
         py_eq_str].
    replace (is_none first) with false by (destruct first; easy).
    rewrite (stripped_first_is_stripped _ _ Hfirst Hlist). reflexivity.
  - intro H. injection H as <-.
    unfold Geometry._normalize_geometry, Geometry.geometry_object.
    cbn [py_get dict_get String.eqb Ascii.eqb Bool.eqb].
    rewrite Htype, strip_keeps_none_test, Hnone, Hmulti, strip_idempotent.
    reflexivity.
Qed.

(** A polygon with elevations: the second normalization returns the result
    of the first. *)
Lemma normalize_geometry_idempotent_witness :
  Geometry._normalize_geometry
    (Geometry.geometry_object (JStr "Polygon")
       (Geometry.polygon_json [[[1#1; 2#1]; [3#1; 4#1]; [5#1; 6#1]]]))
  = Ok (Geometry.geometry_object (JStr "Polygon")
          (Geometry.polygon_json [[[1#1; 2#1]; [3#1; 4#1]; [5#1; 6#1]]])).
Proof.
  apply (normalize_geometry_idempotent
           (JDict [("type", JStr "Polygon");
                   ("coordinates",
                    Geometry.polygon_json
                      [[[1#1; 2#1; 7#1]; [3#1; 4#1; 7#1]; [5#1; 6#1; 7#1]]])])).
  reflexivity.
Defined.

(** X2. A geometry of type "MultiPolygon" is accepted exactly when its
    coordinates are a list whose first element is a list; a list of
    coordinates that is not accepted (empty, or starting with something
    else than a list) is rejected with the [ValueError] for a MultiPolygon
    without polygons. *)
Theorem multipolygon_acceptance :
  forall d : list (string * json),
    py_get d "type" = JStr "MultiPolygon" ->
    ((exists out, Geometry._normalize_geometry (JDict d) = Ok out)
     <-> (exists first rest,
            py_get d "coordinates" = JList (JList first :: rest)))
    /\ (forall l e,
          py_get d "coordinates" = JList l ->
          Geometry._normalize_geometry (JDict d) = Raise e ->
          e = ValueError "MultiPolygon invalido: sin poligonos").
Proof.
  intros d Htype. unfold Geometry._normalize_geometry. rewrite Htype.
  cbn [truthy negb String.eqb orb py_eq_str Ascii.eqb Bool.eqb].
  destruct (py_get d "coordinates") as [ | b | q | s | l | kv] eqn:Hc.
  - split; [split | ]; [intros [out H]; discriminate
                       | intros (f & r & H); discriminate
                       | intros l e H; discriminate].
  - split; [split | ]; [ | intros (f & r & H); discriminate
                         | intros l e H; discriminate].
    intros [out H]. destruct b; discriminate.
  - split; [split | ]; [ | intros (f & r & H); discriminate
                         | intros l e H; discriminate].
    intros [out H]. cbn in H. destruct (Qeq_bool q 0); discriminate.
  - split; [split | ]; [ | intros (f & r & H); discriminate
                         | intros l e H; discriminate].
    intros [out H]. destruct s; discriminate.
  - assert (Hcases :
      (exists first rest, l = JList first :: rest)
      \/ ((forall first rest, l <> JList first :: rest)
          /\ (if negb (truthy (Geometry._strip_z_coordinates (JList l)))
              then Raise (ValueError "MultiPolygon invalido: sin poligonos")
              else
                first <- getitem0 (Geometry._strip_z_coordinates (JList l)) ;;
                if negb (is_list first)
                then Raise (ValueError "MultiPolygon invalido: sin poligonos")
                else Ok (Geometry.geometry_object (JStr "Polygon") first))
             = Raise (ValueError "MultiPolygon invalido: sin poligonos"))).
    { destruct l as [ | x l']; [right; split; [congruence | reflexivity] | ].
      destruct x as [ | b | q | s | f | kv];
        try (right; split; [congruence | ];
             cbn; try destruct l'; reflexivity).
      left. eauto. }
    destruct Hcases as [(first & rest & ->) | [Hnot Hraise]].
    + split; [split; [eauto | ] | ].
      * intros _.
        change (Geometry._strip_z_coordinates (JList (JList first :: rest)))
          with (JList (Geometry._strip_z_coordinates (JList first)
                       :: map Geometry._strip_z_coordinates rest)).
        cbn [truthy negb getitem0 bind]. rewrite strip_keeps_list_test.
        eexists. reflexivity.
      * intros l e _.
        change (Geometry._strip_z_coordinates (JList (JList first :: rest)))
          with (JList (Geometry._strip_z_coordinates (JList first)
                       :: map Geometry._strip_z_coordinates rest)).
        cbn [truthy negb getitem0 bind]. rewrite strip_keeps_list_test.
        discriminate.
    + rewrite Hraise. split; [split | ].
      * intros [out H]. discriminate.
      * intros (first & rest & H). injection H as ->.
        now elim (Hnot first rest).
      * intros l0 e _ H. injection H as <-. reflexivity.
  - split; [split | ]; [ | intros (f & r & H); discriminate
                         | intros l e H; discriminate].
    intros [out H]. destruct kv; discriminate.
Qed.

(** A MultiPolygon whose coordinates are a ring of vertices is rejected. *)
Lemma multipolygon_acceptance_witness :
  Geometry._normalize_geometry
    (JDict [("type", JStr "MultiPolygon");
            ("coordinates", JList [JNum (1#1); JNum (2#1)])])
  = Raise (ValueError "MultiPolygon invalido: sin poligonos").
Proof.
  destruct (Geometry._normalize_geometry
              (JDict [("type", JStr "MultiPolygon");
                      ("coordinates", JList [JNum (1#1); JNum (2#1)])]))
    as [out | e] eqn:H; [discriminate H | ].
  f_equal.
  apply (proj2 (multipolygon_acceptance
                  [("type", JStr "MultiPolygon");
                   ("coordinates", JList [JNum (1#1); JNum (2#1)])] eq_refl)
           [JNum (1#1); JNum (2#1)] e eq_refl H).
Defined.

(** ** Satellite estimate: range and monotonicity *)

Lemma agb_per_ha_of_ndvi_range (ndvi_mean : R) :
  5 <= agb_per_ha_of_ndvi ndvi_mean <= 200.
Proof.
  unfold agb_per_ha_of_ndvi, Rltb, Rmax, Rmin.
  destruct (Rlt_dec 0.3 ndvi_mean);
    repeat match goal with
           | |- context [Rle_dec ?a ?b] => destruct (Rle_dec a b)
           end; lra.
Qed.

(** X3. Every satellite estimate that is returned lies between 5 and 200
    tonnes per hectare, its total is that figure times the area, and its
    tag is one of the two methods of the helper. *)
Theorem satellite_estimate_range :
  forall (ee : provider) (polygon : json) (sat : CarbonBaseline.Sat.t),
    CarbonBaseline.calculate_agb_from_satellite ee polygon = Ok sat ->
    5 <= CarbonBaseline.Sat.agb_per_ha sat <= 200
    /\ CarbonBaseline.Sat.total_agb_tonnes sat
       = CarbonBaseline.Sat.agb_per_ha sat * CarbonBaseline.Sat.area_ha sat
    /\ (CarbonBaseline.Sat.method sat = "default_estimation"
        \/ CarbonBaseline.Sat.method sat = "ndvi_correlation").
Proof.
  intros ee polygon sat. unfold CarbonBaseline.calculate_agb_from_satellite.
  destruct (polygon_geometry ee polygon) as [aoi | e]; [ | discriminate].
  cbn [bind]. destruct (area_m2_info ee aoi) as [area_m2 | e];
    [ | discriminate].
  cbn [bind]. destruct (s2_collection_size ee aoi) as [size | e];
    [ | discriminate].
  cbn [bind]. destruct (size =? 0)%Z.
  - intro H. injection H as <-.
    cbn [CarbonBaseline.Sat.agb_per_ha CarbonBaseline.Sat.total_agb_tonnes
         CarbonBaseline.Sat.area_ha CarbonBaseline.Sat.method].
    split; [lra | ]. split; [ring | left; reflexivity].
  - destruct (ndvi_mean_info ee aoi) as [st | e]; [ | discriminate].
    cbn [bind]. destruct (format_float st 0.5) as [ndvi | e];
      [ | discriminate].
    cbn [bind]. intro H. injection H as <-.
    cbn [CarbonBaseline.Sat.agb_per_ha CarbonBaseline.Sat.total_agb_tonnes
         CarbonBaseline.Sat.area_ha CarbonBaseline.Sat.method].
    split; [apply agb_per_ha_of_ndvi_range | ].
    split; [reflexivity | right; reflexivity].
Qed.

(** One hectare with images and a mean NDVI of 0.8. *)
Lemma satellite_estimate_range_witness :
  exists sat,
    CarbonBaseline.calculate_agb_from_satellite
      (constant_provider 10000 12 (Num 0.8) Absent Absent) square_polygon
    = Ok sat
    /\ 5 <= CarbonBaseline.Sat.agb_per_ha sat <= 200.
Proof.
  eexists. split; [reflexivity | ].
  apply (satellite_estimate_range
           (constant_provider 10000 12 (Num 0.8) Absent Absent) square_polygon).
  reflexivity.
Defined.

(** X4. The biomass per hectare never decreases when the mean NDVI
    increases, across the two branches of the rule. *)
Theorem agb_per_ha_of_ndvi_monotone :
  forall a b : R,
    a <= b -> agb_per_ha_of_ndvi a <= agb_per_ha_of_ndvi b.
Proof.
  intros a b Hab. unfold agb_per_ha_of_ndvi, Rltb.
  destruct (Rlt_dec 0.3 a) as [Ha | Ha], (Rlt_dec 0.3 b) as [Hb | Hb];
    try lra.
  - apply Rle_max_compat_l, Rle_min_compat_l. nra.
  - apply Rle_trans with 20; [apply Rmax_lub; lra | apply Rmax_l].
  - apply Rle_max_compat_l. lra.
Qed.

Lemma agb_per_ha_of_ndvi_monotone_witness :
  agb_per_ha_of_ndvi 0.2 <= agb_per_ha_of_ndvi 0.6.
Proof.
  apply agb_per_ha_of_ndvi_monotone. lra.
Defined.

(** ** Field method: composition and monotonicity *)

Lemma spec_total_app (l1 l2 : list tree) :
  spec_total_agb_kg (l1 ++ l2) = spec_total_agb_kg l1 + spec_total_agb_kg l2.
Proof.
  unfold spec_total_agb_kg. rewrite filter_app, map_app.
  induction (map spec_tree_agb_kg (filter is_measured l1)) as [ | x xs IH];
    cbn [app fold_right]; [ring | rewrite IH; ring].
Qed.

Lemma spec_trees_app (l1 l2 : list tree) :
  spec_trees_analyzed (l1 ++ l2)
  = (spec_trees_analyzed l1 + spec_trees_analyzed l2)%Z.
Proof.
  unfold spec_trees_analyzed. rewrite filter_app, map_app.
  induction (map tree_count (filter is_measured l1)) as [ | x xs IH];
    cbn [app fold_right]; [reflexivity | rewrite IH; lia].
Qed.

(** X5. The field estimate of two inventories put together is the sum of
    their estimates, and so is the count of analyzed trees. *)
Theorem field_data_additive :
  forall l1 l2 : list tree,
    CarbonBaseline.Field.total_agb_kg
      (CarbonBaseline.calculate_agb_from_field_data (l1 ++ l2))
    = CarbonBaseline.Field.total_agb_kg
        (CarbonBaseline.calculate_agb_from_field_data l1)
      + CarbonBaseline.Field.total_agb_kg
          (CarbonBaseline.calculate_agb_from_field_data l2)
    /\ CarbonBaseline.Field.total_agb_tonnes
         (CarbonBaseline.calculate_agb_from_field_data (l1 ++ l2))
       = CarbonBaseline.Field.total_agb_tonnes
           (CarbonBaseline.calculate_agb_from_field_data l1)
         + CarbonBaseline.Field.total_agb_tonnes
             (CarbonBaseline.calculate_agb_from_field_data l2)
    /\ CarbonBaseline.Field.trees_analyzed
         (CarbonBaseline.calculate_agb_from_field_data (l1 ++ l2))
       = (CarbonBaseline.Field.trees_analyzed
            (CarbonBaseline.calculate_agb_from_field_data l1)
          + CarbonBaseline.Field.trees_analyzed
              (CarbonBaseline.calculate_agb_from_field_data l2))%Z.
Proof.
  intros l1 l2. rewrite !field_data_eq.
  cbn [CarbonBaseline.Field.total_agb_kg CarbonBaseline.Field.total_agb_tonnes
       CarbonBaseline.Field.trees_analyzed].
  rewrite spec_total_app, spec_trees_app.
  split; [reflexivity | ]. split; [lra | reflexivity].
Qed.

(** The biomass of one tree of a measurement is positive. *)
Lemma tree_unit_agb_pos (t : tree) :
  0 < 0.0673
      * Rpower (wood_density (tree_species t) * tree_dbh t ^ 2 * tree_height t)
          0.976.
Proof.
  apply Rmult_lt_0_compat; [lra | ]. unfold Rpower. apply exp_pos.
Qed.

Lemma spec_tree_agb_with_count (t : tree) (c : Z) :
  is_measured (with_count t c) = is_measured t
  /\ spec_tree_agb_kg (with_count t c)
     = IZR c
       * (0.0673
          * Rpower (wood_density (tree_species t) * tree_dbh t ^ 2
                    * tree_height t) 0.976).
Proof.
  split; [reflexivity | ].
  unfold spec_tree_agb_kg, with_count, tree_count, tree_species, tree_dbh,
    tree_height. cbn [count species dbh_cm avgDbh height_m avgHeight get_or].
  ring.
Qed.

(** X6. Raising the count of one measurement, the others unchanged, never
    lowers the field estimate. *)
Theorem field_total_monotone_in_count :
  forall (l1 l2 : list tree) (t : tree) (c : Z),
    (tree_count t <= c)%Z ->
    CarbonBaseline.Field.total_agb_tonnes
      (CarbonBaseline.calculate_agb_from_field_data (l1 ++ t :: l2))
    <= CarbonBaseline.Field.total_agb_tonnes
         (CarbonBaseline.calculate_agb_from_field_data
            (l1 ++ with_count t c :: l2)).
Proof.
  intros l1 l2 t c Hc. rewrite !field_data_eq.
  cbn [CarbonBaseline.Field.total_agb_tonnes].
  rewrite !spec_total_app.
  change (t :: l2) with ([t] ++ l2)%list.
  change (with_count t c :: l2) with ([with_count t c] ++ l2)%list.
  rewrite !spec_total_app.
  assert (Hone : spec_total_agb_kg [t] <= spec_total_agb_kg [with_count t c]).
  { unfold spec_total_agb_kg. cbn [filter].
    destruct (spec_tree_agb_with_count t c) as [Hm Hagb]. rewrite Hm.
    destruct (is_measured t); cbn [map fold_right]; [ | lra].
    rewrite Hagb. unfold spec_tree_agb_kg.
    pose proof (tree_unit_agb_pos t) as Hpos.
    apply IZR_le in Hc.
    set (k := 0.0673 * Rpower (wood_density (tree_species t) * tree_dbh t ^ 2
                               * tree_height t) 0.976) in *.
    replace (IZR (tree_count t) * 0.0673
             * Rpower (wood_density (tree_species t) * tree_dbh t ^ 2
                       * tree_height t) 0.976)
      with (IZR (tree_count t) * k) by (unfold k; ring).
    nra. }
  lra.
Qed.

(** Five eucalyptus trees become eight. *)
Lemma field_total_monotone_in_count_witness :
  CarbonBaseline.Field.total_agb_tonnes
    (CarbonBaseline.calculate_agb_from_field_data [eucalyptus_tree])
  <= CarbonBaseline.Field.total_agb_tonnes
       (CarbonBaseline.calculate_agb_from_field_data
          [with_count eucalyptus_tree 8]).
Proof.
  apply (field_total_monotone_in_count [] [] eucalyptus_tree 8).
  unfold tree_count. cbn. lia.
Defined.

(** ** Hybrid method: the weighted total lies between the two estimates *)

Lemma hybrid_field_weight_range (trees_analyzed : Z) :
  (0 <= trees_analyzed)%Z ->
  0.3 <= CarbonBaseline.hybrid_field_weight trees_analyzed <= 0.7.
Proof.
  intro H. apply IZR_le in H. unfold CarbonBaseline.hybrid_field_weight, Rmin.
  destruct (Rle_dec 0.7 (0.3 + IZR trees_analyzed / 100)); lra.
Qed.

Lemma weighted_mean_between (f s w : R) :
  0 <= w <= 1 -> Rmin f s <= f * w + s * (1 - w) <= Rmax f s.
Proof.
  intro Hw. unfold Rmin, Rmax. destruct (Rle_dec f s) as [Hfs | Hfs].
  - assert (0 <= (s - f) * w) by (apply Rmult_le_pos; lra).
    assert (0 <= (s - f) * (1 - w)) by (apply Rmult_le_pos; lra).
    lra.
  - assert (0 <= (f - s) * w) by (apply Rmult_le_pos; lra).
    assert (0 <= (f - s) * (1 - w)) by (apply Rmult_le_pos; lra).
    lra.
Qed.

(** X7. In the hybrid branch, when the count of analyzed trees is not
    negative, the field weight lies between 0.3 and 0.7 (it is 0.7 from 40
    trees on) and the total that is reported, before rounding, lies between
    the field estimate and the satellite estimate. *)
Theorem hybrid_total_between_estimates :
  forall (ee : provider) (polygon : json) (project_id : string)
         (tree_inventory : list tree) (aoi : json) (area_m2 : R)
         (sat : CarbonBaseline.Sat.t),
    tree_inventory <> [] ->
    polygon_geometry ee polygon = Ok aoi ->
    area_m2_info ee aoi = Ok area_m2 ->
    CarbonBaseline.calculate_agb_from_satellite ee polygon = Ok sat ->
    let field_result :=
      CarbonBaseline.calculate_agb_from_field_data tree_inventory in
    (0 <= CarbonBaseline.Field.trees_analyzed field_result)%Z ->
    let field_agb := CarbonBaseline.Field.total_agb_tonnes field_result in
    let sat_agb := CarbonBaseline.Sat.total_agb_tonnes sat in
    let field_weight :=
      CarbonBaseline.hybrid_field_weight
        (CarbonBaseline.Field.trees_analyzed field_result) in
    0.3 <= field_weight <= 0.7
    /\ ((40 <= CarbonBaseline.Field.trees_analyzed field_result)%Z ->
        field_weight = 0.7)
    /\ exists r total_agb,
         CarbonBaseline.calculate_carbon_baseline ee polygon project_id
           (Some tree_inventory) "hybrid" = Ok r
         /\ totalAgbTonnes r = py_round total_agb 2
         /\ total_agb = field_agb * field_weight + sat_agb * (1 - field_weight)
         /\ Rmin field_agb sat_agb <= total_agb <= Rmax field_agb sat_agb.
Proof.
  intros ee polygon project_id tree_inventory aoi area_m2 sat Hinv Haoi Harea
    Hsat field_result Htrees field_agb sat_agb field_weight.
  subst field_weight field_agb sat_agb field_result.
  rewrite field_data_eq in *.
  cbn [CarbonBaseline.Field.total_agb_tonnes
       CarbonBaseline.Field.trees_analyzed] in *.
  pose proof (hybrid_field_weight_range _ Htrees) as Hw.
  split; [exact Hw | ]. split.
  - intro H40. apply IZR_le in H40.
    unfold CarbonBaseline.hybrid_field_weight.
    apply Rmin_left. lra.
  - eexists. eexists.
    split; [apply (hybrid_branch _ _ _ _ _ _ _ Hinv Haoi Harea Hsat) | ].
    split; [reflexivity | ]. split; [reflexivity | ].
    apply weighted_mean_between. lra.
Qed.

(** Five measured eucalyptus trees on one hectare without images. *)
Lemma hybrid_total_between_estimates_witness :
  0.3 <= CarbonBaseline.hybrid_field_weight
           (CarbonBaseline.Field.trees_analyzed
              (CarbonBaseline.calculate_agb_from_field_data [eucalyptus_tree]))
      <= 0.7.
Proof.
  assert (Hm : is_measured eucalyptus_tree = true).
  { apply is_measured_iff. unfold tree_dbh, tree_height. cbn. lra. }
  assert (Htrees :
    (0 <= CarbonBaseline.Field.trees_analyzed
            (CarbonBaseline.calculate_agb_from_field_data [eucalyptus_tree]))%Z).
  { rewrite field_data_eq. cbn [CarbonBaseline.Field.trees_analyzed].
    unfold spec_trees_analyzed. cbn [filter]. rewrite Hm. cbn. lia. }
  exact (proj1 (hybrid_total_between_estimates
                  (constant_provider 10000 0 Absent Absent Absent)
                  square_polygon "farm-1" [eucalyptus_tree]
                  (Geometry.polygon_json
                     [[[0#1; 0#1]; [0#1; 1#1]; [1#1; 1#1]; [1#1; 0#1];
                       [0#1; 0#1]]])
                  10000 _ ltac:(discriminate) eq_refl eq_refl eq_refl Htrees)).
Defined.

(** ** Rounding and the reported carbon figures *)

Lemma Rabs_le_bounds (a b : R) : Rabs a <= b -> - b <= a <= b.
Proof.
  unfold Rabs. destruct (Rcase_abs a); lra.
Qed.

Lemma round_half_even_error (x : R) :
  Rabs (IZR (round_half_even x) - x) <= 1 / 2.
Proof.
  unfold round_half_even. pose proof (Zfloor_bound x) as [Hlo Hhi].
  apply Rabs_le.
  destruct (Rlt_dec (x - IZR (Zfloor x)) (1 / 2)) as [Hd | Hd]; [lra | ].
  destruct (Rlt_dec (1 / 2) (x - IZR (Zfloor x))) as [Hd' | Hd'].
  - rewrite plus_IZR. lra.
  - destruct (Z.even (Zfloor x)); [lra | rewrite plus_IZR; lra].
Qed.

(** [round(x, 2)] is within half a hundredth of [x]. *)
Lemma py_round2_error (x : R) : Rabs (py_round x 2 - x) <= 0.005.
Proof.
  unfold py_round. pose proof (round_half_even_error (x * 10 ^ 2)) as H.
  apply Rabs_le_bounds in H. apply Rabs_le.
  set (z := IZR (round_half_even (x * 10 ^ 2))) in *.
  replace (10 ^ 2) with 100 in * by (cbn; ring). lra.
Qed.

(** A result of [calculate_carbon_baseline] comes out of the shared unit
    conversion. *)
Lemma carbon_baseline_shape (ee : provider) (polygon : json)
    (project_id : string) (tree_inventory : option (list tree))
    (method : string) (r : EstimationResult) :
  CarbonBaseline.calculate_carbon_baseline ee polygon project_id
    tree_inventory method = Ok r ->
  exists total_agb agb_per_ha area_ha confidence trees,
    r = build_result ee total_agb agb_per_ha area_ha method confidence trees.
Proof.
  unfold CarbonBaseline.calculate_carbon_baseline.
  destruct (polygon_geometry ee polygon) as [aoi | e]; [ | discriminate].
  cbn [bind]. destruct (area_m2_info ee aoi) as [area_m2 | e];
    [ | discriminate].
  cbn [bind]. rewrite !guarded_division.
  destruct (String.eqb method "field" && has_inventory tree_inventory).
  { cbn [bind]. intro H. injection H as <-. eauto 6. }
  destruct (String.eqb method "hybrid" && has_inventory tree_inventory).
  { destruct (CarbonBaseline.calculate_agb_from_satellite ee polygon)
      as [sat | e]; [ | discriminate].
    cbn [bind]. rewrite guarded_division. cbn [bind].
    intro H. injection H as <-. eauto 6. }
  destruct (CarbonBaseline.calculate_agb_from_satellite ee polygon)
    as [sat | e]; [ | discriminate].
  cbn [bind]. intro H. injection H as <-. eauto 6.
Qed.

Lemma farm_carbon_baseline_shape (ee : provider) (polygon : json)
    (farm_id : string) (tree_inventory : option (list tree))
    (r : EstimationResult) :
  AnalyzeFarm.calculate_carbon_baseline ee polygon farm_id tree_inventory
  = Ok r ->
  exists total_agb agb_per_ha area_ha method confidence trees,
    r = build_result ee total_agb agb_per_ha area_ha method confidence trees.
Proof.
  unfold AnalyzeFarm.calculate_carbon_baseline.
  destruct (polygon_geometry ee polygon) as [aoi | e]; [ | discriminate].
  cbn [bind]. destruct (area_m2_info ee aoi) as [area_m2 | e];
    [ | discriminate].
  cbn [bind]. destruct (has_inventory tree_inventory).
  { destruct (fold_left field_step (get_or tree_inventory []) (0, 0%Z))
      as [total_agb_kg trees]. rewrite guarded_division. cbn [bind].
    intro H. injection H as <-. eauto 7. }
  destruct (s2_collection_size ee aoi) as [size | e]; [ | discriminate].
  cbn [bind]. destruct (size =? 0)%Z.
  { intro H. injection H as <-. eauto 7. }
  destruct (ndvi_mean_info ee aoi) as [st | e]; [ | discriminate].
  cbn [bind]. destruct (format_float st 0.5) as [ndvi | e]; [ | discriminate].
  cbn [bind]. intro H. injection H as <-. eauto 7.
Qed.

Lemma build_result_consistent (ee : provider) (total_agb agb_per_ha area_ha : R)
    (method confidence : string) (trees : Z) :
  let r := build_result ee total_agb agb_per_ha area_ha method confidence
             trees in
  Rabs (baselineCarbonTCO2e r - 2.068 * totalAgbTonnes r) <= 0.016
  /\ Rabs (abovegroundBiomass r + belowgroundBiomass r - totalCarbonTonnes r)
     <= 0.015.
Proof.
  cbn [build_result baselineCarbonTCO2e totalAgbTonnes abovegroundBiomass
       belowgroundBiomass totalCarbonTonnes].
  pose proof (py_round2_error (total_agb * 0.47 * 1.2 * (44 / 12))) as H1.
  pose proof (py_round2_error total_agb) as H2.
  pose proof (py_round2_error (total_agb * 0.47)) as H3.
  pose proof (py_round2_error (total_agb * 0.47 * 0.2)) as H4.
  pose proof (py_round2_error (total_agb * 0.47 * 1.2)) as H5.
  apply Rabs_le_bounds in H1, H2, H3, H4, H5.
  split; apply Rabs_le; lra.
Qed.

(** X8. In every result of either [calculate_carbon_baseline], the reported
    CO2 equivalent is within 0.016 of 2.068 times the reported total
    biomass, and the two entries of the breakdown add up to the reported
    total carbon within 0.015: the figures are rounded separately after
    the conversion. *)
Theorem reported_carbon_figures_consistent :
  (forall (ee : provider) (polygon : json) (project_id : string)
          (tree_inventory : option (list tree)) (method : string)
          (r : EstimationResult),
      CarbonBaseline.calculate_carbon_baseline ee polygon project_id
        tree_inventory method = Ok r ->
      Rabs (baselineCarbonTCO2e r - 2.068 * totalAgbTonnes r) <= 0.016
      /\ Rabs (abovegroundBiomass r + belowgroundBiomass r
               - totalCarbonTonnes r) <= 0.015)
  /\ (forall (ee : provider) (polygon : json) (farm_id : string)
             (tree_inventory : option (list tree)) (r : EstimationResult),
         AnalyzeFarm.calculate_carbon_baseline ee polygon farm_id
           tree_inventory = Ok r ->
         Rabs (baselineCarbonTCO2e r - 2.068 * totalAgbTonnes r) <= 0.016
         /\ Rabs (abovegroundBiomass r + belowgroundBiomass r
                  - totalCarbonTonnes r) <= 0.015).
Proof.
  split.
  - intros ee polygon project_id tree_inventory method r H.
    destruct (carbon_baseline_shape _ _ _ _ _ _ H)
      as (total & per & area & conf & trees & ->).
    apply build_result_consistent.
  - intros ee polygon farm_id tree_inventory r H.
    destruct (farm_carbon_baseline_shape _ _ _ _ _ H)
      as (total & per & area & method & conf & trees & ->).
    apply build_result_consistent.
Qed.

(** Five eucalyptus trees on one hectare. *)
Lemma reported_carbon_figures_consistent_witness :
  exists r,
    CarbonBaseline.calculate_carbon_baseline
      (constant_provider 10000 0 Absent Absent Absent) square_polygon
      "farm-1" (Some [eucalyptus_tree]) "field" = Ok r
    /\ Rabs (baselineCarbonTCO2e r - 2.068 * totalAgbTonnes r) <= 0.016.
Proof.
  pose proof (field_branch (constant_provider 10000 0 Absent Absent Absent)
                square_polygon "farm-1" [eucalyptus_tree]
                (Geometry.polygon_json
                   [[[0#1; 0#1]; [0#1; 1#1]; [1#1; 1#1]; [1#1; 0#1];
                     [0#1; 0#1]]])
                10000 ltac:(discriminate) eq_refl eq_refl) as Hr.
  eexists. split; [exact Hr | ].
  exact (proj1 (proj1 reported_carbon_figures_consistent _ _ _ _ _ _ Hr)).
Defined.

(** ** Retry executor: the time spent sleeping *)

Lemma geometric_sleeps (delay : R) (l : list R) :
  forall a : nat,
    (forall k, (k < List.length l)%nat ->
               nth_error l k = Some (delay * 2 ^ (a + k))) ->
    fold_right Rplus 0 l = delay * 2 ^ a * (2 ^ List.length l - 1).
Proof.
  induction l as [ | x l IH]; intros a Hnth.
  - cbn. ring.
  - cbn [fold_right List.length].
    assert (Hx : x = delay * 2 ^ a).
    { specialize (Hnth 0%nat ltac:(cbn; lia)). cbn in Hnth.
      rewrite Nat.add_0_r in Hnth. congruence. }
    rewrite (IH (S a)).
    + rewrite Hx. cbn [pow]. ring.
    + intros k Hk. specialize (Hnth (S k) ltac:(cbn; lia)).
      cbn [nth_error] in Hnth. rewrite Hnth. do 3 f_equal. lia.
Qed.

(** X9. With [max_retries >= 1] and a delay that is not negative, the
    executor sleeps [delay * (2 ^ (invocations - 1) - 1)] seconds in all,
    which is at most [delay * (2 ^ (max_retries - 1) - 1)]. *)
Theorem retry_total_sleep_bounded :
  forall (A W : Type) (operation : W -> result A * W) (max_retries : Z)
         (delay : R) (operation_name : string) (w : W),
    (1 <= max_retries)%Z ->
    0 <= delay ->
    let r := Retry.retry_ee_operation operation max_retries delay
               operation_name w in
    fold_right Rplus 0 (Retry.sleeps r)
    = delay * (2 ^ (List.length (Retry.calls r) - 1) - 1)
    /\ fold_right Rplus 0 (Retry.sleeps r)
       <= delay * (2 ^ (Z.to_nat max_retries - 1) - 1).
Proof.
  intros A W operation max_retries delay operation_name w Hmax Hdelay r.
  subst r. unfold Retry.retry_ee_operation.
  assert (Hn : (1 <= Z.to_nat max_retries)%nat) by lia.
  assert (Hsum : Z.of_nat (0 + Z.to_nat max_retries) = max_retries) by lia.
  destruct (retry_loop_contract operation max_retries delay operation_name
              (Z.to_nat max_retries) 0 None w Hn Hsum)
    as (Hlen & Hsleeps & Hretry & _).
  set (r := Retry.retry_loop operation max_retries delay operation_name
              (Z.to_nat max_retries) 0 None w) in *.
  assert (Hgeo : fold_right Rplus 0 (Retry.sleeps r)
                 = delay * 2 ^ 0 * (2 ^ List.length (Retry.sleeps r) - 1)).
  { apply geometric_sleeps. intros k Hk.
    destruct (nth_error (Retry.calls r) k) as [c | ] eqn:Hc.
    - apply (Hretry k c Hc). lia.
    - apply nth_error_None in Hc. lia. }
  rewrite Hsleeps in Hgeo. rewrite Hgeo. cbn [pow]. split; [ring | ].
  assert (Hpow : 2 ^ (List.length (Retry.calls r) - 1)
                 <= 2 ^ (Z.to_nat max_retries - 1)).
  { apply Rle_pow; [lra | lia]. }
  nra.
Qed.

(** Three attempts with a delay of two seconds: at most six seconds. *)
Lemma retry_total_sleep_bounded_witness :
  fold_right Rplus 0
    (Retry.sleeps
       (Retry.retry_ee_operation
          (fun w : nat =>
             (if (w <? 2)%nat then Raise (EEException "Request Timeout")
              else Ok 7%Z, S w))
          3 2 "ndvi" 0%nat))
  <= 6.
Proof.
  pose proof (proj2 (retry_total_sleep_bounded Z nat
                       (fun w : nat =>
                          (if (w <? 2)%nat
                           then Raise (EEException "Request Timeout")
                           else Ok 7%Z, S w))
                       3 2 "ndvi" 0%nat ltac:(lia) ltac:(lra))) as H.
  change (Z.to_nat 3 - 1)%nat with 2%nat in H. cbn [pow] in H. lra.
Defined.

(** ** Deforestation analyzer: it never raises, and what it collects *)

Lemma guarded_loop_eq (size : Z -> result Z) (thumb : Z -> result string)
    (years : list Z) :
  historical_images_loop size thumb true years
  = Ok (flat_map (year_entry size thumb) years).
Proof.
  unfold historical_images_loop.
  match goal with |- context [fold_left ?f _ _] => set (step := f) end.
  assert (H : forall init,
             fold_left step years (Ok init)
             = Ok (init ++ flat_map (year_entry size thumb) years)%list);
    [ | apply (H [])].
  induction years as [ | year years IH]; intro init.
  - cbn. rewrite app_nil_r. reflexivity.
  - cbn [fold_left flat_map]. unfold step at 2. cbn [bind]. unfold year_entry at 1.
    destruct (size year) as [n | e]; cbn [bind try_except].
    + destruct (0 <? n)%Z; cbn [bind try_except].
      * destruct (thumb year) as [url | e]; cbn [bind try_except];
          rewrite IH; [rewrite <- app_assoc | ]; reflexivity.
      * rewrite IH. reflexivity.
    + rewrite IH. reflexivity.
Qed.

Lemma in_year_range (start_year end_year y : Z) :
  In y (year_range start_year end_year) <-> (start_year <= y <= end_year)%Z.
Proof.
  unfold year_range. rewrite in_map_iff. split.
  - intros (i & <- & Hi). apply in_seq in Hi. lia.
  - intro H. exists (Z.to_nat (y - start_year)). split; [lia | ].
    apply in_seq. lia.
Qed.

Lemma length_year_range (start_year end_year : Z) :
  List.length (year_range start_year end_year)
  = Z.to_nat (end_year + 1 - start_year).
Proof.
  unfold year_range. rewrite length_map, length_seq. reflexivity.
Qed.

Lemma year_entries_length (size : Z -> result Z) (thumb : Z -> result string)
    (years : list Z) :
  (List.length (flat_map (year_entry size thumb) years)
   <= List.length years)%nat.
Proof.
  induction years as [ | y years IH]; [reflexivity | ].
  cbn [flat_map]. rewrite length_app. cbn [List.length].
  assert (List.length (year_entry size thumb y) <= 1)%nat; [ | lia].
  unfold year_entry. destruct (size y) as [n | e]; [ | cbn; lia].
  destruct (0 <? n)%Z; [ | cbn; lia].
  destruct (thumb y); cbn; lia.
Qed.

(** X10. Once the geometry is built and the years of the period are
    parsed, the analyzer of [deforestation_analysis.py] always returns a
    result and never raises: either a result without warning, or the
    default result (all figures 0, compliant, no image) with the warning.
    A cover entry that holds [None] leads to the default result as well. *)
Theorem analyze_deforestation_never_raises :
  forall (ee : provider) (polygon : json)
         (start_date end_date project_id : string) (aoi : json)
         (start_year end_year : Z),
    polygon_geometry ee polygon = Ok aoi ->
    PyInt.int (PyInt.before_dash start_date) = Ok start_year ->
    PyInt.int (PyInt.before_dash end_date) = Ok end_year ->
    exists r,
      Deforestation.analyze_deforestation ee polygon start_date end_date
        project_id = Ok r
      /\ Deforestation.analyzedPeriod r = (start_date, end_date)
      /\ (Deforestation.warning r = None
          \/ (Deforestation.warning r
              = Some "Deforestation calculation failed, using default values"
              /\ Deforestation.deforestationPercent r = 0
              /\ Deforestation.areaLostHa r = 0
              /\ Deforestation.initialForestHa r = 0
              /\ Deforestation.compliant r = true
              /\ Deforestation.historicalImages r = []))
      /\ (forest_cover_info ee aoi = Ok Null ->
          Deforestation.warning r
          = Some "Deforestation calculation failed, using default values").
Proof.
  intros ee polygon start_date end_date project_id aoi start_year end_year
    Haoi Hstart Hend.
  unfold Deforestation.analyze_deforestation.
  rewrite Haoi. cbn [bind]. rewrite Hstart. cbn [bind].
  rewrite Hend. cbn [bind].
  destruct (forest_cover_info ee aoi) as [area_info | e]; cbn [bind try_except].
  2:{ eexists. split; [reflexivity | ]. split; [reflexivity | ].
      split; [right; repeat split; reflexivity | discriminate]. }
  destruct (forest_loss_info ee aoi start_year end_year) as [loss_info | e];
    cbn [bind try_except].
  2:{ eexists. split; [reflexivity | ]. split; [reflexivity | ].
      split; [right; repeat split; reflexivity | reflexivity]. }
  destruct area_info as [ | | cover]; cbn [number_or_zero bind try_except].
  2:{ eexists. split; [reflexivity | ]. split; [reflexivity | ].
      split; [right; repeat split; reflexivity | reflexivity]. }
  all: destruct loss_info as [ | | loss]; cbn [number_or_zero bind try_except];
    try (eexists; split; [reflexivity | ]; split; [reflexivity | ];
         split; [right; repeat split; reflexivity | discriminate]).
  all: rewrite deforestation_percent_total, guarded_loop_eq;
    cbn [bind try_except];
    eexists; split; [reflexivity | ]; split; [reflexivity | ];
    split; [left; reflexivity | discriminate].
Qed.

(** The provider answers [None] for the cover. *)
Lemma analyze_deforestation_never_raises_witness :
  exists r,
    Deforestation.analyze_deforestation
      (constant_provider 10000 0 Absent Null (Num 5))
      square_polygon "2020-01-01" "2024-12-31" "farm-1" = Ok r
    /\ Deforestation.warning r
       = Some "Deforestation calculation failed, using default values".
Proof.
  destruct (analyze_deforestation_never_raises
              (constant_provider 10000 0 Absent Null (Num 5))
              square_polygon "2020-01-01" "2024-12-31" "farm-1"
              (Geometry.polygon_json
                 [[[0#1; 0#1]; [0#1; 1#1]; [1#1; 1#1]; [1#1; 0#1];
                   [0#1; 0#1]]])
              2020%Z 2024%Z eq_refl eq_refl eq_refl)
    as (r & Hr & _ & _ & Hnull).
  exists r. split; [exact Hr | exact (Hnull eq_refl)].
Defined.

(** X11. When both pixel sums arrive as numbers, the historical images of
    the result are, in the order of the years of the period, exactly the
    years whose dry-season collection could be counted and is not empty and
    whose thumbnail was obtained; a year that fails is left out. Every
    entry lies in the period and there is at most one entry per year. *)
Theorem historical_images_of_period :
  forall (ee : provider) (polygon : json)
         (start_date end_date project_id : string) (aoi : json)
         (start_year end_year : Z) (cover loss : R),
    polygon_geometry ee polygon = Ok aoi ->
    PyInt.int (PyInt.before_dash start_date) = Ok start_year ->
    PyInt.int (PyInt.before_dash end_date) = Ok end_year ->
    forest_cover_info ee aoi = Ok (Num cover) ->
    forest_loss_info ee aoi start_year end_year = Ok (Num loss) ->
    exists r,
      Deforestation.analyze_deforestation ee polygon start_date end_date
        project_id = Ok r
      /\ Deforestation.historicalImages r
         = flat_map (year_entry (dry_season_size ee aoi)
                       (dry_season_thumb ee aoi))
             (year_range start_year end_year)
      /\ (forall year url,
            In (year, url) (Deforestation.historicalImages r) ->
            (start_year <= year <= end_year)%Z
            /\ dry_season_thumb ee aoi year = Ok url
            /\ exists n, dry_season_size ee aoi year = Ok n /\ (0 < n)%Z)
      /\ (List.length (Deforestation.historicalImages r)
          <= Z.to_nat (end_year + 1 - start_year))%nat.
Proof.
  intros ee polygon start_date end_date project_id aoi start_year end_year
    cover loss Haoi Hstart Hend Hcover Hloss.
  unfold Deforestation.analyze_deforestation.
  rewrite Haoi. cbn [bind]. rewrite Hstart. cbn [bind].
  rewrite Hend. cbn [bind]. rewrite Hcover. cbn [bind].
  rewrite Hloss. cbn [bind number_or_zero].
  rewrite deforestation_percent_total, guarded_loop_eq. cbn [bind try_except].
  eexists. split; [reflexivity | ].
  cbn [Deforestation.historicalImages]. split; [reflexivity | ]. split.
  - intros year url Hin. apply in_flat_map in Hin.
    destruct Hin as (y & Hy & Hentry). apply in_year_range in Hy.
    unfold year_entry in Hentry.
    destruct (dry_season_size ee aoi y) as [n | e] eqn:Hsize; [ | easy].
    destruct (0 <? n)%Z eqn:Hpos; [ | easy].
    destruct (dry_season_thumb ee aoi y) as [u | e] eqn:Hthumb; [ | easy].
    destruct Hentry as [Heq | []]. injection Heq as <- <-.
    split; [exact Hy | ]. split; [exact Hthumb | ].
    exists n. split; [exact Hsize | ]. apply Z.ltb_lt. exact Hpos.
  - rewrite <- (length_year_range start_year end_year).
    apply year_entries_length.
Qed.

(** The period 2020-2024 with a failing year and an empty year: three
    images are left. *)
Lemma historical_images_of_period_witness :
  exists r,
    Deforestation.analyze_deforestation
      (seasonal_provider sample_sizes (Num 100) (Num 2))
      square_polygon "2020-01-01" "2024-12-31" "farm-1" = Ok r
    /\ map fst (Deforestation.historicalImages r) = [2020; 2023; 2024]%Z.
Proof.
  destruct (historical_images_of_period
              (seasonal_provider sample_sizes (Num 100) (Num 2))
              square_polygon "2020-01-01" "2024-12-31" "farm-1"
              (Geometry.polygon_json
                 [[[0#1; 0#1]; [0#1; 1#1]; [1#1; 1#1]; [1#1; 0#1];
                   [0#1; 0#1]]])
              2020%Z 2024%Z 100 2 eq_refl eq_refl eq_refl eq_refl eq_refl)
    as (r & Hr & Himages & _).
  exists r. split; [exact Hr | ]. rewrite Himages. reflexivity.
Defined.

(** ** Deforestation analyzer: the range of the percentage *)

Lemma round_half_even_monotone (x y : R) :
  x <= y -> (round_half_even x <= round_half_even y)%Z.
Proof.
  intro Hxy. pose proof (Zfloor_le x y Hxy) as Hfloor.
  pose proof (Zfloor_bound x) as [Hxlo Hxhi].
  pose proof (Zfloor_bound y) as [Hylo Hyhi].
  unfold round_half_even.
  destruct (Z.eq_dec (Zfloor x) (Zfloor y)) as [Heq | Hne].
  - rewrite <- Heq in *.
    destruct (Rlt_dec (x - IZR (Zfloor x)) (1 / 2)),
             (Rlt_dec (y - IZR (Zfloor x)) (1 / 2)),
             (Rlt_dec (1 / 2) (x - IZR (Zfloor x))),
             (Rlt_dec (1 / 2) (y - IZR (Zfloor x)));
      try lra; destruct (Z.even (Zfloor x)); lia.
  - assert (Hlt : (Zfloor x + 1 <= Zfloor y)%Z) by lia.
    destruct (Rlt_dec (x - IZR (Zfloor x)) (1 / 2)),
             (Rlt_dec (y - IZR (Zfloor y)) (1 / 2)),
             (Rlt_dec (1 / 2) (x - IZR (Zfloor x))),
             (Rlt_dec (1 / 2) (y - IZR (Zfloor y)));
      destruct (Z.even (Zfloor x)), (Z.even (Zfloor y)); lia.
Qed.

(** Rounding keeps the order. *)
Lemma py_round_monotone (x y : R) (n : nat) :
  x <= y -> py_round x n <= py_round y n.
Proof.
  intro Hxy. unfold py_round.
  assert (Hpos : 0 < 10 ^ n) by (apply pow_lt; lra).
  apply Rmult_le_compat_r; [left; apply Rinv_0_lt_compat; exact Hpos | ].
  apply IZR_le, round_half_even_monotone.
  apply Rmult_le_compat_r; lra.
Qed.

(** X12. When both pixel sums arrive as numbers with
    [0 <= loss <= cover], the reported percentage lies between 0 and 100;
    and when the cover sum is not positive the percentage is 0 and the
    parcel is compliant whatever the loss sum is. *)
Theorem deforestation_percent_range :
  forall (ee : provider) (polygon : json)
         (start_date end_date project_id : string) (aoi : json)
         (start_year end_year : Z) (cover loss : R),
    polygon_geometry ee polygon = Ok aoi ->
    PyInt.int (PyInt.before_dash start_date) = Ok start_year ->
    PyInt.int (PyInt.before_dash end_date) = Ok end_year ->
    forest_cover_info ee aoi = Ok (Num cover) ->
    forest_loss_info ee aoi start_year end_year = Ok (Num loss) ->
    exists r,
      Deforestation.analyze_deforestation ee polygon start_date end_date
        project_id = Ok r
      /\ (0 <= loss <= cover ->
          0 <= Deforestation.deforestationPercent r <= 100)
      /\ (cover <= 0 ->
          Deforestation.deforestationPercent r = 0
          /\ Deforestation.compliant r = true).
Proof.
  intros ee polygon start_date end_date project_id aoi start_year end_year
    cover loss Haoi Hstart Hend Hcover Hloss.
  destruct (analyze_deforestation_ok ee polygon start_date end_date project_id
              aoi start_year end_year cover loss Haoi Hstart Hend Hcover Hloss)
    as (r & Hr & Hpercent & _ & _ & Hcompliant & _).
  exists r. split; [exact Hr | ]. rewrite Hpercent, Hcompliant. split.
  - intros [Hlo Hhi].
    assert (Hp : 0 <= (if Rltb 0 (cover * 0.09 / 100)
                       then loss * 0.09 / 100 / (cover * 0.09 / 100) * 100
                       else 0) <= 100).
    { destruct (Rltb 0 (cover * 0.09 / 100)) eqn:Hpos; [ | lra].
      apply Rltb_true_iff in Hpos.
      assert (Hc : 0 < cover) by lra.
      replace (loss * 0.09 / 100 / (cover * 0.09 / 100) * 100)
        with (loss / cover * 100) by (field; lra).
      assert (0 <= loss / cover <= 1); [ | lra].
      split.
      - apply Rmult_le_pos; [lra | left; apply Rinv_0_lt_compat; lra].
      - apply Rmult_le_reg_r with cover; [lra | ].
        replace (loss / cover * cover) with loss by (field; lra). lra. }
    split.
    + apply Rle_trans with (py_round 0 2);
        [rewrite py_round_0; lra | apply py_round_monotone; lra].
    + apply Rle_trans with (py_round 100 2);
        [apply py_round_monotone; lra | rewrite (py_round_IZR 100 2); lra].
  - intro Hzero.
    replace (Rltb 0 (cover * 0.09 / 100)) with false
      by (symmetry; apply Rltb_false_iff; lra).
    split; [apply py_round_0 | apply Rltb_true_iff; lra].
Qed.

(** A forest sum of 100 of which 40 were lost, and a parcel without
    forest. *)
Lemma deforestation_percent_range_witness :
  (exists r,
      Deforestation.analyze_deforestation
        (constant_provider 10000 0 Absent (Num 100) (Num 40))
        square_polygon "2020-01-01" "2024-12-31" "farm-1" = Ok r
      /\ 0 <= Deforestation.deforestationPercent r <= 100)
  /\ (exists r,
        Deforestation.analyze_deforestation
          (constant_provider 10000 0 Absent (Num 0) (Num 40))
          square_polygon "2020-01-01" "2024-12-31" "farm-1" = Ok r
        /\ Deforestation.compliant r = true).
Proof.
  split.
  - destruct (deforestation_percent_range
                (constant_provider 10000 0 Absent (Num 100) (Num 40))
                square_polygon "2020-01-01" "2024-12-31" "farm-1"
                (Geometry.polygon_json
                   [[[0#1; 0#1]; [0#1; 1#1]; [1#1; 1#1]; [1#1; 0#1];
                     [0#1; 0#1]]])
                2020%Z 2024%Z 100 40 eq_refl eq_refl eq_refl eq_refl eq_refl)
      as (r & Hr & Hrange & _).
    exists r. split; [exact Hr | apply Hrange; lra].
  - destruct (deforestation_percent_range
                (constant_provider 10000 0 Absent (Num 0) (Num 40))
                square_polygon "2020-01-01" "2024-12-31" "farm-1"
                (Geometry.polygon_json
                   [[[0#1; 0#1]; [0#1; 1#1]; [1#1; 1#1]; [1#1; 0#1];
                     [0#1; 0#1]]])
                2020%Z 2024%Z 0 40 eq_refl eq_refl eq_refl eq_refl eq_refl)
      as (r & Hr & _ & Hzero).
    exists r. split; [exact Hr | apply Hzero; lra].
Defined.

(** ** Farm records: what [load_farm_json] returns *)

Section FarmFileFacts.

Import FarmFile.

Variable str_lower : string -> string.

Local Abbreviation load_farm_json := (FarmFile.load_farm_json str_lower).
Local Abbreviation generated_farm_id :=
  (FarmFile.generated_farm_id str_lower).

Lemma first_of_planar (j first : json) :
  Geometry.is_2d j = true ->
  getitem0 j = Ok first ->
  is_list first = true ->
  Geometry.is_2d first = true.
Proof.
  destruct j as [ | b | q | s | l | d]; try discriminate.
  - destruct s as [ | ch s']; [discriminate | ].
    cbn. intros _ H. injection H as <-. discriminate.
  - cbn [Geometry.is_2d]. destruct l as [ | x l']; [discriminate | ].
    cbn [Geometry.is_number_head getitem0]. intros H2d H Hlist.
    injection H as <-. destruct (is_number x) eqn:Hnum.
    + destruct x; discriminate.
    + cbn [forallb] in H2d. apply andb_true_iff in H2d. apply H2d.
Qed.

(** What the normalizer returns is a geometry object with a truthy type
    and planar coordinates. *)
Lemma normalize_output (geometry out : json) :
  Geometry._normalize_geometry geometry = Ok out ->
  exists t c,
    out = Geometry.geometry_object t c
    /\ truthy t = true
    /\ Geometry.is_2d c = true.
Proof.
  destruct geometry as [ | b | q | s | l | d]; try discriminate.
  unfold Geometry._normalize_geometry.
  destruct (negb (truthy (py_get d "type")) || is_none (py_get d "coordinates"))
    eqn:Hguard; [discriminate | ].
  apply orb_false_iff in Hguard. destruct Hguard as [Htype _].
  apply negb_false_iff in Htype.
  destruct (py_eq_str (py_get d "type") "MultiPolygon").
  - destruct (negb (truthy (Geometry._strip_z_coordinates
                              (py_get d "coordinates")))); [discriminate | ].
    destruct (getitem0 (Geometry._strip_z_coordinates (py_get d "coordinates")))
      as [first | e] eqn:Hfirst; [ | discriminate].
    cbn [bind]. destruct (is_list first) eqn:Hlist; [ | discriminate].
    cbn [negb]. intro H. injection H as <-.
    exists (JStr "Polygon"), first. split; [reflexivity | ].
    split; [reflexivity | ].
    apply (first_of_planar _ _ (strip_is_2d _) Hfirst Hlist).
  - intro H. injection H as <-.
    exists (py_get d "type"), (Geometry._strip_z_coordinates
                                 (py_get d "coordinates")).
    split; [reflexivity | ]. split; [exact Htype | apply strip_is_2d].
Qed.

(** Every format hands on a polygon that the normalizer returned. *)
Lemma read_format_polygon (data polygon name owner metadata : json) :
  read_format data = Ok (polygon, name, owner, metadata) ->
  exists geometry, Geometry._normalize_geometry geometry = Ok polygon.
Proof.
  destruct data as [ | b | q | s | l | d]; try discriminate.
  unfold read_format.
  destruct (py_eq_str (py_get d "type") "FeatureCollection").
  { destruct (negb (truthy (py_or (py_get d "features") (JList []))));
      [discriminate | ].
    destruct (getitem0 (py_or (py_get d "features") (JList [])))
      as [feature | e]; [ | discriminate].
    cbn [bind]. destruct (get_attr feature "geometry") as [geometry | e];
      [ | discriminate].
    cbn [bind]. destruct (negb (truthy geometry)); [discriminate | ].
    destruct (Geometry._normalize_geometry geometry) as [p | e] eqn:Hp;
      [ | discriminate].
    cbn [bind]. destruct (get_attr feature "properties") as [props | e];
      [ | discriminate].
    cbn [bind].
    destruct (_extract_from_properties (py_or props (JDict [])))
      as [ex | e]; [ | discriminate].
    cbn [bind].
    destruct (py_merge (py_or props (JDict []))
                (py_get_default d "metadata" (JDict []))) as [md | e];
      [ | discriminate].
    cbn [bind]. intro H. injection H as <- _ _ _. eauto. }
  destruct (py_eq_str (py_get d "type") "Feature").
  { destruct (negb (truthy (py_get d "geometry"))); [discriminate | ].
    destruct (Geometry._normalize_geometry (py_get d "geometry"))
      as [p | e] eqn:Hp; [ | discriminate].
    cbn [bind].
    destruct (_extract_from_properties
                (py_or (py_get d "properties") (JDict [])))
      as [ex | e]; [ | discriminate].
    cbn [bind].
    destruct (py_merge (py_or (py_get d "properties") (JDict []))
                (py_get_default d "metadata" (JDict []))) as [md | e];
      [ | discriminate].
    cbn [bind]. intro H. injection H as <- _ _ _. eauto. }
  destruct (dict_mem d "polygon"); [ | discriminate].
  destruct (getitem (JDict d) "polygon") as [raw | e]; [ | discriminate].
  cbn [bind].
  match goal with
  | |- context [bind ?c _] => destruct c as [p | e] eqn:Hp; [ | discriminate]
  end.
  cbn [bind]. intro H. injection H as <- _ _ _.
  destruct raw as [ | b | q | s | l | rp]; eauto.
  destruct (py_eq_str (py_get rp "type") "Feature"); eauto.
  destruct (negb (truthy (py_get rp "geometry"))); [discriminate | eauto].
Qed.

Lemma generated_farm_id_truthy (stem : string) :
  truthy (JStr (generated_farm_id stem)) = true.
Proof. reflexivity. Qed.

(** X13. Whenever [load_farm_json] returns, the record starts with the
    entries polygon, name, farmId, owner and metadata, in this order; the
    polygon is a geometry object with a truthy type and planar
    coordinates; the farmId is truthy; the name is truthy unless the file
    stem is empty; the metadata is a dictionary; and the only further
    entries are [location] and [treeInventory], carried over from the
    input. *)
Theorem load_farm_json_shape :
  forall (data : json) (filename_stem : string) (out : json),
    load_farm_json data filename_stem = Ok out ->
    exists t c name farm_id owner md rest,
      out = JDict (("polygon", Geometry.geometry_object t c)
                   :: ("name", name) :: ("farmId", farm_id)
                   :: ("owner", owner) :: ("metadata", JDict md) :: rest)
      /\ truthy t = true
      /\ Geometry.is_2d c = true
      /\ truthy farm_id = true
      /\ (filename_stem <> "" -> truthy name = true)
      /\ (forall k v,
            In (k, v) rest ->
            (k = "location" \/ k = "treeInventory")
            /\ exists d, data = JDict d /\ dict_get d k = Some v).
Proof.
  intros data stem out. unfold load_farm_json.
  destruct (read_format data) as [[[[polygon name] owner] metadata] | e]
    eqn:Hread; [ | discriminate].
  cbn [bind].
  destruct (read_format_polygon _ _ _ _ _ Hread) as [geometry Hnorm].
  destruct (normalize_output _ _ Hnorm) as (t & c & -> & Ht & H2d).
  destruct data as [ | b | q | s | l | d]; try discriminate.
  cbn [Geometry.geometry_object truthy negb].
  intro H. injection H as <-.
  set (name' := if negb (truthy name)
                then py_or (py_get d "name")
                       (py_or (py_get d "Name") (JStr stem))
                else name).
  set (owner' := if negb (truthy owner)
                 then py_or (py_get d "owner") (py_get d "Owner")
                 else owner).
  set (farm_id := py_or (py_get d "farmId")
                    (py_or (py_get d "projectId")
                       (JStr (generated_farm_id stem)))).
  assert (Hmd : exists md,
             match metadata with
             | JDict _ => metadata
             | _ => JDict [("value", metadata)]
             end = JDict md).
  { destruct metadata; eauto. }
  destruct Hmd as [md ->].
  assert (Hfarm : truthy farm_id = true).
  { unfold farm_id, py_or.
    destruct (truthy (py_get d "farmId")) eqn:H1; [exact H1 | ].
    destruct (truthy (py_get d "projectId")) eqn:H2; [exact H2 | ].
    reflexivity. }
  assert (Hname : stem <> "" -> truthy name' = true).
  { intro Hstem. unfold name', py_or.
    destruct (truthy name) eqn:H0; [exact H0 | ]. cbn [negb].
    destruct (truthy (py_get d "name")) eqn:H1; [exact H1 | ].
    destruct (truthy (py_get d "Name")) eqn:H2; [exact H2 | ].
    cbn. apply negb_true_iff. apply String.eqb_neq. exact Hstem. }
  exists t, c, name', farm_id, owner', md.
  cbn [preserve_keys].
  destruct (dict_get d "location") as [loc | ] eqn:Hloc;
    destruct (dict_get d "treeInventory") as [inv | ] eqn:Hinv;
    cbn [dict_set String.eqb Ascii.eqb Bool.eqb];
    eexists; (split; [reflexivity | ]);
    (split; [exact Ht | ]); (split; [exact H2d | ]);
    (split; [exact Hfarm | ]); (split; [exact Hname | ]);
    intros k v Hin; cbn [In] in Hin;
    repeat match goal with
           | H : _ \/ _ |- _ => destruct H as [H | H]
           | H : (_, _) = (_, _) |- _ => injection H as <- <-
           | H : False |- _ => destruct H
           end;
    (split; [auto | exists d; split; [reflexivity | assumption]]).
Qed.

End FarmFileFacts.

Section FarmFileFactsChecks.

Import FarmFile.

(** A Feature with an elevation and a name. *)
Lemma load_farm_json_shape_witness :
  exists out farm_id,
    load_farm_json Retry.lower
      (JDict [("type", JStr "Feature");
              ("geometry",
               JDict [("type", JStr "Polygon");
                      ("coordinates",
                       Geometry.polygon_json
                         [[[1#1; 2#1; 9#1]; [3#1; 4#1; 9#1]; [5#1; 6#1; 9#1]]])]);
              ("properties", JDict [("Name", JStr "La Esperanza")])])
      "la esperanza" = Ok out
    /\ getitem out "farmId" = Ok farm_id
    /\ truthy farm_id = true.
Proof.
  pose proof (load_farm_json_shape Retry.lower
                (JDict [("type", JStr "Feature");
                        ("geometry",
                         JDict [("type", JStr "Polygon");
                                ("coordinates",
                                 Geometry.polygon_json
                                   [[[1#1; 2#1; 9#1]; [3#1; 4#1; 9#1];
                                     [5#1; 6#1; 9#1]]])]);
                        ("properties", JDict [("Name", JStr "La Esperanza")])])
                "la esperanza") as Hshape.
  destruct (load_farm_json Retry.lower
              (JDict [("type", JStr "Feature");
                      ("geometry",
                       JDict [("type", JStr "Polygon");
                              ("coordinates",
                               Geometry.polygon_json
                                 [[[1#1; 2#1; 9#1]; [3#1; 4#1; 9#1];
                                   [5#1; 6#1; 9#1]]])]);
                      ("properties", JDict [("Name", JStr "La Esperanza")])])
              "la esperanza") as [out | e] eqn:Hload; [ | discriminate Hload].
  destruct (Hshape out eq_refl)
    as (t & c & name & farm_id & owner & md & rest & Hout & _ & _ & Hfarm & _).
  exists out, farm_id. split; [reflexivity | ].
  split; [rewrite Hout; reflexivity | exact Hfarm].
Defined.

End FarmFileFactsChecks.

Section FarmFileLookups.

Import FarmFile.

Variable str_lower : string -> string.

Local Abbreviation load_farm_json := (FarmFile.load_farm_json str_lower).
Local Abbreviation generated_farm_id :=
  (FarmFile.generated_farm_id str_lower).

Lemma dict_get_set (d : list (string * json)) (k k' : string) (v : json) :
  dict_get (dict_set d k v) k'
  = if String.eqb k k' then Some v else dict_get d k'.
Proof.
  induction d as [ | [k0 v0] d IH]; [reflexivity | ].
  cbn [dict_set]. destruct (String.eqb k0 k) eqn:Hk0.
  - apply String.eqb_eq in Hk0. subst k0. cbn [dict_get].
    destruct (String.eqb k k'); reflexivity.
  - cbn [dict_get]. rewrite IH.
    destruct (String.eqb k0 k') eqn:Hk0'; [ | reflexivity].
    apply String.eqb_eq in Hk0'. subst k'. rewrite String.eqb_sym, Hk0.
    reflexivity.
Qed.

Lemma py_get_set (d : list (string * json)) (k k' : string) (v : json) :
  py_get (dict_set d k v) k' = if String.eqb k k' then v else py_get d k'.
Proof.
  unfold py_get. rewrite dict_get_set. destruct (String.eqb k k'); reflexivity.
Qed.

Lemma py_get_default_set (d : list (string * json)) (k k' : string)
    (v default : json) :
  py_get_default (dict_set d k v) k' default
  = if String.eqb k k' then v else py_get_default d k' default.
Proof.
  unfold py_get_default. rewrite dict_get_set.
  destruct (String.eqb k k'); reflexivity.
Qed.

Lemma dict_mem_set (d : list (string * json)) (k k' : string) (v : json) :
  dict_mem (dict_set d k v) k'
  = if String.eqb k k' then true else dict_mem d k'.
Proof.
  unfold dict_mem. rewrite dict_get_set. destruct (String.eqb k k'); reflexivity.
Qed.

Lemma preserve_keys_set (d : list (string * json)) (k : string) (v : json)
    (base : list (string * json)) :
  String.eqb k "location" = false ->
  String.eqb k "treeInventory" = false ->
  preserve_keys (dict_set d k v) ["location"; "treeInventory"] base
  = preserve_keys d ["location"; "treeInventory"] base.
Proof.
  intros H1 H2. cbn [preserve_keys]. rewrite !dict_get_set, H1, H2.
  reflexivity.
Qed.

(** X14. Of a FeatureCollection only the first feature is read: replacing
    the features after the first one changes nothing in what
    [load_farm_json] returns or raises. *)
Theorem only_first_feature_is_read :
  forall (d : list (string * json)) (feature : json) (others others' : list json)
         (filename_stem : string),
    py_get d "type" = JStr "FeatureCollection" ->
    py_get d "features" = JList (feature :: others) ->
    load_farm_json (JDict (dict_set d "features" (JList (feature :: others'))))
      filename_stem
    = load_farm_json (JDict d) filename_stem.
Proof.
  intros d feature others others' stem Htype Hfeatures.
  assert (Hread :
    read_format (JDict (dict_set d "features" (JList (feature :: others'))))
    = read_format (JDict d)).
  { unfold read_format. rewrite !py_get_set, !py_get_default_set.
    cbn [String.eqb Ascii.eqb Bool.eqb]. rewrite Htype, Hfeatures.
    reflexivity. }
  unfold load_farm_json. rewrite Hread.
  destruct (read_format (JDict d)) as [[[[polygon name] owner] metadata] | e];
    [ | reflexivity].
  cbn [bind].
  rewrite (preserve_keys_set d "features" _ _ eq_refl eq_refl).
  rewrite !py_get_set. cbn [String.eqb Ascii.eqb Bool.eqb]. reflexivity.
Qed.

End FarmFileLookups.

Section FarmFileLookupsChecks.

Import FarmFile.

Lemma only_first_feature_is_read_witness :
  load_farm_json Retry.lower
    (JDict (dict_set
              [("type", JStr "FeatureCollection");
               ("features", JList [JDict []; JNum (1#1)])]
              "features" (JList [JDict []; JStr "x"; JNull])))
    "finca"
  = Raise (ValueError "FeatureCollection invalida: feature sin geometria").
Proof.
  rewrite (only_first_feature_is_read Retry.lower
             [("type", JStr "FeatureCollection");
              ("features", JList [JDict []; JNum (1#1)])]
             (JDict []) [JNum (1#1)] [JStr "x"; JNull] "finca"
             eq_refl eq_refl).
  reflexivity.
Defined.

End FarmFileLookupsChecks.

Section FarmFileErrors.

Import FarmFile.

Variable str_lower : string -> string.

Local Abbreviation load_farm_json := (FarmFile.load_farm_json str_lower).
Local Abbreviation generated_farm_id :=
  (FarmFile.generated_farm_id str_lower).

(** X15. What [load_farm_json] rejects before it looks at any geometry:
    data that is not a mapping, or a mapping that is neither a
    FeatureCollection nor a Feature and has no [polygon] key, with the
    error for an unsupported format; a FeatureCollection whose [features]
    are missing, [None] or empty, with the error for an empty collection;
    a Feature without a truthy [geometry], with the error for a missing
    geometry. *)
Theorem load_farm_json_rejections :
  forall (filename_stem : string),
    (forall data,
        (forall d, data <> JDict d) ->
        load_farm_json data filename_stem
        = Raise (ValueError
                   "Formato de finca no soportado. Se esperaba FeatureCollection, Feature o JSON con campo 'polygon'."))
    /\ (forall d,
          py_eq_str (py_get d "type") "FeatureCollection" = false ->
          py_eq_str (py_get d "type") "Feature" = false ->
          dict_get d "polygon" = None ->
          load_farm_json (JDict d) filename_stem
          = Raise (ValueError
                     "Formato de finca no soportado. Se esperaba FeatureCollection, Feature o JSON con campo 'polygon'."))
    /\ (forall d,
          py_get d "type" = JStr "FeatureCollection" ->
          truthy (py_get d "features") = false ->
          load_farm_json (JDict d) filename_stem
          = Raise (ValueError "FeatureCollection vacia: no hay features"))
    /\ (forall d,
          py_get d "type" = JStr "Feature" ->
          truthy (py_get d "geometry") = false ->
          load_farm_json (JDict d) filename_stem
          = Raise (ValueError "Feature invalido: falta geometria")).
Proof.
  intro stem. split; [ | split; [ | split]].
  - intros data Hnot. destruct data as [ | b | q | s | l | d];
      try reflexivity. now elim (Hnot d).
  - intros d H1 H2 H3. unfold load_farm_json, read_format, dict_mem.
    rewrite H1, H2, H3. reflexivity.
  - intros d Htype Hfeatures. unfold load_farm_json, read_format, py_or.
    rewrite Htype, Hfeatures. reflexivity.
  - intros d Htype Hgeometry. unfold load_farm_json, read_format.
    rewrite Htype, Hgeometry. reflexivity.
Qed.

(** The entry of one of the five fixed keys is not touched by the keys
    that are carried over. *)
Lemma getitem_preserved (d : list (string * json))
    (polygon name farm_id owner metadata : json) (k : string) :
  String.eqb "location" k = false ->
  String.eqb "treeInventory" k = false ->
  getitem (JDict (preserve_keys d ["location"; "treeInventory"]
                    [("polygon", polygon); ("name", name);
                     ("farmId", farm_id); ("owner", owner);
                     ("metadata", metadata)])) k
  = getitem (JDict [("polygon", polygon); ("name", name);
                    ("farmId", farm_id); ("owner", owner);
                    ("metadata", metadata)]) k.
Proof.
  intros H1 H2. cbn [preserve_keys getitem].
  destruct (dict_get d "location"), (dict_get d "treeInventory");
    rewrite ?dict_get_set, ?H1, ?H2; reflexivity.
Qed.

(** X16. A [metadata] entry that is present but is not a mapping (for
    instance [None]) is treated differently by the formats: a Feature with
    a valid geometry and readable properties is rejected with a
    [TypeError], while the format with a [polygon] key wraps the value as
    [{'value': metadata}]. *)
Theorem metadata_that_is_not_a_mapping :
  forall (d : list (string * json)) (filename_stem : string) (metadata : json),
    dict_get d "metadata" = Some metadata ->
    (forall md, metadata <> JDict md) ->
    (forall polygon extracted,
        py_get d "type" = JStr "Feature" ->
        truthy (py_get d "geometry") = true ->
        Geometry._normalize_geometry (py_get d "geometry") = Ok polygon ->
        _extract_from_properties (py_or (py_get d "properties") (JDict []))
        = Ok extracted ->
        exists msg,
          load_farm_json (JDict d) filename_stem = Raise (TypeError msg))
    /\ (forall polygon,
          py_eq_str (py_get d "type") "FeatureCollection" = false ->
          py_eq_str (py_get d "type") "Feature" = false ->
          dict_get d "polygon" = Some polygon ->
          (forall rp, polygon = JDict rp ->
                      py_eq_str (py_get rp "type") "Feature" = false) ->
          is_ok (Geometry._normalize_geometry polygon) = true ->
          exists out,
            load_farm_json (JDict d) filename_stem = Ok out
            /\ getitem out "metadata" = Ok (JDict [("value", metadata)])).
Proof.
  intros d stem metadata Hmeta Hnot. split.
  - intros polygon extracted Htype Hgeom Hnorm Hextract.
    unfold load_farm_json, read_format, py_get_default.
    rewrite Htype, Hgeom, Hnorm, Hmeta. cbn [py_eq_str String.eqb Ascii.eqb
      Bool.eqb negb bind]. rewrite Hextract. cbn [bind].
    unfold py_merge.
    destruct metadata as [ | b | q | s | l | md];
      try (destruct (py_or (py_get d "properties") (JDict []));
           eexists; reflexivity).
    now elim (Hnot md).
  - intros polygon H1 H2 Hpoly Hraw Hok.
    unfold load_farm_json, read_format, dict_mem, py_get_default.
    rewrite H1, H2, Hpoly, Hmeta. cbn [getitem]. rewrite Hpoly. cbn [bind].
    assert (Hsame :
      match polygon with
      | JDict rp =>
          if py_eq_str (py_get rp "type") "Feature"
          then
            if negb (truthy (py_get rp "geometry"))
            then Raise (ValueError
                          "Feature en 'polygon' invalido: falta geometria")
            else Geometry._normalize_geometry (py_get rp "geometry")
          else Geometry._normalize_geometry polygon
      | _ => Geometry._normalize_geometry polygon
      end = Geometry._normalize_geometry polygon).
    { destruct polygon as [ | b | q | s | l | rp]; try reflexivity.
      rewrite (Hraw rp eq_refl). reflexivity. }
    rewrite Hsame.
    destruct (Geometry._normalize_geometry polygon) as [p | e] eqn:Hp;
      [ | discriminate].
    cbn [bind]. destruct (normalize_output _ _ Hp) as (t & c & -> & Ht & _).
    cbn [Geometry.geometry_object truthy negb].
    eexists. split; [reflexivity | ].
    rewrite getitem_preserved by reflexivity.
    destruct metadata as [ | b | q | s | l | md]; try reflexivity.
    now elim (Hnot md).
Qed.

End FarmFileErrors.

Section FarmFileErrorsChecks.

Import FarmFile.

Lemma load_farm_json_rejections_witness :
  load_farm_json Retry.lower
    (JDict [("type", JStr "FeatureCollection"); ("features", JNull)]) "finca"
  = Raise (ValueError "FeatureCollection vacia: no hay features").
Proof.
  apply (proj1 (proj2 (proj2 (load_farm_json_rejections Retry.lower "finca")))).
  - reflexivity.
  - reflexivity.
Defined.

(** A farm in the format with a [polygon] key whose metadata is [None]. *)
Lemma metadata_that_is_not_a_mapping_witness :
  exists out,
    load_farm_json Retry.lower
      (JDict [("polygon",
               JDict [("type", JStr "Polygon");
                      ("coordinates",
                       Geometry.polygon_json
                         [[[1#1; 2#1]; [3#1; 4#1]; [5#1; 6#1]]])]);
              ("metadata", JNull)])
      "finca" = Ok out
    /\ getitem out "metadata" = Ok (JDict [("value", JNull)]).
Proof.
  apply (proj2 (metadata_that_is_not_a_mapping Retry.lower
                  [("polygon",
                    JDict [("type", JStr "Polygon");
                           ("coordinates",
                            Geometry.polygon_json
                              [[[1#1; 2#1]; [3#1; 4#1]; [5#1; 6#1]]])]);
                   ("metadata", JNull)]
                  "finca" JNull eq_refl ltac:(discriminate))
           (JDict [("type", JStr "Polygon");
                   ("coordinates",
                    Geometry.polygon_json
                      [[[1#1; 2#1]; [3#1; 4#1]; [5#1; 6#1]]])])).
  - reflexivity.
  - reflexivity.
  - reflexivity.
  - intros rp H. injection H as <-. reflexivity.
  - reflexivity.
Defined.

End FarmFileErrorsChecks.

Section FarmFileMetadata.

Import FarmFile.

Variable str_lower : string -> string.

Local Abbreviation load_farm_json := (FarmFile.load_farm_json str_lower).
Local Abbreviation generated_farm_id :=
  (FarmFile.generated_farm_id str_lower).

Lemma dict_get_absent (d : list (string * json)) (k : string) :
  ~ In k (map fst d) -> dict_get d k = None.
Proof.
  induction d as [ | [k0 v0] d IH]; [reflexivity | ].
  cbn [map fst In dict_get]. intro Hnot.
  destruct (String.eqb k0 k) eqn:Hk.
  - apply String.eqb_eq in Hk. tauto.
  - apply IH. tauto.
Qed.

(** A key looked up in [{**a, **b}] comes from [b] when [b] has it, and
    from [a] otherwise. *)
Lemma dict_get_update (b : list (string * json)) :
  NoDup (map fst b) ->
  forall (a : list (string * json)) (k : string),
    dict_get (dict_update a b) k
    = match dict_get b k with
      | Some v => Some v
      | None => dict_get a k
      end.
Proof.
  unfold dict_update. induction b as [ | [k0 v0] b IH]; intros Hnodup a k.
  - reflexivity.
  - cbn [map fst] in Hnodup. inversion Hnodup as [ | x xs Hnotin Hnodup'].
    subst. cbn [fold_left fst snd dict_get]. rewrite (IH Hnodup').
    rewrite dict_get_set. destruct (String.eqb k0 k) eqn:Hk.
    + apply String.eqb_eq in Hk. subst k0.
      rewrite (dict_get_absent _ _ Hnotin). reflexivity.
    + reflexivity.
Qed.

(** X17. For a Feature whose properties and metadata are dictionaries,
    the metadata of the record is their union in which the explicit
    [metadata] wins on a key that both have. *)
Theorem feature_metadata_precedence :
  forall (d : list (string * json)) (filename_stem : string) (out : json)
         (props md : list (string * json)),
    py_get d "type" = JStr "Feature" ->
    py_get d "properties" = JDict props ->
    dict_get d "metadata" = Some (JDict md) ->
    NoDup (map fst md) ->
    load_farm_json (JDict d) filename_stem = Ok out ->
    exists m,
      getitem out "metadata" = Ok (JDict m)
      /\ forall k,
           dict_get m k
           = match dict_get md k with
             | Some v => Some v
             | None => dict_get props k
             end.
Proof.
  intros d stem out props md Htype Hprops Hmeta Hnodup.
  unfold load_farm_json, read_format, py_get_default.
  rewrite Htype, Hprops, Hmeta.
  cbn [py_eq_str String.eqb Ascii.eqb Bool.eqb].
  destruct (negb (truthy (py_get d "geometry"))); [discriminate | ].
  destruct (Geometry._normalize_geometry (py_get d "geometry"))
    as [polygon | e] eqn:Hnorm; [ | discriminate].
  cbn [bind].
  replace (py_or (JDict props) (JDict [])) with (JDict props)
    by (destruct props; reflexivity).
  destruct (_extract_from_properties (JDict props)) as [extracted | e];
    [ | discriminate].
  cbn [bind py_merge].
  destruct (normalize_output _ _ Hnorm) as (t & c & -> & Ht & _).
  cbn [Geometry.geometry_object truthy negb].
  intro H. injection H as <-.
  exists (dict_update props md). split.
  - destruct (dict_get d "location"), (dict_get d "treeInventory");
      reflexivity.
  - intro k. apply dict_get_update. exact Hnodup.
Qed.

End FarmFileMetadata.

Section FarmFileMetadataChecks.

Import FarmFile.

(** The owner is given in both places; the metadata keeps the explicit
    one. *)
Lemma feature_metadata_precedence_witness :
  exists out m,
    load_farm_json Retry.lower
      (JDict [("type", JStr "Feature");
              ("geometry",
               JDict [("type", JStr "Polygon");
                      ("coordinates",
                       Geometry.polygon_json
                         [[[1#1; 2#1]; [3#1; 4#1]; [5#1; 6#1]]])]);
              ("properties",
               JDict [("owner", JStr "Ana"); ("crop", JStr "coffee")]);
              ("metadata", JDict [("owner", JStr "Luis")])])
      "finca" = Ok out
    /\ getitem out "metadata" = Ok (JDict m)
    /\ dict_get m "owner" = Some (JStr "Luis")
    /\ dict_get m "crop" = Some (JStr "coffee").
Proof.
  pose proof (feature_metadata_precedence Retry.lower
                [("type", JStr "Feature");
                 ("geometry",
                  JDict [("type", JStr "Polygon");
                         ("coordinates",
                          Geometry.polygon_json
                            [[[1#1; 2#1]; [3#1; 4#1]; [5#1; 6#1]]])]);
                 ("properties",
                  JDict [("owner", JStr "Ana"); ("crop", JStr "coffee")]);
                 ("metadata", JDict [("owner", JStr "Luis")])]
                "finca") as Hprec.
  destruct (load_farm_json Retry.lower
              (JDict [("type", JStr "Feature");
                      ("geometry",
                       JDict [("type", JStr "Polygon");
                              ("coordinates",
                               Geometry.polygon_json
                                 [[[1#1; 2#1]; [3#1; 4#1]; [5#1; 6#1]]])]);
                      ("properties",
                       JDict [("owner", JStr "Ana"); ("crop", JStr "coffee")]);
                      ("metadata", JDict [("owner", JStr "Luis")])])
              "finca") as [out | e] eqn:Hload; [ | discriminate Hload].
  assert (Hnodup : NoDup (map fst [("owner", JStr "Luis")])).
  { constructor; [intros [] | constructor]. }
  destruct (Hprec out _ _ eq_refl eq_refl eq_refl Hnodup eq_refl)
    as (m & Hm & Hlookup).
  exists out, m. split; [reflexivity | ]. split; [exact Hm | ].
  split; rewrite Hlookup; reflexivity.
Defined.

End FarmFileMetadataChecks.

Section FarmFileIdentifier.

Import FarmFile.

Variable str_lower : string -> string.

Local Abbreviation load_farm_json := (FarmFile.load_farm_json str_lower).
Local Abbreviation generated_farm_id :=
  (FarmFile.generated_farm_id str_lower).

Lemma lower_ascii_idempotent (c : ascii) :
  Retry.lower_ascii (Retry.lower_ascii c) = Retry.lower_ascii c.
Proof.
  destruct c as [[] [] [] [] [] [] [] []]; reflexivity.
Qed.

Lemma lower_idempotent (s : string) :
  Retry.lower (Retry.lower s) = Retry.lower s.
Proof.
  induction s as [ | c s IH]; [reflexivity | ].
  cbn [Retry.lower]. rewrite lower_ascii_idempotent, IH. reflexivity.
Qed.

Lemma lower_app (s1 s2 : string) :
  Retry.lower (s1 ++ s2) = (Retry.lower s1 ++ Retry.lower s2)%string.
Proof.
  induction s1 as [ | c s1 IH]; [reflexivity | ].
  cbn [append Retry.lower]. rewrite IH. reflexivity.
Qed.

Lemma lowered_replaced_not_space (c : ascii) :
  Ascii.eqb " "%char
    (Retry.lower_ascii (if Ascii.eqb c " "%char then "-"%char else c))
  = false.
Proof.
  destruct c as [[] [] [] [] [] [] [] []]; reflexivity.
Qed.

Lemma no_space_in_lowered (s : string) :
  Retry.contains " " (Retry.lower (replace_spaces s)) = false.
Proof.
  induction s as [ | c s IH]; [reflexivity | ].
  cbn [replace_spaces Retry.lower Retry.contains]. rewrite IH, orb_false_r.
  cbn [String.prefix].
  destruct (ascii_dec " "%char
              (Retry.lower_ascii
                 (if Ascii.eqb c " "%char then "-"%char else c)))
    as [Heq | _]; [ | reflexivity].
  pose proof (lowered_replaced_not_space c) as Hneq.
  apply Ascii.eqb_neq in Hneq. contradiction.
Qed.

Lemma is_ascii_replace_spaces (s : string) :
  is_ascii (replace_spaces s) = is_ascii s.
Proof.
  induction s as [ | c s IH]; [reflexivity | ].
  cbn [replace_spaces is_ascii]. rewrite IH. f_equal.
  destruct c as [[] [] [] [] [] [] [] []]; reflexivity.
Qed.

Lemma is_ascii_lower (s : string) :
  is_ascii (Retry.lower s) = is_ascii s.
Proof.
  induction s as [ | c s IH]; [reflexivity | ].
  cbn [Retry.lower is_ascii]. rewrite IH. f_equal.
  destruct c as [[] [] [] [] [] [] [] []]; reflexivity.
Qed.

Lemma is_ascii_app (s1 s2 : string) :
  is_ascii (s1 ++ s2) = is_ascii s1 && is_ascii s2.
Proof.
  induction s1 as [ | c s1 IH]; [reflexivity | ].
  cbn [append is_ascii]. rewrite IH. apply andb_assoc.
Qed.

(** X18. The identifier that is derived from the file stem is "farm-"
    followed by the lower-cased stem in which every space is replaced by
    a hyphen; it is the [farmId] of the record exactly when the input
    gives neither a truthy [farmId] nor a truthy [projectId], and an
    explicit [farmId] always wins. For a stem of ASCII characters, on
    which [str.lower] changes the letters A to Z only, the identifier
    holds no space and is left unchanged by [str.lower]. *)
Theorem generated_farm_id_properties :
  forall (filename_stem : string),
    String.prefix "farm-" (generated_farm_id filename_stem) = true
    /\ (forall d out,
          load_farm_json (JDict d) filename_stem = Ok out ->
          getitem out "farmId"
          = Ok (if truthy (py_get d "farmId") then py_get d "farmId"
                else if truthy (py_get d "projectId") then py_get d "projectId"
                else JStr (generated_farm_id filename_stem)))
    /\ (is_ascii filename_stem = true ->
        (forall s, is_ascii s = true -> str_lower s = Retry.lower s) ->
        generated_farm_id filename_stem
        = ("farm-" ++ Retry.lower (replace_spaces filename_stem))%string
        /\ Retry.contains " " (generated_farm_id filename_stem) = false
        /\ str_lower (generated_farm_id filename_stem)
           = generated_farm_id filename_stem).
Proof.
  intro stem. split; [ | split].
  - unfold generated_farm_id.
    destruct (str_lower (replace_spaces stem)); reflexivity.
  - intros d out. unfold load_farm_json.
    destruct (read_format (JDict d))
      as [[[[polygon name] owner] metadata] | e]; [ | discriminate].
    cbn [bind]. destruct (negb (truthy polygon)); [discriminate | ].
    intro H. injection H as <-.
    destruct (dict_get d "location"), (dict_get d "treeInventory");
      reflexivity.
  - intros Hstem Hlower.
    assert (Hid : generated_farm_id stem
                  = ("farm-" ++ Retry.lower (replace_spaces stem))%string).
    { unfold generated_farm_id. rewrite Hlower; [reflexivity | ].
      rewrite is_ascii_replace_spaces. exact Hstem. }
    split; [exact Hid | ]. rewrite Hid. split.
    + change (Retry.contains " "
                ("farm-" ++ Retry.lower (replace_spaces stem)))
        with (Retry.contains " " (Retry.lower (replace_spaces stem))).
      apply no_space_in_lowered.
    + rewrite Hlower.
      * rewrite lower_app, lower_idempotent. reflexivity.
      * rewrite is_ascii_app, is_ascii_lower, is_ascii_replace_spaces, Hstem.
        reflexivity.
Qed.

End FarmFileIdentifier.

(** A stem with capitals and spaces, no identifier in the input, and the
    ASCII lower-casing. *)
Lemma generated_farm_id_properties_witness :
  exists out,
    FarmFile.load_farm_json Retry.lower
      (JDict [("polygon",
               JDict [("type", JStr "Polygon");
                      ("coordinates",
                       Geometry.polygon_json
                         [[[1#1; 2#1]; [3#1; 4#1]; [5#1; 6#1]]])])])
      "Finca Los Pinos" = Ok out
    /\ getitem out "farmId" = Ok (JStr "farm-finca-los-pinos")
    /\ Retry.contains " "
         (FarmFile.generated_farm_id Retry.lower "Finca Los Pinos") = false.
Proof.
  destruct (generated_farm_id_properties Retry.lower "Finca Los Pinos")
    as (_ & Hfarm & Hascii).
  destruct (Hascii eq_refl (fun s _ => eq_refl)) as (_ & Hspace & _).
  destruct (FarmFile.load_farm_json Retry.lower
              (JDict [("polygon",
                       JDict [("type", JStr "Polygon");
                              ("coordinates",
                               Geometry.polygon_json
                                 [[[1#1; 2#1]; [3#1; 4#1]; [5#1; 6#1]]])])])
              "Finca Los Pinos") as [out | e] eqn:Hload;
    [ | discriminate Hload].
  exists out. split; [reflexivity | ].
  split; [ | exact Hspace].
  rewrite (Hfarm _ out Hload). reflexivity.
Defined.

(* ================================================================== *)
(** ** Batch processing: the rows, the loop and the summary *)

Section BatchFacts.

Variable ee : provider.
Variable calculate_ndvi :
  json -> string -> string -> result (list (string * json)).
Variable analyze_deforestation : json -> json -> result (list (string * json)).
Variable calculate_carbon_baseline :
  json -> json -> json -> result (list (string * json)).
Variable open_output : string -> result unit.
Variable json_dump : string -> json -> result unit.
Variable output_path_of : string -> string -> string.
Variable str_exn : exn -> string.
Variable str_lower : string -> string.

Local Abbreviation process_farm :=
  (Batch.process_farm ee calculate_ndvi analyze_deforestation
     calculate_carbon_baseline open_output json_dump output_path_of str_exn
     str_lower).

Local Abbreviation output_path output_dir file :=
  (output_path_of output_dir (Batch.file_stem file ++ "_analysis.json")).

Lemma process_farm_filename (file : Batch.farm_file)
    (output_dir start_date end_date : string) :
  Batch.filename (fst (process_farm file output_dir start_date end_date))
  = Batch.file_name file.
Proof.
  unfold Batch.process_farm.
  destruct (Batch.load_farm_file str_lower file) as [farm_data | e];
    [ | reflexivity].
  destruct farm_data as [ | b | q | s | l | d]; try reflexivity.
  destruct (getitem (JDict d) "polygon") as [polygon | e]; [ | reflexivity].
  destruct (Batch.summary_area ee polygon) as [area_m2 | e]; [ | reflexivity].
  cbv zeta.
  destruct (open_output _); [ | reflexivity].
  match goal with
  | |- context [json_dump ?p ?d] => destruct (json_dump p d)
  end; reflexivity.
Qed.


(** X20. The figures of the summary row can be read off the document
    that was written: the analysis entry of the document holds one
    dictionary for each of ndvi, deforestation and carbon; a figure of the
    row is [None] when its dictionary has an ['error'] key, and the entry
    of the dictionary otherwise; name and farmId of the row are those of
    [farmInfo]. *)
Theorem summary_row_agrees_with_document :
  forall (file : Batch.farm_file) (output_dir start_date end_date : string)
         (path : string) (doc : json),
    snd (process_farm file output_dir start_date end_date)
    = Batch.Document path doc ->
    exists ndvi_entry deforestation_entry carbon_entry farm_info,
      getitem doc "analysis"
      = Ok (JDict [("ndvi", JDict ndvi_entry);
                   ("deforestation", JDict deforestation_entry);
                   ("carbon", JDict carbon_entry)])
      /\ getitem doc "farmInfo" = Ok (JDict farm_info)
      /\ Batch.ndvi (fst (process_farm file output_dir start_date end_date))
         = (if FarmFile.dict_mem ndvi_entry "error" then JNull
            else py_get ndvi_entry "mean")
      /\ Batch.eudrCompliant
           (fst (process_farm file output_dir start_date end_date))
         = (if FarmFile.dict_mem deforestation_entry "error" then JNull
            else py_get deforestation_entry "compliant")
      /\ Batch.deforestationPercent
           (fst (process_farm file output_dir start_date end_date))
         = (if FarmFile.dict_mem deforestation_entry "error" then JNull
            else py_get deforestation_entry "deforestationPercent")
      /\ Batch.carbonTCO2e
           (fst (process_farm file output_dir start_date end_date))
         = (if FarmFile.dict_mem carbon_entry "error" then JNull
            else py_get carbon_entry "baselineCarbonTCO2e")
      /\ dict_get farm_info "name"
         = Some (Batch.name
                   (fst (process_farm file output_dir start_date end_date)))
      /\ dict_get farm_info "farmId"
         = Some (Batch.farmId
                   (fst (process_farm file output_dir start_date end_date))).
Proof.
  intros file output_dir start_date end_date path doc.
  unfold Batch.process_farm.
  destruct (Batch.load_farm_file str_lower file) as [farm_data | e];
    [ | discriminate].
  destruct farm_data as [ | b | q | s | l | d]; try discriminate.
  destruct (getitem (JDict d) "polygon") as [polygon | e];
    [ | discriminate].
  destruct (Batch.summary_area ee polygon) as [area_m2 | e];
    [ | discriminate].
  cbv zeta.
  destruct (open_output _) as [[] | e]; [ | discriminate].
  match goal with
  | |- context [json_dump ?p ?d] => destruct (json_dump p d) as [[] | e]
  end; [ | discriminate].
  cbn [fst snd]. intro H. injection H as _ <-.
  assert (Hguard : forall analysis,
             exists entry,
               fst (Batch.guarded str_exn analysis) = JDict entry
               /\ forall k,
                    Batch.summary_value
                      (snd (Batch.guarded str_exn analysis)) k
                    = (if FarmFile.dict_mem entry "error" then JNull
                       else py_get entry k)).
  { intros [entry | e].
    - exists entry. split; [reflexivity | ]. intro k.
      cbn [Batch.guarded snd].
      destruct (FarmFile.dict_mem entry "error"); reflexivity.
    - eexists. split; [reflexivity | ]. intro k. reflexivity. }
  destruct (Hguard (calculate_ndvi polygon start_date end_date))
    as (e1 & -> & H1).
  destruct (Hguard (analyze_deforestation polygon
                      (FarmFile.py_get_default d "farmId" (JStr "unknown"))))
    as (e2 & -> & H2).
  destruct (Hguard (calculate_carbon_baseline polygon
                      (FarmFile.py_get_default d "farmId" (JStr "unknown"))
                      (py_get d "treeInventory")))
    as (e3 & -> & H3).
  exists e1, e2, e3. eexists.
  split; [reflexivity | ]. split; [reflexivity | ].
  cbn [Batch.ndvi Batch.eudrCompliant Batch.deforestationPercent
       Batch.carbonTCO2e Batch.name Batch.farmId].
  rewrite H1, !H2, H3. repeat split; reflexivity.
Qed.

(** X21. Failures of the analyses do not fail the farm: when the file
    loads, the area of the parcel is obtained, the output file can be
    opened and the document can be dumped into it, the farm is reported successful with its area rounded to two
    decimals, whatever the three analyses return or raise. *)
Theorem analysis_failures_do_not_fail_the_farm :
  forall (file : Batch.farm_file) (output_dir start_date end_date : string)
         (farm_data : list (string * json)) (polygon : json) (area_m2 : R),
    Batch.load_farm_file str_lower file = Ok (JDict farm_data) ->
    dict_get farm_data "polygon" = Some polygon ->
    Batch.summary_area ee polygon = Ok area_m2 ->
    open_output (output_path output_dir file) = Ok tt ->
    (forall doc, json_dump (output_path output_dir file) doc = Ok tt) ->
    Batch.success (fst (process_farm file output_dir start_date end_date))
    = true
    /\ Batch.error (fst (process_farm file output_dir start_date end_date))
       = None
    /\ Batch.areaHa (fst (process_farm file output_dir start_date end_date))
       = Some (py_round (area_m2 / 10000) 2)
    /\ exists doc,
         snd (process_farm file output_dir start_date end_date)
         = Batch.Document (output_path output_dir file) doc
         /\ getitem doc "polygon" = Ok polygon.
Proof.
  intros file output_dir start_date end_date farm_data polygon area_m2
         Hload Hpolygon Harea Hopen Hdump.
  unfold Batch.process_farm. rewrite Hload.
  cbn [getitem]. rewrite Hpolygon, Harea. cbv zeta. rewrite Hopen, Hdump.
  cbn [fst snd Batch.success Batch.error Batch.areaHa].
  repeat split. eexists. split; reflexivity.
Qed.

(** X22. The area of the summary is that of the exterior ring alone: for
    a polygon given as rings of vertices, the holes do not enter the
    geometry whose area is reported, whereas the geometry handed to the
    analyses is built from all the rings. *)
Theorem summary_area_ignores_holes :
  forall (t : json) (v : list Q) (ring : list (list Q))
         (holes : list (list (list Q))),
    py_eq_str t "Feature" = false ->
    Batch.summary_area ee
      (Geometry.geometry_object t
         (Geometry.polygon_json ((v :: ring) :: holes)))
    = (aoi <- geometry_polygon ee (Geometry.ring_json (v :: ring)) ;;
       area_m2_info ee aoi)
    /\ polygon_geometry ee
         (Geometry.geometry_object t
            (Geometry.polygon_json ((v :: ring) :: holes)))
       = geometry_polygon ee (Geometry.polygon_json ((v :: ring) :: holes)).
Proof.
  intros t v ring holes Ht.
  unfold Batch.summary_area, polygon_geometry, polygon_coords,
    Geometry.geometry_object.
  cbn [py_get dict_get String.eqb Ascii.eqb Bool.eqb].
  rewrite Ht. cbn. split; reflexivity.
Qed.

(** Every row of a run that continues after errors. *)
Lemma main_loop_continue_length (process : Batch.farm_file -> result Batch.row)
    (farm_files : list Batch.farm_file) :
  List.length (Batch.main_loop str_exn process true farm_files)
  = List.length farm_files.
Proof.
  induction farm_files as [ | file rest IH]; [reflexivity | ].
  cbn [Batch.main_loop].
  destruct (process file) as [row | e].
  - destruct (Batch.success row); cbn [List.length]; now rewrite IH.
  - cbn [List.length]. now rewrite IH.
Qed.

(** X23. With [--continue-on-error] the run yields one row per farm file,
    whatever the processing of a file returns or raises; with
    [process_farm] as the processing step the rows bear the names of the
    files, in the order of the files. *)
Theorem batch_continue_one_row_per_file :
  forall (process : Batch.farm_file -> result Batch.row)
         (output_dir start_date end_date : string)
         (farm_files : list Batch.farm_file),
    List.length (Batch.main_loop str_exn process true farm_files)
    = List.length farm_files
    /\ map Batch.filename
         (Batch.main_loop str_exn
            (fun file =>
               Ok (fst (process_farm file output_dir start_date end_date)))
            true farm_files)
       = map Batch.file_name farm_files.
Proof.
  intros process output_dir start_date end_date farm_files.
  split; [apply main_loop_continue_length | ].
  induction farm_files as [ | file rest IH]; [reflexivity | ].
  cbn [Batch.main_loop map].
  rewrite process_farm_filename.
  destruct (Batch.success _); now rewrite IH.
Qed.

Lemma main_loop_stop_failures (process : Batch.farm_file -> result Batch.row)
    (farm_files : list Batch.farm_file) :
  (List.length
     (filter (fun r => negb (Batch.success r))
        (Batch.main_loop str_exn process false farm_files)) <= 1)%nat.
Proof.
  induction farm_files as [ | file rest IH]; [cbn; lia | ].
  cbn [Batch.main_loop].
  destruct (process file) as [row | e].
  - destruct (Batch.success row) eqn:Hrow.
    + cbn [filter]. rewrite Hrow. exact IH.
    + cbn [filter]. rewrite Hrow. cbn. lia.
  - cbn. lia.
Qed.

(** X24. Without [--continue-on-error] the run stops at the first farm
    that fails: every row but the last is a success, there are no more
    rows than files, and either every file has its row or the last row is
    a failure. *)
Theorem batch_stops_at_first_failure :
  forall (process : Batch.farm_file -> result Batch.row)
         (farm_files : list Batch.farm_file),
    Forall (fun r => Batch.success r = true)
      (removelast (Batch.main_loop str_exn process false farm_files))
    /\ (List.length (Batch.main_loop str_exn process false farm_files)
        <= List.length farm_files)%nat
    /\ (List.length (Batch.main_loop str_exn process false farm_files)
        = List.length farm_files
        \/ exists front r,
             Batch.main_loop str_exn process false farm_files
             = (front ++ [r])%list
             /\ Batch.success r = false).
Proof.
  intros process farm_files.
  induction farm_files as [ | file rest (IHall & IHlen & IHlast)].
  { cbn. split; [constructor | ]. split; [lia | now left]. }
  cbn [Batch.main_loop].
  destruct (process file) as [row | e].
  - destruct (Batch.success row) eqn:Hrow.
    + split; [ | split].
      * destruct (Batch.main_loop str_exn process false rest) as [ | r rs]
          eqn:Hrest; [constructor | ].
        change (removelast (row :: r :: rs))
          with (row :: removelast (r :: rs)).
        constructor; assumption.
      * cbn [List.length]. lia.
      * destruct IHlast as [Heq | (front & r & Heq & Hr)].
        -- left. cbn [List.length]. now rewrite Heq.
        -- right. exists (row :: front), r. rewrite Heq. now split.
    + split; [constructor | ]. split; [cbn; lia | ].
      right. exists [], row. now split.
  - split; [constructor | ]. split; [cbn; lia | ].
    right. exists [], (Batch.error_result str_exn file e). now split.
Qed.

End BatchFacts.

Section SummaryFacts.

Lemma filter_partition_length {A : Type} (f : A -> bool) (l : list A) :
  (List.length (filter f l) + List.length (filter (fun x => negb (f x)) l)
   = List.length l)%nat.
Proof.
  induction l as [ | x l IH]; [reflexivity | ].
  cbn [filter]. destruct (f x); cbn [negb List.length]; lia.
Qed.

Lemma filter_length_le {A : Type} (f : A -> bool) (l : list A) :
  (List.length (filter f l) <= List.length l)%nat.
Proof.
  induction l as [ | x l IH]; [cbn; lia | ].
  cbn [filter]. destruct (f x); cbn [List.length]; lia.
Qed.

Lemma summary_of_counts (now : string) (results : list Batch.row)
    (s : Batch.Summary.t) :
  Batch.summary_of now results = Ok s ->
  Batch.Summary.totalFarms s = List.length results
  /\ Batch.Summary.successfulAnalyses s
     = List.length (filter (fun r => Batch.success r) results)
  /\ Batch.Summary.failedAnalyses s
     = List.length (filter (fun r => negb (Batch.success r)) results)
  /\ Batch.Summary.eudrCompliant s
     = List.length
         (filter (fun r => truthy (Batch.eudrCompliant r)) results)
  /\ Batch.Summary.results s = results.
Proof.
  unfold Batch.summary_of.
  destruct (Batch.py_sum _ _) as [total_carbon | e]; [ | discriminate].
  cbn [bind]. intro H. injection H as <-. repeat split.
Qed.

(** X25. In the summary that [export_json] writes, the successful and the
    failed analyses add up to the number of farms, which is the number of
    rows listed, and the farms counted as EUDR compliant are no more than
    the farms. *)
Theorem summary_counts_add_up :
  forall (now : string) (results : list Batch.row) (s : Batch.Summary.t),
    Batch.summary_of now results = Ok s ->
    (Batch.Summary.successfulAnalyses s + Batch.Summary.failedAnalyses s
     = Batch.Summary.totalFarms s)%nat
    /\ Batch.Summary.totalFarms s = List.length (Batch.Summary.results s)
    /\ (Batch.Summary.eudrCompliant s <= Batch.Summary.totalFarms s)%nat.
Proof.
  intros now results s H.
  destruct (summary_of_counts _ _ _ H) as (-> & -> & -> & -> & ->).
  split; [apply filter_partition_length | ].
  split; [reflexivity | apply filter_length_le].
Qed.

Lemma py_sum_is_ok (values : list json) :
  forall total, is_ok (Batch.py_sum total values) = forallb is_number values.
Proof.
  induction values as [ | v values IH]; [reflexivity | ].
  intro total. cbn [Batch.py_sum forallb].
  destruct v; cbn [Batch.as_number bind is_number andb is_ok];
    try reflexivity; apply IH.
Qed.

(** X26. The summary cannot be built exactly when some row carries a
    truthy carbon figure that is not a number (a non-empty string, list
    or dictionary under ['baselineCarbonTCO2e']): the sum then raises, and
    nothing is written. Rows without a carbon figure never matter. *)
Theorem summary_fails_exactly_on_nonnumeric_carbon :
  forall (now : string) (results : list Batch.row)
         (write_summary : string -> Batch.Summary.t -> result unit)
         (output_path : string),
    is_ok (Batch.summary_of now results)
    = forallb
        (fun r => negb (truthy (Batch.carbonTCO2e r))
                  || is_number (Batch.carbonTCO2e r)) results
    /\ (is_ok (Batch.summary_of now results) = false ->
        is_ok (Batch.export_json now write_summary results output_path)
        = false).
Proof.
  intros now results write_summary output_path.
  assert (Hok : is_ok (Batch.summary_of now results)
                = is_ok (Batch.py_sum 0%Q
                           (map Batch.carbonTCO2e
                              (filter (fun r => truthy (Batch.carbonTCO2e r))
                                 results)))).
  { unfold Batch.summary_of.
    destruct (Batch.py_sum _ _); reflexivity. }
  split.
  - rewrite Hok, py_sum_is_ok. clear Hok.
    induction results as [ | r results IH]; [reflexivity | ].
    cbn [filter forallb].
    destruct (truthy (Batch.carbonTCO2e r));
      cbn [map forallb negb orb]; now rewrite IH.
  - unfold Batch.export_json.
    destruct (Batch.summary_of now results); [discriminate | reflexivity].
Qed.

Lemma main_loop_stop_complete (str_exn : exn -> string)
    (process : Batch.farm_file -> result Batch.row)
    (farm_files : list Batch.farm_file) :
  List.length
    (filter (fun r => negb (Batch.success r))
       (Batch.main_loop str_exn process false farm_files)) = 1%nat
  \/ List.length
       (filter (fun r => Batch.success r)
          (Batch.main_loop str_exn process false farm_files))
     = List.length farm_files.
Proof.
  induction farm_files as [ | file rest IH]; [now right | ].
  cbn [Batch.main_loop].
  destruct (process file) as [row | e].
  - destruct (Batch.success row) eqn:Hrow.
    + cbn [filter]. rewrite Hrow. cbn [negb List.length].
      destruct IH as [IH | IH]; [now left | right; now rewrite IH].
    + left. cbn [filter]. rewrite Hrow. reflexivity.
  - now left.
Qed.

(** X27. Without [--continue-on-error] the summary of a run reports at
    most one failed analysis. *)
Theorem at_most_one_failure_without_continue :
  forall (str_exn : exn -> string)
         (process : Batch.farm_file -> result Batch.row)
         (farm_files : list Batch.farm_file) (now : string)
         (s : Batch.Summary.t),
    Batch.summary_of now (Batch.main_loop str_exn process false farm_files)
    = Ok s ->
    (Batch.Summary.failedAnalyses s <= 1)%nat
    /\ (Batch.Summary.failedAnalyses s = 1%nat
        \/ Batch.Summary.successfulAnalyses s = List.length farm_files).
Proof.
  intros str_exn process farm_files now s H.
  destruct (summary_of_counts _ _ _ H) as (_ & Hs & Hf & _ & _).
  rewrite Hs, Hf. split; [apply main_loop_stop_failures | ].
  apply main_loop_stop_complete.
Qed.

End SummaryFacts.

(** The square parcel, with an NDVI analysis that raises. *)
Lemma summary_row_agrees_with_document_witness :
  exists path doc,
    snd (sample_process_farm square_farm_file) = Batch.Document path doc
    /\ Batch.ndvi (fst (sample_process_farm square_farm_file)) = JNull
    /\ Batch.carbonTCO2e (fst (sample_process_farm square_farm_file))
       = JNum (120#1).
Proof.
  destruct (snd (sample_process_farm square_farm_file))
    as [ | path | path doc] eqn:Hrun; try discriminate Hrun.
  exists path, doc. split; [reflexivity | ].
  destruct (summary_row_agrees_with_document _ _ _ _ _ _ _ _ _ _ _ _ _ _ _
              Hrun)
    as (e1 & e2 & e3 & info & Hanalysis & _ & Hndvi & _ & _ & Hcarbon & _).
  injection Hrun as _ <-.
  injection Hanalysis as <- _ <-.
  split; [exact Hndvi | exact Hcarbon].
Defined.

Lemma analysis_failures_do_not_fail_the_farm_witness :
  Batch.success (fst (sample_process_farm square_farm_file)) = true
  /\ Batch.areaHa (fst (sample_process_farm square_farm_file))
     = Some (py_round (10000 / 10000) 2).
Proof.
  destruct (analysis_failures_do_not_fail_the_farm
              (constant_provider 10000 3 Absent Absent Absent)
              failing_ndvi sample_deforestation sample_carbon
              (fun _ => Ok tt) (fun _ _ => Ok tt) sample_path exn_message
              Retry.lower square_farm_file "out" "2024-01-01" "2024-12-31"
              _ _ _ eq_refl eq_refl eq_refl eq_refl (fun _ => eq_refl))
    as (Hsuccess & _ & Harea & _).
  split; [exact Hsuccess | exact Harea].
Defined.

Lemma summary_area_ignores_holes_witness :
  Batch.summary_area (constant_provider 160000 3 Absent Absent Absent)
    (Geometry.geometry_object (JStr "Polygon")
       (Geometry.polygon_json square_with_hole))
  = Ok 160000.
Proof.
  exact (proj1 (summary_area_ignores_holes
                  (constant_provider 160000 3 Absent Absent Absent)
                  (JStr "Polygon") _ _ _ eq_refl)).
Defined.

Lemma summary_counts_add_up_witness :
  exists s,
    Batch.summary_of "2025-01-01T00:00:00"
      (Batch.main_loop exn_message
         (fun file => Ok (fst (sample_process_farm file))) true
         [unreadable_farm_file; square_farm_file]) = Ok s
    /\ (Batch.Summary.successfulAnalyses s + Batch.Summary.failedAnalyses s
        = Batch.Summary.totalFarms s)%nat.
Proof.
  destruct (Batch.summary_of "2025-01-01T00:00:00"
              (Batch.main_loop exn_message
                 (fun file => Ok (fst (sample_process_farm file))) true
                 [unreadable_farm_file; square_farm_file]))
    as [s | e] eqn:Hsummary; [ | discriminate Hsummary].
  exists s. split; [reflexivity | ].
  exact (proj1 (summary_counts_add_up _ _ _ Hsummary)).
Defined.

Lemma summary_fails_exactly_on_nonnumeric_carbon_witness :
  is_ok (Batch.export_json "2025-01-01T00:00:00" (fun _ _ => Ok tt)
           [text_carbon_row] "out/summary.json") = false.
Proof.
  exact (proj2 (summary_fails_exactly_on_nonnumeric_carbon
                  "2025-01-01T00:00:00" [text_carbon_row]
                  (fun _ _ => Ok tt) "out/summary.json") eq_refl).
Defined.

Lemma at_most_one_failure_without_continue_witness :
  exists s,
    Batch.summary_of "2025-01-01T00:00:00"
      (Batch.main_loop exn_message
         (fun file => Ok (fst (sample_process_farm file))) false
         [unreadable_farm_file; square_farm_file]) = Ok s
    /\ (Batch.Summary.failedAnalyses s <= 1)%nat.
Proof.
  destruct (Batch.summary_of "2025-01-01T00:00:00"
              (Batch.main_loop exn_message
                 (fun file => Ok (fst (sample_process_farm file))) false
                 [unreadable_farm_file; square_farm_file]))
    as [s | e] eqn:Hsummary; [ | discriminate Hsummary].
  exists s. split; [reflexivity | ].
  exact (proj1 (at_most_one_failure_without_continue _ _ _ _ _ Hsummary)).
Defined.

(* ================================================================== *)
(** ** NDVI statistics: remote traffic and what is critical *)

Lemma retry_run_bounds (A W : Type) (operation : W -> result A * W)
    (max_retries : Z) (delay : R) (operation_name : string) (w : W) :
  (1 <= max_retries)%Z ->
  0 <= delay ->
  (1 <= List.length
          (Retry.calls
             (Retry.retry_ee_operation operation max_retries delay
                operation_name w)) <= Z.to_nat max_retries)%nat
  /\ fold_right Rplus 0
       (Retry.sleeps
          (Retry.retry_ee_operation operation max_retries delay
             operation_name w))
     <= delay * (2 ^ (Z.to_nat max_retries - 1) - 1).
Proof.
  intros Hmax Hdelay. unfold Retry.retry_ee_operation.
  assert (Hn : (1 <= Z.to_nat max_retries)%nat) by lia.
  assert (Hsum : Z.of_nat (0 + Z.to_nat max_retries) = max_retries) by lia.
  destruct (retry_loop_contract operation max_retries delay operation_name
              (Z.to_nat max_retries) 0 None w Hn Hsum)
    as (Hlen & Hsleeps & Hretry & _).
  set (r := Retry.retry_loop operation max_retries delay operation_name
              (Z.to_nat max_retries) 0 None w) in *.
  split; [exact Hlen | ].
  assert (Hgeo : fold_right Rplus 0 (Retry.sleeps r)
                 = delay * 2 ^ 0 * (2 ^ List.length (Retry.sleeps r) - 1)).
  { apply geometric_sleeps. intros k Hk.
    destruct (nth_error (Retry.calls r) k) as [c | ] eqn:Hc.
    - apply (Hretry k c Hc). lia.
    - apply nth_error_None in Hc. lia. }
  rewrite Hsleeps in Hgeo. rewrite Hgeo. cbn [pow].
  assert (Hpow : 2 ^ (List.length (Retry.calls r) - 1)
                 <= 2 ^ (Z.to_nat max_retries - 1)).
  { apply Rle_pow; [lra | lia]. }
  nra.
Qed.

Lemma sum_app (a b : list R) :
  fold_right Rplus 0 (a ++ b) = fold_right Rplus 0 a + fold_right Rplus 0 b.
Proof.
  induction a as [ | x a IH]; cbn [app fold_right]; [ring | ].
  rewrite IH. ring.
Qed.

Lemma retry_outcome_first_ok (A W : Type) (operation : W -> result A * W)
    (max_retries : Z) (delay : R) (operation_name : string) (w : W) (v : A) :
  (1 <= max_retries)%Z ->
  fst (operation w) = Ok v ->
  Retry.outcome
    (Retry.retry_ee_operation operation max_retries delay operation_name w)
  = Ok v.
Proof.
  intros Hmax Hfirst. unfold Retry.retry_ee_operation.
  destruct (Z.to_nat max_retries) as [ | n] eqn:Hn; [lia | ].
  cbn [Retry.retry_loop]. destruct (operation w) as [c w'].
  cbn [fst] in Hfirst. subst c. reflexivity.
Qed.

Section NdviFacts.

Context {W : Type}.
Variable ee : provider.
Variable size_info : json -> string -> string -> W -> result Z * W.
Variable cloud_info : json -> string -> string -> W -> result (option R) * W.
Variable stats_info :
  json -> string -> string -> W -> result (option NdviCalculator.stats) * W.
Variable thumb_info : json -> string -> string -> W -> result string * W.

Local Abbreviation calculate_ndvi :=
  (NdviCalculator.calculate_ndvi ee size_info cloud_info stats_info
     thumb_info).

(** X28. One execution of [calculate_ndvi] invokes at most eleven remote
    fetches and sleeps at most sixteen seconds in all; it ends by
    returning the statistics, after at least four fetches, or by leaving
    the process with exit code 1. *)
Theorem calculate_ndvi_traffic_bounded :
  forall (polygon : json) (start_date end_date : string) (w : W),
    (NdviCalculator.remote_calls
       (calculate_ndvi polygon start_date end_date w) <= 11)%nat
    /\ fold_right Rplus 0
         (NdviCalculator.slept (calculate_ndvi polygon start_date end_date w))
       <= 16
    /\ match NdviCalculator.ended
               (calculate_ndvi polygon start_date end_date w) with
       | NdviCalculator.Return _ =>
           (4 <= NdviCalculator.remote_calls
                   (calculate_ndvi polygon start_date end_date w))%nat
       | NdviCalculator.Exit code => code = 1%Z
       end.
Proof.
  intros polygon start_date end_date w.
  unfold NdviCalculator.calculate_ndvi.
  destruct (NdviCalculator.ee_polygon_of ee polygon) as [aoi | e].
  2:{ cbn. split; [lia | ]. split; [lra | reflexivity]. }
  cbv zeta.
  unfold NdviCalculator.check_collection_size,
    NdviCalculator.cloud_coverage_run, NdviCalculator.get_stats,
    NdviCalculator.get_thumbnail, NdviCalculator.count.
  match goal with
  | |- context [Retry.retry_ee_operation ?op 3%Z 2 ?n w] =>
      pose proof (retry_run_bounds _ _ op 3%Z 2 n w ltac:(lia) ltac:(lra))
        as (Hc1 & Hs1);
      set (size_run := Retry.retry_ee_operation op 3%Z 2 n w) in *
  end.
  change (Z.to_nat 3) with 3%nat in *. cbn [pow Nat.sub] in Hs1.
  destruct (Retry.outcome size_run) as [collection_size | e].
  2:{ cbn [NdviCalculator.remote_calls NdviCalculator.slept
           NdviCalculator.ended].
      split; [lia | ]. split; [lra | reflexivity]. }
  destruct (collection_size =? 0)%Z.
  { cbn [NdviCalculator.remote_calls NdviCalculator.slept
         NdviCalculator.ended].
    split; [lia | ]. split; [lra | reflexivity]. }
  match goal with
  | |- context [Retry.retry_ee_operation ?op 3%Z 1 ?n ?w0] =>
      pose proof (retry_run_bounds _ _ op 3%Z 1 n w0 ltac:(lia) ltac:(lra))
        as (Hc2 & Hs2);
      set (cloud_run := Retry.retry_ee_operation op 3%Z 1 n w0) in *
  end.
  change (Z.to_nat 3) with 3%nat in *. cbn [pow Nat.sub] in Hs2.
  match goal with
  | |- context [Retry.retry_ee_operation ?op 3%Z 2 ?n ?w0] =>
      pose proof (retry_run_bounds _ _ op 3%Z 2 n w0 ltac:(lia) ltac:(lra))
        as (Hc3 & Hs3);
      set (stats_run := Retry.retry_ee_operation op 3%Z 2 n w0) in *
  end.
  change (Z.to_nat 3) with 3%nat in *. cbn [pow Nat.sub] in Hs3.
  match goal with
  | |- context [Retry.retry_ee_operation ?op 2%Z 1 ?n ?w0] =>
      pose proof (retry_run_bounds _ _ op 2%Z 1 n w0 ltac:(lia) ltac:(lra))
        as (Hc4 & Hs4);
      set (thumb_run := Retry.retry_ee_operation op 2%Z 1 n w0) in *
  end.
  change (Z.to_nat 2) with 2%nat in *. cbn [pow Nat.sub] in Hs4.
  assert (Hexit3 :
            forall w' : W,
              let x := NdviCalculator.mk_execution (NdviCalculator.Exit 1)
                         (0 + List.length (Retry.calls size_run)
                          + List.length (Retry.calls cloud_run)
                          + List.length (Retry.calls stats_run))
                         ((Retry.sleeps size_run ++ Retry.sleeps cloud_run)
                          ++ Retry.sleeps stats_run) w' in
              (NdviCalculator.remote_calls x <= 11)%nat
              /\ fold_right Rplus 0 (NdviCalculator.slept x) <= 16
              /\ match NdviCalculator.ended x with
                 | NdviCalculator.Return _ =>
                     (4 <= NdviCalculator.remote_calls x)%nat
                 | NdviCalculator.Exit code => code = 1%Z
                 end).
  { intros w' x. subst x.
    cbn [NdviCalculator.remote_calls NdviCalculator.slept
         NdviCalculator.ended].
    rewrite !sum_app. split; [lia | ]. split; [lra | reflexivity]. }
  destruct (Retry.outcome stats_run) as [ndvi_stats | e]; [ | apply Hexit3].
  destruct ndvi_stats as [[ | entry entries] | ]; try apply Hexit3.
  destruct (NdviCalculator.stats_get (entry :: entries) "NDVI_mean");
    [ | apply Hexit3].
  destruct (NdviCalculator.stats_get (entry :: entries) "NDVI_median");
    [ | apply Hexit3].
  destruct (NdviCalculator.stats_get (entry :: entries) "NDVI_stdDev"),
    (NdviCalculator.stats_get (entry :: entries) "NDVI_min"),
    (NdviCalculator.stats_get (entry :: entries) "NDVI_max");
    cbn [NdviCalculator.remote_calls NdviCalculator.slept
         NdviCalculator.ended];
    rewrite !sum_app; (split; [lia | ]); (split; [lra | ]);
    try reflexivity; lia.
Qed.

(** X29. The cloud coverage and the thumbnail are not critical: when
    the geometry is built, the collection is counted and is not empty, and
    the statistics dictionary is not empty and holds no [None] among its
    five entries (an entry that is missing counts as 0), the statistics
    are returned, rounded to four decimals and stamped with the clock,
    whatever the cloud coverage and thumbnail fetches answer or raise. *)
Theorem cloud_and_thumbnail_are_not_critical :
  forall (polygon : json) (start_date end_date : string) (w : W)
         (aoi : json) (collection_size : Z) (d : NdviCalculator.stats)
         (mean median std min_val max_val : R),
    NdviCalculator.ee_polygon_of ee polygon = Ok aoi ->
    (forall w', fst (size_info aoi start_date end_date w')
                = Ok collection_size) ->
    collection_size <> 0%Z ->
    (forall w', fst (stats_info aoi start_date end_date w') = Ok (Some d)) ->
    d <> [] ->
    NdviCalculator.stats_get d "NDVI_mean" = Some mean ->
    NdviCalculator.stats_get d "NDVI_median" = Some median ->
    NdviCalculator.stats_get d "NDVI_stdDev" = Some std ->
    NdviCalculator.stats_get d "NDVI_min" = Some min_val ->
    NdviCalculator.stats_get d "NDVI_max" = Some max_val ->
    exists r,
      NdviCalculator.ended (calculate_ndvi polygon start_date end_date w)
      = NdviCalculator.Return r
      /\ NdviCalculator.mean r = py_round mean 4
      /\ NdviCalculator.median r = py_round median 4
      /\ NdviCalculator.std r = py_round std 4
      /\ NdviCalculator.min r = py_round min_val 4
      /\ NdviCalculator.max r = py_round max_val 4
      /\ NdviCalculator.calculatedAt r = now_iso ee.
Proof.
  intros polygon start_date end_date w aoi collection_size d
         mean median std min_val max_val
         Haoi Hsize Hnonzero Hstats Hd Hmean Hmedian Hstd Hmin Hmax.
  unfold NdviCalculator.calculate_ndvi. rewrite Haoi. cbv zeta.
  unfold NdviCalculator.check_collection_size.
  rewrite (retry_outcome_first_ok _ _ _ 3%Z 2 _ w collection_size
             ltac:(lia) (Hsize w)).
  apply Z.eqb_neq in Hnonzero. rewrite Hnonzero.
  unfold NdviCalculator.get_stats.
  rewrite (retry_outcome_first_ok _ _ _ 3%Z 2 _ _ (Some d)
             ltac:(lia) (Hstats _)).
  destruct d as [ | entry entries]; [contradiction | ].
  rewrite Hmean, Hmedian, Hstd, Hmin, Hmax.
  eexists. cbn [NdviCalculator.ended]. split; [reflexivity | ].
  repeat split.
Qed.

End NdviFacts.

(** Five images, a dictionary without the minimum entry, and a cloud
    coverage and a thumbnail that fail. *)
Lemma cloud_and_thumbnail_are_not_critical_witness :
  exists r,
    NdviCalculator.ended
      (NdviCalculator.calculate_ndvi
         (constant_provider 10000 5 Absent Absent Absent)
         sample_size_info failing_cloud_info sample_stats_info
         failing_thumb_info square_polygon "2024-01-01" "2024-12-31" 0%nat)
    = NdviCalculator.Return r
    /\ NdviCalculator.mean r = py_round (1 / 2) 4
    /\ NdviCalculator.min r = py_round 0 4.
Proof.
  destruct (cloud_and_thumbnail_are_not_critical
              (constant_provider 10000 5 Absent Absent Absent)
              sample_size_info failing_cloud_info sample_stats_info
              failing_thumb_info square_polygon "2024-01-01" "2024-12-31"
              0%nat _ 5%Z sample_stats (1 / 2) (1 / 2) (1 / 10) 0 (9 / 10)
              eq_refl (fun _ => eq_refl) ltac:(discriminate)
              (fun _ => eq_refl) ltac:(discriminate)
              eq_refl eq_refl eq_refl eq_refl eq_refl)
    as (r & Hr & Hmean & _ & _ & Hmin & _).
  exists r. split; [exact Hr | ]. split; [exact Hmean | exact Hmin].
Defined.

(* ================================================================== *)
(** ** Deforestation analyzer: the reported percentage and the flag *)


Lemma round_half_even_down (z : Z) (x : R) :
  IZR z <= x < IZR z + 1 / 2 -> round_half_even x = z.
Proof.
  intros [Hlo Hhi]. unfold round_half_even.
  rewrite (Zfloor_eq z x) by lra.
  destruct (Rlt_dec (x - IZR z) (1 / 2)) as [_ | Hge]; [reflexivity | lra].
Qed.

(** What the reported percentage tells about the flag: the percentage is
    rounded to two decimals after the comparison with 5 was made. *)
Lemma compliance_of_reported (p : R) :
  (py_round p 2 < 5 -> Rltb p 5 = true)
  /\ (5 < py_round p 2 -> Rltb p 5 = false).
Proof.
  split; intro H.
  - apply Rltb_true_iff. destruct (Rlt_dec p 5) as [Hlt | Hge]; [exact Hlt | ].
    exfalso. assert (Hle : 5 <= p) by lra.
    pose proof (py_round_monotone 5 p 2 Hle) as Hm.
    rewrite (py_round_IZR 5 2) in Hm. lra.
  - apply Rltb_false_iff. destruct (Rle_dec 5 p) as [Hle | Hgt]; [exact Hle | ].
    exfalso. assert (Hle : p <= 5) by lra.
    pose proof (py_round_monotone p 5 2 Hle) as Hm.
    rewrite (py_round_IZR 5 2) in Hm. lra.
Qed.

(** The same for any percentage [p] that was computed, whatever the
    rounding errors of its computation, and for a reported value that is
    stored as a double after being rounded to two decimals: [to_double]
    is any monotone rounding to representable numbers that leaves 5
    unchanged. *)
Lemma compliance_of_reported_double (to_double : R -> R) (p : R) :
  (forall x y, x <= y -> to_double x <= to_double y) ->
  to_double 5 = 5 ->
  (to_double (py_round p 2) < 5 -> Rltb p 5 = true)
  /\ (5 < to_double (py_round p 2) -> Rltb p 5 = false).
Proof.
  intros Hmono Hfive. split; intro H.
  - apply compliance_of_reported.
    destruct (Rlt_dec (py_round p 2) 5) as [Hlt | Hge]; [exact Hlt | ].
    exfalso. assert (Hle : 5 <= py_round p 2) by lra.
    apply Hmono in Hle. lra.
  - apply compliance_of_reported.
    destruct (Rlt_dec 5 (py_round p 2)) as [Hlt | Hge]; [exact Hlt | ].
    exfalso. assert (Hle : py_round p 2 <= 5) by lra.
    apply Hmono in Hle. lra.
Qed.


Lemma percent_positive (lost initial : R) :
  0 < initial ->
  (if Rltb 0 initial then lost / initial * 100 else 0)
  = lost / initial * 100.
Proof.
  intro H. rewrite (proj2 (Rltb_true_iff 0 initial) H). reflexivity.
Qed.




(** The other side: 5.004 percent is reported as 5.0 too, and is not
    compliant. *)
Example reported_five_percent_is_not_compliant :
  exists r,
    Deforestation.analyze_deforestation
      (constant_provider 10000 0 Absent (Num 100000) (Num 5004))
      square_polygon "2020-01-01" "2024-12-31" "farm-1" = Ok r
    /\ Deforestation.deforestationPercent r = 5
    /\ Deforestation.compliant r = false.
Proof.
  destruct (analyze_deforestation_ok
              (constant_provider 10000 0 Absent (Num 100000) (Num 5004))
              square_polygon "2020-01-01" "2024-12-31" "farm-1"
              (Geometry.polygon_json
                 [[[0#1; 0#1]; [0#1; 1#1]; [1#1; 1#1]; [1#1; 0#1];
                   [0#1; 0#1]]])
              2020%Z 2024%Z 100000 5004 eq_refl eq_refl eq_refl eq_refl
              eq_refl)
    as (r & Hr & Hpercent & _ & _ & Hcompliant & _).
  cbv zeta in Hpercent, Hcompliant.
  rewrite percent_positive in Hpercent, Hcompliant by lra.
  replace (5004 * 0.09 / 100 / (100000 * 0.09 / 100) * 100) with 5.004
    in Hpercent, Hcompliant by lra.
  exists r. split; [exact Hr | ]. split.
  - rewrite Hpercent. unfold py_round. cbn [pow].
    rewrite (round_half_even_down 500) by lra. lra.
  - rewrite Hcompliant. apply Rltb_false_iff. lra.
Qed.

Section Binary64Checks.

Import PrimFloat.

(** The same inputs in binary64, the arithmetic of the source: 4.996
    percent is compliant and 5.004 percent is not, as above; and a loss
    sum of 15 on a cover sum of 300, which is 5 percent of it, gives the
    double 4.999999999999999, so that the source marks it compliant and
    reports 5.0. *)
Example binary64_compliance_at_the_threshold :
  Binary64.compliant 100000 4996 = true
  /\ Binary64.compliant 100000 5004 = false
  /\ Binary64.deforestation_percent 300 15 = 0x1.3ffffffffffffp+2%float
  /\ Binary64.compliant 300 15 = true
  /\ Binary64.farm_compliant 1000000 49960 = true
  /\ Binary64.farm_compliant 1000000 50040 = false.
Proof.
  repeat split; reflexivity.
Qed.

End Binary64Checks.

(* ================================================================== *)
(** ** Batch processing: a dump that fails *)

(** The square parcel with a dump that fails after the file was opened:
    the row reports the failure, and the file is left incomplete. *)
Example failed_dump_leaves_incomplete_file :
  snd (Batch.process_farm (constant_provider 10000 3 Absent Absent Absent)
         failing_ndvi sample_deforestation sample_carbon (fun _ => Ok tt)
         (fun _ _ =>
            Raise (OtherException "OSError" "No space left on device"))
         sample_path exn_message Retry.lower square_farm_file "out"
         "2024-01-01" "2024-12-31")
  = Batch.Incomplete "out/square_analysis.json"
  /\ Batch.success
       (fst (Batch.process_farm
               (constant_provider 10000 3 Absent Absent Absent)
               failing_ndvi sample_deforestation sample_carbon
               (fun _ => Ok tt)
               (fun _ _ =>
                  Raise (OtherException "OSError" "No space left on device"))
               sample_path exn_message Retry.lower square_farm_file "out"
               "2024-01-01" "2024-12-31"))
     = false.
Proof.
  split; reflexivity.
Qed.
